(** * Super-Sandbox pong: the simulation core of [main.py]

    A shallow embedding of the physics, collision and round logic of
    [main.py], and the properties of the specification checked against
    it.

    Number model.  Python floats are embedded as real numbers ([R]):
    arithmetic is exact, so a property that the specification states
    "within floating tolerance" is stated exactly here, and rounding,
    overflow and NaN are outside the model.  Integers that the program
    only ever mixes into float arithmetic (screen sizes, radii) are
    reals as well; the score is an integer ([Z]).

    Effects.  Every method mutates its object; here each one is a
    function from the old object to the new one.  The two places that
    can raise ([MATERIALS[name]] and [random.choice]) return a
    [Result].  The global random generator is an explicit record of the
    draws one tick can consume.

    Rendering is not part of the embedding.  Of the widgets and the
    menu, the geometry of the buttons, the calls that a mouse press
    makes and the mode selection are. *)

From Stdlib Require Import Reals Lra Lia ZArith String List Bool.
Import ListNotations.

Open Scope R_scope.

(** ** Comparisons and library functions *)

Definition fgt (a b : R) : bool := if Rgt_dec a b then true else false.
Definition flt (a b : R) : bool := if Rlt_dec a b then true else false.
Definition fge (a b : R) : bool := if Rge_dec a b then true else false.
Definition fle (a b : R) : bool := if Rle_dec a b then true else false.
Definition feq (a b : R) : bool := if Req_dec_T a b then true else false.

(** [max(a, b)] and [min(a, b)] of Python are [Rmax a b] and [Rmin a b]. *)

Definition clamp (v a b : R) : R := Rmax a (Rmin b v).

Definition vec_length (x y : R) : R := sqrt (x * x + y * y).

Definition normalize (x y : R) : R * R :=
  let l := vec_length x y in
  if feq l 0 then (0, 0) else (x / l, y / l).

Definition reflect (vx vy nx ny : R) : R * R :=
  let dot := vx * nx + vy * ny in
  let rx := vx - 2 * dot * nx in
  let ry := vy - 2 * dot * ny in
  (rx, ry).

(** [math.radians] *)
Definition radians (d : R) : R := d * (PI / 180).

(** ** Exceptions *)

Inductive Exception : Type :=
| KeyError (key : string)
| IndexError.

Inductive Result (A : Type) : Type :=
| Ok (a : A)
| Raise (e : Exception).

Arguments Ok {A} a.
Arguments Raise {A} e.

Definition bind {A B : Type} (m : Result A) (f : A -> Result B) : Result B :=
  match m with
  | Ok a => f a
  | Raise e => Raise e
  end.

Notation "x <- m ;; k" := (bind m (fun x => k))
  (at level 61, m at next level, right associativity).
Notation "' p <- m ;; k" := (bind m (fun p => k))
  (at level 61, p pattern, m at next level, right associativity).

(** ** Constants *)

Definition SCREEN_WIDTH : R := 1280.
Definition SCREEN_HEIGHT : R := 720.

Definition LEFT_PANEL_WIDTH : R := 260.
Definition BOTTOM_PANEL_HEIGHT : R := 120.
Definition MARGIN : R := 20.

Definition FIELD_LEFT : R := LEFT_PANEL_WIDTH + MARGIN.
Definition FIELD_RIGHT : R := SCREEN_WIDTH - MARGIN.
Definition FIELD_BOTTOM : R := BOTTOM_PANEL_HEIGHT + MARGIN.
Definition FIELD_TOP : R := SCREEN_HEIGHT - MARGIN.

Definition FIELD_CENTER_X : R := (FIELD_LEFT + FIELD_RIGHT) / 2.
Definition FIELD_CENTER_Y : R := (FIELD_BOTTOM + FIELD_TOP) / 2.

Definition GRAVITY : R := -1400.0.
Definition BALL_RADIUS : R := 12.
Definition BALL_BASE_SPEED : R := 650.0.
Definition BALL_MAX_SPEED : R := 1600.0.
Definition BALL_BOUNCE_DAMP : R := 0.98.

Definition VERT_PADDLE_LENGTH : R := 170.
Definition VERT_PADDLE_THICKNESS : R := 18.
Definition VERT_PADDLE_TILT_DEG : R := 30.

Definition HOR_PADDLE_WIDTH : R := 100.
Definition HOR_PADDLE_THICKNESS : R := 18.

Definition EVENT_INTERVAL : R := 10.0.
Definition EVENT_WARNING_TIME : R := 1.0.
Definition FIRE_STUN_DURATION : R := 3.0.

(** ** Material table *)

(** The [color] field only feeds the renderer and is left out. *)
Record Material : Type := mkMaterial {
  m_name : string;
  m_bounce : R;
  m_power : R;
  m_friction : R;
  m_burnable : bool
}.

Definition wood : string := "дерево".
Definition steel : string := "сталь".
Definition rubber : string := "резина".

Definition MATERIALS : list (string * Material) :=
  [ (wood, mkMaterial wood 0.95 1.00 0.10 true);
    (steel, mkMaterial steel 1.05 1.05 0.02 false);
    (rubber, mkMaterial rubber 1.20 1.10 0.05 false) ].

Fixpoint dict_get {V : Type} (d : list (string * V)) (k : string) : Result V :=
  match d with
  | [] => Raise (KeyError k)
  | (k', v) :: d' => if String.eqb k' k then Ok v else dict_get d' k
  end.

Definition dict_mem {V : Type} (d : list (string * V)) (k : string) : bool :=
  existsb (fun kv => String.eqb (fst kv) k) d.

(** ** Records of the simulation state *)

Inductive Side : Type := Left | Right.

Record Ball : Type := mkBall {
  b_x : R;
  b_y : R;
  b_vx : R;
  b_vy : R;
  b_radius : R
}.

Record VerticalPaddle : Type := mkVerticalPaddle {
  vp_side : Side;
  vp_length : R;
  vp_thickness : R;
  vp_tilt_deg : R;
  vp_x : R;
  vp_y : R;
  vp_speed : R;
  vp_material_name : string;
  vp_enabled : bool;
  vp_burned_out : bool
}.

Record HorizontalPaddle : Type := mkHorizontalPaddle {
  hp_side : Side;
  hp_width : R;
  hp_thickness : R;
  hp_y : R;
  hp_speed : R;
  hp_min_x : R;
  hp_max_x : R;
  hp_x : R;
  hp_material_name : string;
  hp_enabled : bool;
  hp_burned_out : bool
}.

Record Player : Type := mkPlayer {
  p_side : Side;
  p_is_cpu : bool;
  p_vert : VerticalPaddle;
  p_horz : HorizontalPaddle;
  p_score : Z;
  p_move_vert : R;
  p_move_horz : R;
  p_stun_timer : R
}.

(** The event classes: the base class [GameEvent] and [FireEvent]. *)
Inductive GameEvent : Type := BaseEvent | FireEvent.

Record EventManager : Type := mkEventManager {
  em_timer : R;
  em_next_event_in : R;
  em_warning_active : bool;
  em_warning_timer : R;
  em_current_warning_text : string;
  em_events : list GameEvent
}.

Inductive State : Type := countdown | playing | paused.

(** The button lists and the [debug] flag of [GameView] are left out. *)
Record GameView : Type := mkGameView {
  g_mode : string;
  g_player_left : Player;
  g_player_right : Player;
  g_ball : Ball;
  g_event_manager : EventManager;
  g_selected_player_for_material : Side;
  g_state : State;
  g_countdown : R;
  g_countdown_text : string;
  g_pending_event : option GameEvent;
  g_last_event_text : string;
  g_last_event_timer : R
}.

(** The draws of the random generator that one call can consume: an
    index for each [random.choice] site and the value of
    [random.uniform(-0.35, 0.35)]. *)
Record Random : Type := mkRandom {
  rnd_warning_choice : nat;
  rnd_fallback_choice : nat;
  rnd_dir_choice : nat;
  rnd_angle : R
}.

(** [random.choice(l)]: the element at the drawn index; an empty [l]
    raises [IndexError]. *)
Definition random_choice {A : Type} (i : nat) (l : list A) : Result A :=
  match nth_error l (i mod List.length l) with
  | Some a => Ok a
  | None => Raise IndexError
  end.

(** [random.choice] of a list literal [a :: l], which cannot raise. *)
Definition random_choice_of {A : Type} (i : nat) (a : A) (l : list A) : A :=
  nth (i mod List.length (a :: l)) (a :: l) a.

(** ** Ball *)

Module Ball.

Definition init : Ball :=
  mkBall FIELD_CENTER_X FIELD_CENTER_Y 0.0 0.0 BALL_RADIUS.

Definition reset (rnd : Random) (self : Ball) : Ball :=
  let dir_x := random_choice_of (rnd_dir_choice rnd) (-1) [1] in
  let angle := rnd_angle rnd in
  mkBall FIELD_CENTER_X FIELD_CENTER_Y
    (dir_x * BALL_BASE_SPEED * cos angle)
    (BALL_BASE_SPEED * sin angle * 0.3)
    (b_radius self).

Definition update (dt : R) (self : Ball) : Ball :=
  let vy := b_vy self + GRAVITY * dt in
  let x := b_x self + b_vx self * dt in
  let y := b_y self + vy * dt in
  let sp := vec_length (b_vx self) vy in
  if fgt sp BALL_MAX_SPEED then
    let '(nx, ny) := normalize (b_vx self) vy in
    mkBall x y (nx * BALL_MAX_SPEED) (ny * BALL_MAX_SPEED) (b_radius self)
  else
    mkBall x y (b_vx self) vy (b_radius self).

End Ball.

(** ** Paddles *)

Module VerticalPaddle.

Definition init (side : Side) : VerticalPaddle :=
  mkVerticalPaddle side VERT_PADDLE_LENGTH VERT_PADDLE_THICKNESS
    VERT_PADDLE_TILT_DEG
    (match side with Left => FIELD_LEFT + 60 | Right => FIELD_RIGHT - 60 end)
    FIELD_CENTER_Y 900.0 wood true false.

Definition material (self : VerticalPaddle) : Result Material :=
  dict_get MATERIALS (vp_material_name self).

Definition set_material (name : string) (self : VerticalPaddle)
  : VerticalPaddle :=
  mkVerticalPaddle (vp_side self) (vp_length self) (vp_thickness self)
    (vp_tilt_deg self) (vp_x self) (vp_y self) (vp_speed self)
    name (vp_enabled self) false.

Definition set_enabled (e : bool) (self : VerticalPaddle) : VerticalPaddle :=
  mkVerticalPaddle (vp_side self) (vp_length self) (vp_thickness self)
    (vp_tilt_deg self) (vp_x self) (vp_y self) (vp_speed self)
    (vp_material_name self) e (vp_burned_out self).

Definition set_burned_out (b : bool) (self : VerticalPaddle)
  : VerticalPaddle :=
  mkVerticalPaddle (vp_side self) (vp_length self) (vp_thickness self)
    (vp_tilt_deg self) (vp_x self) (vp_y self) (vp_speed self)
    (vp_material_name self) (vp_enabled self) b.

Definition get_segment (self : VerticalPaddle) : R * R * R * R :=
  let theta :=
    match vp_side self with
    | Right => radians (180 - vp_tilt_deg self)
    | Left => radians (vp_tilt_deg self)
    end in
  let dx := cos theta * (vp_length self / 2) in
  let dy := sin theta * (vp_length self / 2) in
  let x1 := vp_x self - dx in
  let y1 := vp_y self - dy in
  let x2 := vp_x self + dx in
  let y2 := vp_y self + dy in
  (x1, y1, x2, y2).

Definition update (dt move_dir : R) (self : VerticalPaddle)
  : VerticalPaddle :=
  if negb (vp_enabled self) || vp_burned_out self then self
  else
    let y := vp_y self + move_dir * vp_speed self * dt in
    let pad := vp_length self / 2 in
    let y := clamp y (FIELD_BOTTOM + pad) (FIELD_TOP - pad) in
    mkVerticalPaddle (vp_side self) (vp_length self) (vp_thickness self)
      (vp_tilt_deg self) (vp_x self) y (vp_speed self)
      (vp_material_name self) (vp_enabled self) (vp_burned_out self).

End VerticalPaddle.

Module HorizontalPaddle.

Definition init (side : Side) : HorizontalPaddle :=
  let width := HOR_PADDLE_WIDTH in
  let min_x :=
    match side with
    | Left => FIELD_LEFT + width / 2
    | Right => FIELD_CENTER_X + 40
    end in
  let max_x :=
    match side with
    | Left => FIELD_CENTER_X - 40
    | Right => FIELD_RIGHT - width / 2
    end in
  let x :=
    match side with
    | Left => min_x + 50
    | Right => max_x - 50
    end in
  mkHorizontalPaddle side width HOR_PADDLE_THICKNESS (FIELD_BOTTOM + 220)
    900.0 min_x max_x x wood true false.

Definition material (self : HorizontalPaddle) : Result Material :=
  dict_get MATERIALS (hp_material_name self).

Definition set_material (name : string) (self : HorizontalPaddle)
  : HorizontalPaddle :=
  mkHorizontalPaddle (hp_side self) (hp_width self) (hp_thickness self)
    (hp_y self) (hp_speed self) (hp_min_x self) (hp_max_x self) (hp_x self)
    name (hp_enabled self) false.

Definition set_enabled (e : bool) (self : HorizontalPaddle)
  : HorizontalPaddle :=
  mkHorizontalPaddle (hp_side self) (hp_width self) (hp_thickness self)
    (hp_y self) (hp_speed self) (hp_min_x self) (hp_max_x self) (hp_x self)
    (hp_material_name self) e (hp_burned_out self).

Definition set_burned_out (b : bool) (self : HorizontalPaddle)
  : HorizontalPaddle :=
  mkHorizontalPaddle (hp_side self) (hp_width self) (hp_thickness self)
    (hp_y self) (hp_speed self) (hp_min_x self) (hp_max_x self) (hp_x self)
    (hp_material_name self) (hp_enabled self) b.

Definition update (dt move_dir : R) (self : HorizontalPaddle)
  : HorizontalPaddle :=
  if negb (hp_enabled self) || hp_burned_out self then self
  else
    let x := hp_x self + move_dir * hp_speed self * dt in
    let x := clamp x (hp_min_x self) (hp_max_x self) in
    mkHorizontalPaddle (hp_side self) (hp_width self) (hp_thickness self)
      (hp_y self) (hp_speed self) (hp_min_x self) (hp_max_x self) x
      (hp_material_name self) (hp_enabled self) (hp_burned_out self).

End HorizontalPaddle.

(** ** Player *)

Module Player.

Definition init (side : Side) (is_cpu : bool) : Player :=
  mkPlayer side is_cpu (VerticalPaddle.init side) (HorizontalPaddle.init side)
    0%Z 0.0 0.0 0.0.

Definition set_material (name : string) (self : Player) : Player :=
  mkPlayer (p_side self) (p_is_cpu self)
    (VerticalPaddle.set_material name (p_vert self))
    (HorizontalPaddle.set_material name (p_horz self))
    (p_score self) (p_move_vert self) (p_move_horz self) (p_stun_timer self).

Definition get_material (self : Player) : string :=
  vp_material_name (p_vert self).

Definition set_stun (duration : R) (self : Player) : Player :=
  mkPlayer (p_side self) (p_is_cpu self) (p_vert self) (p_horz self)
    (p_score self) (p_move_vert self) (p_move_horz self)
    (Rmax (p_stun_timer self) duration).

Definition set_moves (move_vert move_horz : R) (self : Player) : Player :=
  mkPlayer (p_side self) (p_is_cpu self) (p_vert self) (p_horz self)
    (p_score self) move_vert move_horz (p_stun_timer self).

Definition set_score (score : Z) (self : Player) : Player :=
  mkPlayer (p_side self) (p_is_cpu self) (p_vert self) (p_horz self)
    score (p_move_vert self) (p_move_horz self) (p_stun_timer self).

Definition _cpu_control (dt : R) (ball : Ball) (self : Player) : Player :=
  let move_vert :=
    if fgt (b_y ball) (vp_y (p_vert self) + 10) then 1.0
    else if flt (b_y ball) (vp_y (p_vert self) - 10) then -1.0
    else 0.0 in
  let target_x :=
    clamp (b_x ball) (hp_min_x (p_horz self)) (hp_max_x (p_horz self)) in
  let move_horz :=
    if fgt target_x (hp_x (p_horz self) + 8) then 1.0
    else if flt target_x (hp_x (p_horz self) - 8) then -1.0
    else 0.0 in
  set_moves move_vert move_horz self.

(** The first statement of [update]: the stun branch. *)
Definition update_stun (dt : R) (self : Player) : Player :=
  if fgt (p_stun_timer self) 0 then
    mkPlayer (p_side self) (p_is_cpu self)
      (VerticalPaddle.set_enabled false (p_vert self))
      (HorizontalPaddle.set_enabled false (p_horz self))
      (p_score self) 0.0 0.0 (p_stun_timer self - dt)
  else
    mkPlayer (p_side self) (p_is_cpu self)
      (VerticalPaddle.set_enabled true (p_vert self))
      (HorizontalPaddle.set_enabled true (p_horz self))
      (p_score self) (p_move_vert self) (p_move_horz self)
      (p_stun_timer self).

(** The last two statements of [update]: both paddles move. *)
Definition update_paddles (dt : R) (self : Player) : Player :=
  mkPlayer (p_side self) (p_is_cpu self)
    (VerticalPaddle.update dt (p_move_vert self) (p_vert self))
    (HorizontalPaddle.update dt (p_move_horz self) (p_horz self))
    (p_score self) (p_move_vert self) (p_move_horz self) (p_stun_timer self).

Definition update (dt : R) (ball : Ball) (self : Player) : Player :=
  let self := update_stun dt self in
  let self := if p_is_cpu self then _cpu_control dt ball self else self in
  update_paddles dt self.

(** The two assignments to the paddles' [burned_out] that [FireEvent.apply]
    and [_reset_round] make. *)
Definition set_burned_out (b : bool) (self : Player) : Player :=
  mkPlayer (p_side self) (p_is_cpu self)
    (VerticalPaddle.set_burned_out b (p_vert self))
    (HorizontalPaddle.set_burned_out b (p_horz self))
    (p_score self) (p_move_vert self) (p_move_horz self) (p_stun_timer self).

Definition set_stun_timer (t : R) (self : Player) : Player :=
  mkPlayer (p_side self) (p_is_cpu self) (p_vert self) (p_horz self)
    (p_score self) (p_move_vert self) (p_move_horz self) t.

End Player.

(** ** Collision resolver *)

Definition closest_point_on_segment (px py x1 y1 x2 y2 : R) : R * R * R :=
  let vx := x2 - x1 in
  let vy := y2 - y1 in
  let denom := vx * vx + vy * vy in
  if feq denom 0 then (x1, y1, 0.0)
  else
    let t := ((px - x1) * vx + (py - y1) * vy) / denom in
    let t := clamp t 0.0 1.0 in
    let cx := x1 + t * vx in
    let cy := y1 + t * vy in
    (cx, cy, t).

(** Both resolvers return the flag and the ball as they leave it. *)
Definition collide_ball_with_vertical_paddle
  (ball : Ball) (paddle : VerticalPaddle) : Result (bool * Ball) :=
  if vp_burned_out paddle then Ok (false, ball)
  else
    let '(x1, y1, x2, y2) := VerticalPaddle.get_segment paddle in
    let '(cx, cy, _t) :=
      closest_point_on_segment (b_x ball) (b_y ball) x1 y1 x2 y2 in
    let dx := b_x ball - cx in
    let dy := b_y ball - cy in
    let dist := vec_length dx dy in
    let capsule_r := vp_thickness paddle / 2 in
    if fle dist (b_radius ball + capsule_r) then
      let '(nx, ny) := normalize dx dy in
      let '(nx, ny) :=
        if feq nx 0 && feq ny 0 then (1.0, 0.0) else (nx, ny) in
      let penetration := (b_radius ball + capsule_r) - dist in
      let bx := b_x ball + nx * (penetration + 0.5) in
      let by_ := b_y ball + ny * (penetration + 0.5) in
      let '(rvx, rvy) := reflect (b_vx ball) (b_vy ball) nx ny in
      mat <- VerticalPaddle.material paddle ;;
      let rvx := rvx * m_bounce mat in
      let rvy := rvy * m_bounce mat in
      let rvx := rvx * m_power mat in
      let rvy := rvy * m_power mat in
      let tx := - ny in
      let ty := nx in
      let tang := rvx * tx + rvy * ty in
      let rvx := rvx - tang * m_friction mat * tx in
      let rvy := rvy - tang * m_friction mat * ty in
      Ok (true,
          mkBall bx by_ (rvx * BALL_BOUNCE_DAMP) (rvy * BALL_BOUNCE_DAMP)
            (b_radius ball))
    else Ok (false, ball).

Definition collide_ball_with_horizontal_paddle
  (ball : Ball) (paddle : HorizontalPaddle) : Result (bool * Ball) :=
  if hp_burned_out paddle then Ok (false, ball)
  else
    let half_w := hp_width paddle / 2 in
    let half_h := hp_thickness paddle / 2 in
    if fle (hp_x paddle - half_w - b_radius ball) (b_x ball)
       && fle (b_x ball) (hp_x paddle + half_w + b_radius ball)
       && fle (hp_y paddle - half_h - b_radius ball) (b_y ball)
       && fle (b_y ball) (hp_y paddle + half_h + b_radius ball)
    then
      let '(nx, ny, by_) :=
        if fge (b_y ball) (hp_y paddle)
        then (0.0, 1.0, hp_y paddle + half_h + b_radius ball + 0.5)
        else (0.0, -1.0, hp_y paddle - half_h - b_radius ball - 0.5) in
      let '(rvx, rvy) := reflect (b_vx ball) (b_vy ball) nx ny in
      mat <- HorizontalPaddle.material paddle ;;
      let rvy := Rabs rvy + 520.0 in
      let rvy := rvy * (m_bounce mat * m_power mat) in
      let rvx := rvx * m_bounce mat in
      let rvx := rvx * (1.0 - m_friction mat) in
      Ok (true,
          mkBall (b_x ball) by_ (rvx * BALL_BOUNCE_DAMP)
            (rvy * BALL_BOUNCE_DAMP) (b_radius ball))
    else Ok (false, ball).

(** ** Field updates of [GameView] *)

Definition gv_set_players (pl pr : Player) (self : GameView) : GameView :=
  mkGameView (g_mode self) pl pr (g_ball self) (g_event_manager self)
    (g_selected_player_for_material self) (g_state self) (g_countdown self)
    (g_countdown_text self) (g_pending_event self) (g_last_event_text self)
    (g_last_event_timer self).

Definition gv_set_ball (b : Ball) (self : GameView) : GameView :=
  mkGameView (g_mode self) (g_player_left self) (g_player_right self) b
    (g_event_manager self) (g_selected_player_for_material self)
    (g_state self) (g_countdown self) (g_countdown_text self)
    (g_pending_event self) (g_last_event_text self)
    (g_last_event_timer self).

Definition gv_set_event_manager (em : EventManager) (self : GameView)
  : GameView :=
  mkGameView (g_mode self) (g_player_left self) (g_player_right self)
    (g_ball self) em (g_selected_player_for_material self)
    (g_state self) (g_countdown self) (g_countdown_text self)
    (g_pending_event self) (g_last_event_text self)
    (g_last_event_timer self).

Definition gv_set_selected (s : Side) (self : GameView) : GameView :=
  mkGameView (g_mode self) (g_player_left self) (g_player_right self)
    (g_ball self) (g_event_manager self) s
    (g_state self) (g_countdown self) (g_countdown_text self)
    (g_pending_event self) (g_last_event_text self)
    (g_last_event_timer self).

Definition gv_set_state (st : State) (self : GameView) : GameView :=
  mkGameView (g_mode self) (g_player_left self) (g_player_right self)
    (g_ball self) (g_event_manager self)
    (g_selected_player_for_material self)
    st (g_countdown self) (g_countdown_text self)
    (g_pending_event self) (g_last_event_text self)
    (g_last_event_timer self).

Definition gv_set_countdown (c : R) (text : string) (self : GameView)
  : GameView :=
  mkGameView (g_mode self) (g_player_left self) (g_player_right self)
    (g_ball self) (g_event_manager self)
    (g_selected_player_for_material self)
    (g_state self) c text
    (g_pending_event self) (g_last_event_text self)
    (g_last_event_timer self).

Definition gv_set_pending_event (ev : option GameEvent) (self : GameView)
  : GameView :=
  mkGameView (g_mode self) (g_player_left self) (g_player_right self)
    (g_ball self) (g_event_manager self)
    (g_selected_player_for_material self)
    (g_state self) (g_countdown self) (g_countdown_text self)
    ev (g_last_event_text self) (g_last_event_timer self).

Definition gv_set_last_event (text : string) (timer : R) (self : GameView)
  : GameView :=
  mkGameView (g_mode self) (g_player_left self) (g_player_right self)
    (g_ball self) (g_event_manager self)
    (g_selected_player_for_material self)
    (g_state self) (g_countdown self) (g_countdown_text self)
    (g_pending_event self) text timer.

(** ** Events *)

Module GameEvent.

Definition name (ev : GameEvent) : string :=
  match ev with
  | BaseEvent => "event"
  | FireEvent => "пожар на карте"
  end.

End GameEvent.

Module FireEvent.

(** The loop body of [apply] for one player. *)
Definition apply_player (p : Player) : Player :=
  if String.eqb (Player.get_material p) wood then
    Player.set_stun FIRE_STUN_DURATION (Player.set_burned_out true p)
  else p.

Definition apply (game : GameView) : GameView :=
  gv_set_players
    (apply_player (g_player_left game))
    (apply_player (g_player_right game))
    game.

End FireEvent.

(** Dynamic dispatch of [ev.apply(game)]; the base class does nothing. *)
Definition GameEvent_apply (ev : GameEvent) (game : GameView) : GameView :=
  match ev with
  | BaseEvent => game
  | FireEvent => FireEvent.apply game
  end.

Module EventManager.

Definition init : EventManager :=
  mkEventManager 0.0 EVENT_INTERVAL false 0.0 "" [FireEvent].

(** [self.timer += dt; self.next_event_in -= dt] *)
Definition update_timers (dt : R) (self : EventManager) : EventManager :=
  mkEventManager (em_timer self + dt) (em_next_event_in self - dt)
    (em_warning_active self) (em_warning_timer self)
    (em_current_warning_text self) (em_events self).

(** The first [if]: the warning is raised and an event is chosen. *)
Definition update_warn (rnd : Random) (game : GameView) : Result GameView :=
  let self := g_event_manager game in
  if negb (em_warning_active self)
     && fle (em_next_event_in self) EVENT_WARNING_TIME
  then
    ev <- random_choice (rnd_warning_choice rnd) (em_events self) ;;
    Ok (gv_set_pending_event (Some ev)
          (gv_set_event_manager
             (mkEventManager (em_timer self) (em_next_event_in self)
                true EVENT_WARNING_TIME
                ("событие через 1 секунду: " ++ GameEvent.name ev)
                (em_events self))
             game))
  else Ok game.

(** The second [if]: the warning runs down. *)
Definition update_warning_timer (dt : R) (self : EventManager)
  : EventManager :=
  if em_warning_active self then
    let warning_timer := em_warning_timer self - dt in
    mkEventManager (em_timer self) (em_next_event_in self)
      (if fle warning_timer 0 then false else em_warning_active self)
      warning_timer (em_current_warning_text self) (em_events self)
  else self.

(** The third [if]: the interval ran out and the event is applied. *)
Definition update_fire (rnd : Random) (game : GameView) : Result GameView :=
  let self := g_event_manager game in
  if fle (em_next_event_in self) 0 then
    let game :=
      gv_set_event_manager
        (mkEventManager (em_timer self) EVENT_INTERVAL
           (em_warning_active self) (em_warning_timer self)
           (em_current_warning_text self) (em_events self))
        game in
    ev <- match g_pending_event game with
          | None => random_choice (rnd_fallback_choice rnd) (em_events self)
          | Some ev => Ok ev
          end ;;
    let game := gv_set_pending_event (Some ev) game in
    let game := GameEvent_apply ev game in
    let game :=
      gv_set_last_event ("событие: " ++ GameEvent.name ev) 2.0 game in
    Ok (gv_set_pending_event None game)
  else Ok game.

Definition update (dt : R) (rnd : Random) (game : GameView)
  : Result GameView :=
  let game :=
    gv_set_event_manager (update_timers dt (g_event_manager game)) game in
  game <- update_warn rnd game ;;
  let game :=
    gv_set_event_manager
      (update_warning_timer dt (g_event_manager game)) game in
  update_fire rnd game.

End EventManager.

(** ** Round controller *)

Inductive Key : Type :=
| K_W | K_S | K_A | K_D
| K_UP | K_DOWN | K_LEFT | K_RIGHT
| K_ESCAPE | K_TAB | K_P | K_F3
| K_other.

Definition LEFT_VERTICAL_UP : Key := K_W.
Definition LEFT_VERTICAL_DOWN : Key := K_S.
Definition LEFT_HORIZONTAL_LEFT : Key := K_A.
Definition LEFT_HORIZONTAL_RIGHT : Key := K_D.

Definition RIGHT_VERTICAL_UP : Key := K_UP.
Definition RIGHT_VERTICAL_DOWN : Key := K_DOWN.
Definition RIGHT_HORIZONTAL_LEFT : Key := K_LEFT.
Definition RIGHT_HORIZONTAL_RIGHT : Key := K_RIGHT.

Definition key_eqb (a b : Key) : bool :=
  match a, b with
  | K_W, K_W | K_S, K_S | K_A, K_A | K_D, K_D
  | K_UP, K_UP | K_DOWN, K_DOWN | K_LEFT, K_LEFT | K_RIGHT, K_RIGHT
  | K_ESCAPE, K_ESCAPE | K_TAB, K_TAB | K_P, K_P | K_F3, K_F3
  | K_other, K_other => true
  | _, _ => false
  end.

Module GameView.

Definition init (mode : string) : GameView :=
  mkGameView mode
    (Player.init Left false)
    (Player.init Right (String.eqb mode "cpu"))
    Ball.init EventManager.init Left
    countdown 3.0 "3" None "" 0.0.

Definition _toggle_pause (self : GameView) : GameView :=
  match g_state self with
  | paused => gv_set_state playing self
  | playing => gv_set_state paused self
  | countdown => self
  end.

Definition _toggle_material_target (self : GameView) : GameView :=
  gv_set_selected
    (match g_selected_player_for_material self with
     | Left => Right
     | Right => Left
     end) self.

Definition _apply_material (name : string) (self : GameView) : GameView :=
  match g_selected_player_for_material self with
  | Left =>
      gv_set_players (Player.set_material name (g_player_left self))
        (g_player_right self) self
  | Right =>
      gv_set_players (g_player_left self)
        (Player.set_material name (g_player_right self)) self
  end.

Definition _reset_round (first : bool) (rnd : Random) (self : GameView)
  : GameView :=
  let ball := Ball.reset rnd (g_ball self) in
  let ball := mkBall (b_x ball) (b_y ball) 0.0 0.0 (b_radius ball) in
  let self := gv_set_ball ball self in
  let self := gv_set_countdown 3.0 "3" (gv_set_state countdown self) in
  let clear (p : Player) :=
    Player.set_stun_timer 0.0 (Player.set_burned_out false p) in
  let pl := clear (g_player_left self) in
  let pr := clear (g_player_right self) in
  let pl := if first then Player.set_score 0%Z pl else pl in
  let pr := if first then Player.set_score 0%Z pr else pr in
  gv_set_players pl pr self.

Definition _start_ball_after_countdown (rnd : Random) (self : GameView)
  : GameView :=
  gv_set_ball (Ball.reset rnd (g_ball self)) self.

Definition on_show_view (rnd : Random) (self : GameView) : GameView :=
  _reset_round true rnd self.

(** The wall test of [on_update]. *)
Definition on_update_walls (ball : Ball) : Ball :=
  if fle (b_y ball - b_radius ball) FIELD_BOTTOM then
    mkBall (b_x ball) (FIELD_BOTTOM + b_radius ball + 0.5)
      (b_vx ball) (Rabs (b_vy ball) * 0.85) (b_radius ball)
  else if fge (b_y ball + b_radius ball) FIELD_TOP then
    mkBall (b_x ball) (FIELD_TOP - b_radius ball - 0.5)
      (b_vx ball) (- Rabs (b_vy ball) * 0.85) (b_radius ball)
  else ball.

(** The four resolver calls of [on_update], or-ed into [hit]. *)
Definition on_update_collisions (self : GameView) : Result (bool * Ball) :=
  let hit := false in
  '(h, ball) <- collide_ball_with_vertical_paddle
                  (g_ball self) (p_vert (g_player_left self)) ;;
  let hit := hit || h in
  '(h, ball) <- collide_ball_with_vertical_paddle
                  ball (p_vert (g_player_right self)) ;;
  let hit := hit || h in
  '(h, ball) <- collide_ball_with_horizontal_paddle
                  ball (p_horz (g_player_left self)) ;;
  let hit := hit || h in
  '(h, ball) <- collide_ball_with_horizontal_paddle
                  ball (p_horz (g_player_right self)) ;;
  let hit := hit || h in
  Ok (hit, ball).

(** The playing branch of [on_update] before the ball moves: the event
    scheduler and both players. *)
Definition on_update_before_ball (dt : R) (rnd : Random) (self : GameView)
  : Result GameView :=
  self <- EventManager.update dt rnd self ;;
  let pl := Player.update dt (g_ball self) (g_player_left self) in
  let pr := Player.update dt (g_ball self) (g_player_right self) in
  Ok (gv_set_players pl pr self).

(** [self.ball.update(dt)] and the wall test. *)
Definition on_update_move (dt : R) (self : GameView) : GameView :=
  let self := gv_set_ball (Ball.update dt (g_ball self)) self in
  gv_set_ball (on_update_walls (g_ball self)) self.

(** The playing branch of [on_update] up to the rally boost. *)
Definition on_update_playing (dt : R) (rnd : Random) (self : GameView)
  : Result GameView :=
  self <- on_update_before_ball dt rnd self ;;
  let self := on_update_move dt self in
  '(hit, ball) <- on_update_collisions self ;;
  let ball :=
    if hit then
      mkBall (b_x ball) (b_y ball) (b_vx ball * 1.01) (b_vy ball * 1.01)
        (b_radius ball)
    else ball in
  Ok (gv_set_ball ball self).

(** The goal test that ends the playing branch of [on_update]. *)
Definition on_update_goal (rnd : Random) (self : GameView) : GameView :=
  let ball := g_ball self in
  if flt (b_x ball + b_radius ball) FIELD_LEFT then
    let pr := g_player_right self in
    let self :=
      gv_set_players (g_player_left self)
        (Player.set_score (p_score pr + 1)%Z pr) self in
    _reset_round false rnd self
  else if fgt (b_x ball - b_radius ball) FIELD_RIGHT then
    let pl := g_player_left self in
    let self :=
      gv_set_players (Player.set_score (p_score pl + 1)%Z pl)
        (g_player_right self) self in
    _reset_round false rnd self
  else self.

(** The countdown branch of [on_update]. *)
Definition on_update_countdown (dt : R) (rnd : Random) (self : GameView)
  : GameView :=
  let c := g_countdown self - dt in
  let self := gv_set_countdown c (g_countdown_text self) self in
  let self :=
    if fgt c 2 then gv_set_countdown c "3" self
    else if fgt c 1 then gv_set_countdown c "2" self
    else if fgt c 0 then gv_set_countdown c "1" self
    else _start_ball_after_countdown rnd (gv_set_state playing self) in
  let pl := Player.update dt (g_ball self) (g_player_left self) in
  let pr := Player.update dt (g_ball self) (g_player_right self) in
  gv_set_players pl pr self.

(** The decay of the last event message in [on_update]. *)
Definition on_update_message (dt : R) (self : GameView) : GameView :=
  if fgt (g_last_event_timer self) 0 then
    gv_set_last_event (g_last_event_text self)
      (g_last_event_timer self - dt) self
  else self.

(** [on_update] from its second statement on: [dt] is the capped step. *)
Definition on_update_step (dt : R) (rnd : Random) (self : GameView)
  : Result GameView :=
  let self := on_update_message dt self in
  match g_state self with
  | paused => Ok self
  | countdown => Ok (on_update_countdown dt rnd self)
  | playing =>
      self <- on_update_playing dt rnd self ;;
      Ok (on_update_goal rnd self)
  end.

Definition on_update (dt : R) (rnd : Random) (self : GameView)
  : Result GameView :=
  let dt := Rmin dt (1 / 30) in
  on_update_step dt rnd self.

(** [ESCAPE] leaves the view and [F3] toggles the debug overlay; neither
    touches the simulation state. *)
Definition on_key_press (symbol : Key) (self : GameView) : GameView :=
  let self :=
    if key_eqb symbol K_TAB then _toggle_material_target self else self in
  let self :=
    if key_eqb symbol K_P then _toggle_pause self else self in
  let pl := g_player_left self in
  let pl :=
    if key_eqb symbol LEFT_VERTICAL_UP then
      Player.set_moves 1.0 (p_move_horz pl) pl
    else if key_eqb symbol LEFT_VERTICAL_DOWN then
      Player.set_moves (-1.0) (p_move_horz pl) pl
    else if key_eqb symbol LEFT_HORIZONTAL_LEFT then
      Player.set_moves (p_move_vert pl) (-1.0) pl
    else if key_eqb symbol LEFT_HORIZONTAL_RIGHT then
      Player.set_moves (p_move_vert pl) 1.0 pl
    else pl in
  let pr := g_player_right self in
  let pr :=
    if negb (p_is_cpu pr) then
      if key_eqb symbol RIGHT_VERTICAL_UP then
        Player.set_moves 1.0 (p_move_horz pr) pr
      else if key_eqb symbol RIGHT_VERTICAL_DOWN then
        Player.set_moves (-1.0) (p_move_horz pr) pr
      else if key_eqb symbol RIGHT_HORIZONTAL_LEFT then
        Player.set_moves (p_move_vert pr) (-1.0) pr
      else if key_eqb symbol RIGHT_HORIZONTAL_RIGHT then
        Player.set_moves (p_move_vert pr) 1.0 pr
      else pr
    else pr in
  gv_set_players pl pr self.

Definition on_key_release (symbol : Key) (self : GameView) : GameView :=
  let pl := g_player_left self in
  let pl :=
    if key_eqb symbol LEFT_VERTICAL_UP || key_eqb symbol LEFT_VERTICAL_DOWN
    then Player.set_moves 0.0 (p_move_horz pl) pl else pl in
  let pl :=
    if key_eqb symbol LEFT_HORIZONTAL_LEFT
       || key_eqb symbol LEFT_HORIZONTAL_RIGHT
    then Player.set_moves (p_move_vert pl) 0.0 pl else pl in
  let pr := g_player_right self in
  let pr :=
    if negb (p_is_cpu pr) then
      let pr :=
        if key_eqb symbol RIGHT_VERTICAL_UP
           || key_eqb symbol RIGHT_VERTICAL_DOWN
        then Player.set_moves 0.0 (p_move_horz pr) pr else pr in
      if key_eqb symbol RIGHT_HORIZONTAL_LEFT
         || key_eqb symbol RIGHT_HORIZONTAL_RIGHT
      then Player.set_moves (p_move_vert pr) 0.0 pr else pr
    else pr in
  gv_set_players pl pr self.

End GameView.

(** The methods below are rewritten by their own lemmas rather than
    unfolded by simplification. *)
Arguments Ball.update : simpl never.
Arguments VerticalPaddle.material : simpl never.
Arguments HorizontalPaddle.material : simpl never.
Arguments collide_ball_with_vertical_paddle : simpl never.
Arguments collide_ball_with_horizontal_paddle : simpl never.

(** ** Example states *)

(** Draws: the first event, direction [-1], launch angle 0. *)
Definition rnd0 : Random := mkRandom 0 0 0 0.

(** A game in play with the given ball and otherwise as constructed. *)
Definition playing_with (ball : Ball) : GameView :=
  gv_set_ball ball (gv_set_state playing (GameView.init "pvp")).

(** ** Idle players *)

(** A player whose update changes nothing: under manual control, not
    stunned, no movement intent, both paddles enabled and inside their
    ranges. *)
Definition Player_at_rest (p : Player) : Prop :=
  p_stun_timer p <= 0
  /\ p_is_cpu p = false
  /\ p_move_vert p = 0
  /\ p_move_horz p = 0
  /\ vp_enabled (p_vert p) = true
  /\ hp_enabled (p_horz p) = true
  /\ FIELD_BOTTOM + vp_length (p_vert p) / 2 <= vp_y (p_vert p)
       <= FIELD_TOP - vp_length (p_vert p) / 2
  /\ hp_min_x (p_horz p) <= hp_x (p_horz p) <= hp_max_x (p_horz p).

(** A ball far beyond the right edge, still moving right. *)
Definition ball_past_right : Ball := mkBall 1300 600 300 0 BALL_RADIUS.

(** A ball one unit beyond [FIELD_RIGHT + radius], moving left. *)
Definition ball_returning : Ball := mkBall 1273 600 (-600) 0 BALL_RADIUS.

(** A ball rising at 550 that has just entered the box of the left
    horizontal paddle from below. *)
Definition ball_from_below : Ball := mkBall 380 348 0 550 BALL_RADIUS.

(** The automatic right player, stunned for three seconds. *)
Definition cpu_stunned : Player := Player.set_stun 3 (Player.init Right true).

(** A ball at rest above and to the left of the right player's paddles. *)
Definition ball_high : Ball := mkBall 770 500 0 0 BALL_RADIUS.

(** ** Sequences of calls *)

(** The two calls that touch a player's stun timer. *)
Inductive PlayerCall : Type :=
| Call_set_stun (duration : R)
| Call_update (dt : R) (ball : Ball).

Definition Player_call (c : PlayerCall) (p : Player) : Player :=
  match c with
  | Call_set_stun duration => Player.set_stun duration p
  | Call_update dt ball => Player.update dt ball p
  end.

Definition Player_calls (cs : list PlayerCall) (p : Player) : Player :=
  fold_left (fun p c => Player_call c p) cs p.

(** Every [update] of the sequence has a step between 0 and [d]. *)
Definition steps_within (d : R) (cs : list PlayerCall) : Prop :=
  Forall (fun c =>
            match c with
            | Call_set_stun _ => True
            | Call_update dt _ => 0 <= dt <= d
            end) cs.

(** Repeated [Ball.update] with the given steps, first step first. *)
Definition Ball_updates (dts : list R) (b : Ball) : Ball :=
  fold_left (fun b dt => Ball.update dt b) dts b.

Definition Rsum (l : list R) : R := fold_right Rplus 0 l.

Definition Rsum_sq (l : list R) : R := fold_right (fun d s => d * d + s) 0 l.

(** Everything the program does to a horizontal paddle: [update],
    [set_material], and the assignments to [enabled] (by
    [Player.update]) and to [burned_out] (by [FireEvent.apply] and
    [_reset_round]). *)
Inductive HorizontalCall : Type :=
| HCall_update (dt move_dir : R)
| HCall_set_material (name : string)
| HCall_set_enabled (e : bool)
| HCall_set_burned_out (b : bool).

Definition HorizontalPaddle_call (c : HorizontalCall) (p : HorizontalPaddle)
  : HorizontalPaddle :=
  match c with
  | HCall_update dt move_dir => HorizontalPaddle.update dt move_dir p
  | HCall_set_material name => HorizontalPaddle.set_material name p
  | HCall_set_enabled e => HorizontalPaddle.set_enabled e p
  | HCall_set_burned_out b => HorizontalPaddle.set_burned_out b p
  end.

Definition HorizontalPaddle_calls
  (cs : list HorizontalCall) (p : HorizontalPaddle) : HorizontalPaddle :=
  fold_left (fun p c => HorizontalPaddle_call c p) cs p.

(** ** The host *)

(** What the window delivers to a [GameView] once it is shown: frames,
    key events, and clicks on a material button or on the pause button. *)
Inductive HostCall : Type :=
| Host_on_update (dt : R) (rnd : Random)
| Host_on_key_press (symbol : Key)
| Host_on_key_release (symbol : Key)
| Host_apply_material (name : string)
| Host_toggle_pause.

Definition Host_call (c : HostCall) (g : GameView) : Result GameView :=
  match c with
  | Host_on_update dt rnd => GameView.on_update dt rnd g
  | Host_on_key_press symbol => Ok (GameView.on_key_press symbol g)
  | Host_on_key_release symbol => Ok (GameView.on_key_release symbol g)
  | Host_apply_material name => Ok (GameView._apply_material name g)
  | Host_toggle_pause => Ok (GameView._toggle_pause g)
  end.

Fixpoint Host_calls (cs : list HostCall) (g : GameView) : Result GameView :=
  match cs with
  | [] => Ok g
  | c :: cs => g' <- Host_call c g ;; Host_calls cs g'
  end.

(** The launch angle is drawn by [random.uniform(-0.35, 0.35)]. *)
Definition Random_valid (rnd : Random) : Prop :=
  -0.35 <= rnd_angle rnd <= 0.35.

(** Frame times are not negative, and there is one material button for
    each key of [MATERIALS]. *)
Definition Host_valid (c : HostCall) : Prop :=
  match c with
  | Host_on_update dt rnd => 0 <= dt /\ Random_valid rnd
  | Host_apply_material name => dict_mem MATERIALS name = true
  | _ => True
  end.

(** The states a game can be in: those that the host's calls produce
    from a view that was constructed for one of the two menu modes and
    shown. *)
Definition reachable (g : GameView) : Prop :=
  exists (mode : string) (rnd : Random) (cs : list HostCall),
    (mode = "cpu"%string \/ mode = "pvp"%string)
    /\ Random_valid rnd
    /\ Forall Host_valid cs
    /\ Host_calls cs (GameView.on_show_view rnd (GameView.init mode)) = Ok g.

Definition speed (b : Ball) : R := vec_length (b_vx b) (b_vy b).

(** *** States of one rally *)

(** The left player under manual control with the horizontal paddle at
    [xl], the horizontal intent [mh] and the material [mat]. *)
Definition left_player (xl mh : R) (mat : string) : Player :=
  mkPlayer Left false
    (mkVerticalPaddle Left VERT_PADDLE_LENGTH VERT_PADDLE_THICKNESS
       VERT_PADDLE_TILT_DEG (FIELD_LEFT + 60) FIELD_CENTER_Y 900.0
       mat true false)
    (mkHorizontalPaddle Left HOR_PADDLE_WIDTH HOR_PADDLE_THICKNESS
       (FIELD_BOTTOM + 220) 900.0
       (FIELD_LEFT + HOR_PADDLE_WIDTH / 2) (FIELD_CENTER_X - 40) xl
       mat true false)
    0%Z 0.0 mh 0.0.

(** An event scheduler that is not warning. *)
Definition em_quiet (timer next_event_in : R) : EventManager :=
  mkEventManager timer next_event_in false 0.0 "" [FireEvent].

(** A two-player game with an idle right player and no event message. *)
Definition rally (st : State) (c : R) (text : string)
  (timer next_event_in : R) (ball : Ball) (xl mh : R) (mat : string)
  : GameView :=
  mkGameView "pvp" (left_player xl mh mat) (Player.init Right false)
    ball (em_quiet timer next_event_in) Left st c text None "" 0.0.

(** The calls of the rally: rubber for the left player, the left
    horizontal paddle pushed right for five frames of the countdown, the
    84 frames that the countdown still runs, the frame that launches the
    ball, eight frames of flight and the frame of the first hit. *)
Definition frame : HostCall := Host_on_update (1 / 30) rnd0.

Definition rally_calls : list HostCall :=
  [Host_apply_material rubber; Host_on_key_press K_D]
  ++ repeat frame 5
  ++ [Host_on_key_release K_D]
  ++ repeat frame 84
  ++ [frame]
  ++ repeat frame 8
  ++ [frame].

(** The label that a frame of a running countdown shows. *)
Definition countdown_label (c : R) : string :=
  if fgt c 2 then "3" else if fgt c 1 then "2" else "1".

(** The ball of the rally at the launch, after eight frames of flight,
    after the hit from below in the ninth frame, and the game then. *)
Definition ball_launch : Ball :=
  mkBall FIELD_CENTER_X FIELD_CENTER_Y (-650) 0 BALL_RADIUS.

Definition ball_8 : Ball :=
  mkBall (1790 / 3) 364 (-650) (-1120 / 3) BALL_RADIUS.

(** The ball of the ninth frame when it meets the paddle. *)
Definition ball_entering : Ball := mkBall 575 350 (-650) (-420) BALL_RADIUS.

Definition ball_9 : Ball :=
  mkBall 575 338.5 (-733.4418) 1228.14384 BALL_RADIUS.

Definition rally_9 : GameView :=
  rally playing 0 "1" (9 / 30) (EVENT_INTERVAL - 9 / 30) ball_9 530 0.0
    rubber.

(** The ball and the game after the tenth frame, in which the ball
    comes down on the same paddle. *)
Definition ball_10 : Ball :=
  mkBall (575 - 733.4418 / 30) 381.5
    (-733.4418 * 1.2 * 0.95 * 0.98 * 1.01)
    ((1228.14384 - 1400 / 30 + 520) * 1.32 * 0.98 * 1.01)
    BALL_RADIUS.

Definition rally_10 : GameView :=
  rally playing 0 "1" (10 / 30) (EVENT_INTERVAL - 10 / 30) ball_10 530 0.0
    rubber.

(** The calls of the host other than a frame. *)
Definition not_a_frame (c : HostCall) : bool :=
  match c with
  | Host_on_update _ _ => false
  | _ => true
  end.

(** Everything the program does to a vertical paddle: [update],
    [set_material], and the assignments to [enabled] and to
    [burned_out]. *)
Inductive VerticalCall : Type :=
| VCall_update (dt move_dir : R)
| VCall_set_material (name : string)
| VCall_set_enabled (e : bool)
| VCall_set_burned_out (b : bool).

Definition VerticalPaddle_call (c : VerticalCall) (p : VerticalPaddle)
  : VerticalPaddle :=
  match c with
  | VCall_update dt move_dir => VerticalPaddle.update dt move_dir p
  | VCall_set_material name => VerticalPaddle.set_material name p
  | VCall_set_enabled e => VerticalPaddle.set_enabled e p
  | VCall_set_burned_out b => VerticalPaddle.set_burned_out b p
  end.

Definition VerticalPaddle_calls
  (cs : list VerticalCall) (p : VerticalPaddle) : VerticalPaddle :=
  fold_left (fun p c => VerticalPaddle_call c p) cs p.

(** A falling ball, 15 above the centre of the left vertical paddle. *)
Definition ball_on_left_paddle : Ball :=
  mkBall (FIELD_LEFT + 60) (FIELD_CENTER_Y + 15) 0 (-100) BALL_RADIUS.

(** ** Well-formed games *)

(** The paddles as the constructors leave them, with a position inside
    the range and a registered material; a paddle that is burned out is
    wooden. *)
Record VerticalPaddle_ok (side : Side) (p : VerticalPaddle) : Prop := {
  vok_side : vp_side p = side;
  vok_length : vp_length p = VERT_PADDLE_LENGTH;
  vok_thickness : vp_thickness p = VERT_PADDLE_THICKNESS;
  vok_tilt : vp_tilt_deg p = VERT_PADDLE_TILT_DEG;
  vok_x : vp_x p = vp_x (VerticalPaddle.init side);
  vok_speed : vp_speed p = 900;
  vok_y : FIELD_BOTTOM + VERT_PADDLE_LENGTH / 2 <= vp_y p
            <= FIELD_TOP - VERT_PADDLE_LENGTH / 2;
  vok_material : dict_mem MATERIALS (vp_material_name p) = true;
  vok_burned : vp_burned_out p = true -> vp_material_name p = wood
}.

Record HorizontalPaddle_ok (side : Side) (p : HorizontalPaddle) : Prop := {
  hok_side : hp_side p = side;
  hok_width : hp_width p = HOR_PADDLE_WIDTH;
  hok_thickness : hp_thickness p = HOR_PADDLE_THICKNESS;
  hok_y : hp_y p = FIELD_BOTTOM + 220;
  hok_speed : hp_speed p = 900;
  hok_min_x : hp_min_x p = hp_min_x (HorizontalPaddle.init side);
  hok_max_x : hp_max_x p = hp_max_x (HorizontalPaddle.init side);
  hok_x : hp_min_x p <= hp_x p <= hp_max_x p
}.

(** Both paddles of a player carry the same material and the same
    flags. *)
Record Player_ok (side : Side) (p : Player) : Prop := {
  pok_side : p_side p = side;
  pok_vert : VerticalPaddle_ok side (p_vert p);
  pok_horz : HorizontalPaddle_ok side (p_horz p);
  pok_material : hp_material_name (p_horz p) = vp_material_name (p_vert p);
  pok_burned : hp_burned_out (p_horz p) = vp_burned_out (p_vert p);
  pok_enabled : hp_enabled (p_horz p) = vp_enabled (p_vert p);
  pok_score : (0 <= p_score p)%Z;
  pok_move_vert : p_move_vert p = -1 \/ p_move_vert p = 0 \/ p_move_vert p = 1;
  pok_move_horz : p_move_horz p = -1 \/ p_move_horz p = 0 \/ p_move_horz p = 1;
  pok_stun : - (1 / 30) < p_stun_timer p <= FIRE_STUN_DURATION
}.

(** The bound on the speed of the ball at the end of a frame: the cap,
    one hit of a vertical and one of a horizontal paddle of the liveliest
    material, and the rally boost. *)
Definition SPEED_BOUND : R := 3384.

(** The ball between floor and ceiling, not beyond a goal line, and not
    faster than [SPEED_BOUND]. *)
Record Ball_ok (b : Ball) : Prop := {
  bok_radius : b_radius b = BALL_RADIUS;
  bok_bottom : FIELD_BOTTOM < b_y b - b_radius b;
  bok_top : b_y b + b_radius b < FIELD_TOP;
  bok_left : FIELD_LEFT <= b_x b + b_radius b;
  bok_right : b_x b - b_radius b <= FIELD_RIGHT;
  bok_speed : speed b <= SPEED_BOUND
}.

Record EventManager_ok (em : EventManager) : Prop := {
  eok_events : em_events em = [FireEvent];
  eok_next : 0 < em_next_event_in em <= EVENT_INTERVAL;
  eok_timer : 0 <= em_timer em
}.

(** A game that counts down: the ball rests in the centre, the label
    shows the second that is running, and nobody is burned or stunned. *)
Record Round_start (g : GameView) : Prop := {
  rs_countdown : 0 < g_countdown g <= 3;
  rs_text : g_countdown_text g = countdown_label (g_countdown g);
  rs_ball : g_ball g
            = mkBall FIELD_CENTER_X FIELD_CENTER_Y 0.0 0.0 BALL_RADIUS;
  rs_left_burned : vp_burned_out (p_vert (g_player_left g)) = false;
  rs_right_burned : vp_burned_out (p_vert (g_player_right g)) = false;
  rs_left_stun : p_stun_timer (g_player_left g) <= 0;
  rs_right_stun : p_stun_timer (g_player_right g) <= 0
}.

Record GameView_ok (g : GameView) : Prop := {
  gok_left : Player_ok Left (g_player_left g);
  gok_right : Player_ok Right (g_player_right g);
  gok_left_manual : p_is_cpu (g_player_left g) = false;
  gok_right_cpu : p_is_cpu (g_player_right g) = String.eqb (g_mode g) "cpu";
  gok_ball : Ball_ok (g_ball g);
  gok_events : EventManager_ok (g_event_manager g);
  gok_countdown : g_state g = countdown -> Round_start g;
  gok_message : g_last_event_timer g <= 2
}.

(** The number of frames among the calls. *)
Definition frames (cs : list HostCall) : nat :=
  List.length (filter (fun c => negb (not_a_frame c)) cs).

(** The frames with the given steps and draws. *)
Definition frames_of (dts : list (R * Random)) : list HostCall :=
  map (fun d => Host_on_update (fst d) (snd d)) dts.

(** The four [burned_out] flags of a game: every flag that is set in
    [g'] was set in [g]. *)
Definition no_new_burn (g g' : GameView) : Prop :=
  (vp_burned_out (p_vert (g_player_left g')) = true ->
   vp_burned_out (p_vert (g_player_left g)) = true)
  /\ (hp_burned_out (p_horz (g_player_left g')) = true ->
      hp_burned_out (p_horz (g_player_left g)) = true)
  /\ (vp_burned_out (p_vert (g_player_right g')) = true ->
      vp_burned_out (p_vert (g_player_right g)) = true)
  /\ (hp_burned_out (p_horz (g_player_right g')) = true ->
      hp_burned_out (p_horz (g_player_right g)) = true).

(** ** Buttons and the menu *)

(** The bound methods that the buttons of the two views call. *)
Inductive Action : Type :=
| Act_select_cpu
| Act_select_pvp
| Act_start_game
| Act_close
| Act_back_to_menu
| Act_toggle_material_target
| Act_toggle_pause
| Act_apply_material (name : string).

Inductive MouseButton : Type :=
| MOUSE_BUTTON_LEFT | MOUSE_BUTTON_MIDDLE | MOUSE_BUTTON_RIGHT.

Definition mouse_button_eqb (a b : MouseButton) : bool :=
  match a, b with
  | MOUSE_BUTTON_LEFT, MOUSE_BUTTON_LEFT
  | MOUSE_BUTTON_MIDDLE, MOUSE_BUTTON_MIDDLE
  | MOUSE_BUTTON_RIGHT, MOUSE_BUTTON_RIGHT => true
  | _, _ => false
  end.

(** The colours and the font size only feed the renderer and are left
    out. *)
Record UIButton : Type := mkUIButton {
  ub_x : R;
  ub_y : R;
  ub_w : R;
  ub_h : R;
  ub_text : string;
  ub_on_click : Action;
  ub_enabled : bool;
  ub_hover : bool
}.

Module UIButton.

Definition init (x y w h : R) (text : string) (on_click : Action)
  : UIButton :=
  mkUIButton x y w h text on_click true false.

Definition hit_test (px py : R) (self : UIButton) : bool :=
  (fle (ub_x self - ub_w self / 2) px && fle px (ub_x self + ub_w self / 2))
  && (fle (ub_y self - ub_h self / 2) py
      && fle py (ub_y self + ub_h self / 2)).

Definition on_mouse_motion (x y : R) (self : UIButton) : UIButton :=
  mkUIButton (ub_x self) (ub_y self) (ub_w self) (ub_h self) (ub_text self)
    (ub_on_click self) (ub_enabled self) (hit_test x y self).

(** The call that a press makes, if it makes one. *)
Definition on_mouse_press (x y : R) (button : MouseButton) (self : UIButton)
  : option Action :=
  if negb (ub_enabled self) then None
  else if mouse_button_eqb button MOUSE_BUTTON_LEFT && hit_test x y self
       then Some (ub_on_click self)
       else None.

End UIButton.

(** The calls that a press makes on a list of buttons, in the order of
    the loop. *)
Definition buttons_on_mouse_press
  (x y : R) (button : MouseButton) (bs : list UIButton) : list Action :=
  flat_map (fun b => match UIButton.on_mouse_press x y button b with
                     | Some a => [a]
                     | None => []
                     end) bs.

(** The buttons and the mouse handler of [GameView]. *)
Module GameViewUI.

Definition left_panel_buttons : list UIButton :=
  [ UIButton.init (LEFT_PANEL_WIDTH / 2) 110 210 70 "в меню"
      Act_back_to_menu;
    UIButton.init (LEFT_PANEL_WIDTH / 2) 220 210 70 "материал: левый"
      Act_toggle_material_target;
    UIButton.init (LEFT_PANEL_WIDTH / 2) 320 210 70 "пауза"
      Act_toggle_pause ].

(** The loop over [enumerate(names)], from the index [i] on. *)
Fixpoint material_buttons_from (i : nat) (names : list string)
  : list UIButton :=
  match names with
  | [] => []
  | n :: names =>
      let start_x := FIELD_LEFT + 160 in
      let y := BOTTOM_PANEL_HEIGHT / 2 in
      let bx := start_x + INR i * 220 in
      UIButton.init bx y 200 70 n (Act_apply_material n)
      :: material_buttons_from (S i) names
  end.

Definition material_buttons : list UIButton :=
  material_buttons_from 0 (map fst MATERIALS).

Definition on_mouse_press (x y : R) (button : MouseButton) : list Action :=
  buttons_on_mouse_press x y button left_panel_buttons
  ++ buttons_on_mouse_press x y button material_buttons.

End GameViewUI.

(** The menu: the mode and, once the buttons are built, the [selected]
    flags of the two mode buttons. *)
Record MainMenuView : Type := mkMainMenuView {
  mm_mode : string;
  mm_btn_cpu : option bool;
  mm_btn_pvp : option bool
}.

Module MainMenuView.

Definition init : MainMenuView := mkMainMenuView "cpu" None None.

Definition buttons : list UIButton :=
  [ UIButton.init (SCREEN_WIDTH / 2) (SCREEN_HEIGHT / 2 + 60) 420 90
      "режим: против cpu" Act_select_cpu;
    UIButton.init (SCREEN_WIDTH / 2) (SCREEN_HEIGHT / 2 - 60) 420 90
      "режим: 2 игрока" Act_select_pvp;
    UIButton.init (SCREEN_WIDTH / 2) (SCREEN_HEIGHT / 2 - 180) 320 80
      "начать" Act_start_game;
    UIButton.init (SCREEN_WIDTH / 2) (SCREEN_HEIGHT / 2 - 280) 320 80
      "выход" Act_close ].

Definition _sync_mode_buttons (self : MainMenuView) : MainMenuView :=
  match mm_btn_cpu self, mm_btn_pvp self with
  | Some _, Some _ =>
      mkMainMenuView (mm_mode self)
        (Some (String.eqb (mm_mode self) "cpu"))
        (Some (String.eqb (mm_mode self) "pvp"))
  | _, _ => self
  end.

Definition _build_ui (self : MainMenuView) : MainMenuView :=
  _sync_mode_buttons (mkMainMenuView (mm_mode self) (Some false) (Some false)).

Definition on_show_view (self : MainMenuView) : MainMenuView :=
  _build_ui self.

Definition _select_cpu (self : MainMenuView) : MainMenuView :=
  _sync_mode_buttons
    (mkMainMenuView "cpu" (mm_btn_cpu self) (mm_btn_pvp self)).

Definition _select_pvp (self : MainMenuView) : MainMenuView :=
  _sync_mode_buttons
    (mkMainMenuView "pvp" (mm_btn_cpu self) (mm_btn_pvp self)).

(** The view that [_start_game] hands to the window. *)
Definition _start_game (self : MainMenuView) : GameView :=
  GameView.init (mm_mode self).

(** One call of a button of the menu; starting a game and closing the
    window leave the menu as it is. *)
Definition call (a : Action) (self : MainMenuView) : MainMenuView :=
  match a with
  | Act_select_cpu => _select_cpu self
  | Act_select_pvp => _select_pvp self
  | _ => self
  end.

(** The menu after a press and the calls that the press made. *)
Definition on_mouse_press (x y : R) (button : MouseButton)
  (self : MainMenuView) : MainMenuView * list Action :=
  let calls := buttons_on_mouse_press x y button buttons in
  (fold_left (fun m a => call a m) calls self, calls).

End MainMenuView.

(** The menu after a sequence of presses. *)
Definition menu_presses (ps : list (R * R * MouseButton))
  (self : MainMenuView) : MainMenuView :=
  fold_left
    (fun m p =>
       fst (MainMenuView.on_mouse_press (fst (fst p)) (snd (fst p)) (snd p) m))
    ps self.

(** The warning and the pending event: an active warning has time left,
    at most [EVENT_WARNING_TIME]; an event that is pending is one of the
    scheduler's; and while no event is pending there is more than
    [EVENT_WARNING_TIME] to go, and a warning still showing is the one of
    the event before. *)
Record Announce_ok (g : GameView) : Prop := {
  an_timer : em_warning_timer (g_event_manager g) <= EVENT_WARNING_TIME;
  an_active : em_warning_active (g_event_manager g) = true ->
              0 < em_warning_timer (g_event_manager g);
  an_event : forall ev, g_pending_event g = Some ev -> ev = FireEvent;
  an_pending : g_pending_event g = None ->
               EVENT_WARNING_TIME < em_next_event_in (g_event_manager g)
               /\ (em_warning_active (g_event_manager g) = true ->
                   EVENT_INTERVAL - EVENT_WARNING_TIME
                     + em_warning_timer (g_event_manager g)
                   <= em_next_event_in (g_event_manager g))
}.

(** The player of a side, and a player whose two paddles are burned
    out. *)
Definition player_of (side : Side) (g : GameView) : Player :=
  match side with
  | Left => g_player_left g
  | Right => g_player_right g
  end.

Definition burned (p : Player) : Prop :=
  vp_burned_out (p_vert p) = true /\ hp_burned_out (p_horz p) = true.

(** A player who stays burned, with both paddles where they were. *)
Definition still_burned (p p' : Player) : Prop :=
  burned p'
  /\ vp_y (p_vert p') = vp_y (p_vert p)
  /\ hp_x (p_horz p') = hp_x (p_horz p).

(** * Properties *)

(** ** Comparisons *)

Lemma fgt_true (a b : R) : a > b -> fgt a b = true.
Proof. intros H. unfold fgt. destruct (Rgt_dec a b); [reflexivity | contradiction]. Qed.

Lemma fgt_false (a b : R) : a <= b -> fgt a b = false.
Proof. intros H. unfold fgt. destruct (Rgt_dec a b); [lra | reflexivity]. Qed.

Lemma flt_true (a b : R) : a < b -> flt a b = true.
Proof. intros H. unfold flt. destruct (Rlt_dec a b); [reflexivity | contradiction]. Qed.

Lemma flt_false (a b : R) : b <= a -> flt a b = false.
Proof. intros H. unfold flt. destruct (Rlt_dec a b); [lra | reflexivity]. Qed.

Lemma fge_true (a b : R) : a >= b -> fge a b = true.
Proof. intros H. unfold fge. destruct (Rge_dec a b); [reflexivity | contradiction]. Qed.

Lemma fge_false (a b : R) : a < b -> fge a b = false.
Proof. intros H. unfold fge. destruct (Rge_dec a b); [lra | reflexivity]. Qed.

Lemma fle_true (a b : R) : a <= b -> fle a b = true.
Proof. intros H. unfold fle. destruct (Rle_dec a b); [reflexivity | contradiction]. Qed.

Lemma fle_false (a b : R) : b < a -> fle a b = false.
Proof. intros H. unfold fle. destruct (Rle_dec a b); [lra | reflexivity]. Qed.

Lemma feq_true (a b : R) : a = b -> feq a b = true.
Proof. intros H. unfold feq. destruct (Req_dec_T a b); [reflexivity | contradiction]. Qed.

Lemma feq_false (a b : R) : a <> b -> feq a b = false.
Proof. intros H. unfold feq. destruct (Req_dec_T a b); [contradiction | reflexivity]. Qed.

Lemma fgt_spec (a b : R) : fgt a b = true <-> a > b.
Proof.
  unfold fgt. destruct (Rgt_dec a b); split; intros; try assumption;
    try reflexivity; try discriminate; contradiction.
Qed.

Lemma clamp_bounds (v a b : R) : a <= b -> a <= clamp v a b <= b.
Proof.
  intros Hab. unfold clamp. split.
  - apply Rmax_l.
  - apply Rmax_lub; [assumption | apply Rmin_l].
Qed.

Lemma clamp_id (v a b : R) : a <= v <= b -> clamp v a b = v.
Proof.
  intros [Ha Hb]. unfold clamp.
  rewrite (Rmin_right b v Hb). apply Rmax_right. assumption.
Qed.

(** ** Vectors *)

Lemma vec_length_nonneg (x y : R) : 0 <= vec_length x y.
Proof. unfold vec_length. apply sqrt_pos. Qed.

Lemma vec_length_sqr (x y : R) :
  vec_length x y * vec_length x y = x * x + y * y.
Proof. unfold vec_length. apply sqrt_sqrt. nra. Qed.

Lemma vec_length_le_iff (x y m : R) :
  0 <= m -> (vec_length x y <= m <-> x * x + y * y <= m * m).
Proof.
  intros Hm. pose proof (vec_length_nonneg x y) as H0.
  pose proof (vec_length_sqr x y) as H2. split; intros H.
  - rewrite <- H2. nra.
  - destruct (Rle_lt_dec (vec_length x y) m) as [Hle | Hlt]; [assumption|].
    exfalso. nra.
Qed.

Lemma vec_length_axis_y (y : R) : vec_length 0 y = Rabs y.
Proof.
  unfold vec_length. replace (0 * 0 + y * y) with (y²) by (unfold Rsqr; ring).
  apply sqrt_Rsqr_abs.
Qed.

Lemma vec_length_scale (k x y : R) :
  0 <= k -> vec_length (k * x) (k * y) = k * vec_length x y.
Proof.
  intros Hk. unfold vec_length.
  replace (k * x * (k * x) + k * y * (k * y)) with (k² * (x * x + y * y))
    by (unfold Rsqr; ring).
  rewrite sqrt_mult_alt by apply Rle_0_sqr.
  rewrite sqrt_Rsqr by assumption. reflexivity.
Qed.

(** ** Ball: the speed clamp *)

Lemma normalize_nonzero (x y : R) :
  vec_length x y <> 0 ->
  normalize x y = (x / vec_length x y, y / vec_length x y).
Proof. intros H. unfold normalize. cbv zeta. rewrite feq_false by assumption. reflexivity. Qed.

Lemma Ball_update_unclamped (dt : R) (b : Ball) :
  vec_length (b_vx b) (b_vy b + GRAVITY * dt) <= BALL_MAX_SPEED ->
  Ball.update dt b =
  mkBall (b_x b + b_vx b * dt) (b_y b + (b_vy b + GRAVITY * dt) * dt)
    (b_vx b) (b_vy b + GRAVITY * dt) (b_radius b).
Proof. intros H. unfold Ball.update. cbv zeta. rewrite fgt_false by assumption. reflexivity. Qed.

Lemma Ball_update_clamped (dt : R) (b : Ball) :
  vec_length (b_vx b) (b_vy b + GRAVITY * dt) > BALL_MAX_SPEED ->
  Ball.update dt b =
  let sp := vec_length (b_vx b) (b_vy b + GRAVITY * dt) in
  mkBall (b_x b + b_vx b * dt) (b_y b + (b_vy b + GRAVITY * dt) * dt)
    (b_vx b / sp * BALL_MAX_SPEED)
    ((b_vy b + GRAVITY * dt) / sp * BALL_MAX_SPEED) (b_radius b).
Proof.
  intros H. unfold Ball.update. cbv zeta. rewrite fgt_true by assumption.
  rewrite normalize_nonzero; [reflexivity|].
  unfold BALL_MAX_SPEED in H. lra.
Qed.

(** C1.  After [Ball.update dt] the speed is at most [BALL_MAX_SPEED],
    for every ball and every [dt].  The position is integrated with the
    velocity before the clamp.  When the integrated speed exceeds the cap
    the velocity is that velocity times the positive factor
    [BALL_MAX_SPEED / speed], so the direction is kept and the new speed
    is exactly the cap; otherwise the integrated velocity is kept. *)
Theorem Ball_update_speed_capped (dt : R) (b : Ball) :
  let b' := Ball.update dt b in
  let vy := b_vy b + GRAVITY * dt in
  let sp := vec_length (b_vx b) vy in
  vec_length (b_vx b') (b_vy b') <= BALL_MAX_SPEED
  /\ b_x b' = b_x b + b_vx b * dt
  /\ b_y b' = b_y b + vy * dt
  /\ b_radius b' = b_radius b
  /\ ((sp > BALL_MAX_SPEED
       /\ 0 < BALL_MAX_SPEED / sp < 1
       /\ b_vx b' = BALL_MAX_SPEED / sp * b_vx b
       /\ b_vy b' = BALL_MAX_SPEED / sp * vy
       /\ vec_length (b_vx b') (b_vy b') = BALL_MAX_SPEED)
      \/ (sp <= BALL_MAX_SPEED /\ b_vx b' = b_vx b /\ b_vy b' = vy)).
Proof.
  cbv zeta.
  destruct (Rle_lt_dec
              (vec_length (b_vx b) (b_vy b + GRAVITY * dt)) BALL_MAX_SPEED)
    as [Hle | Hgt].
  - rewrite (Ball_update_unclamped dt b Hle). cbn.
    repeat split; try reflexivity; try assumption.
    right. repeat split; assumption.
  - rewrite (Ball_update_clamped dt b Hgt). cbv zeta. cbn.
    set (sp := vec_length (b_vx b) (b_vy b + GRAVITY * dt)) in *.
    assert (Hsp : 0 < sp) by (unfold BALL_MAX_SPEED in Hgt; lra).
    assert (Hk : 0 < BALL_MAX_SPEED / sp < 1).
    { split.
      - apply Rdiv_lt_0_compat; [unfold BALL_MAX_SPEED; lra | assumption].
      - apply Rmult_lt_reg_r with sp; [assumption|].
        unfold Rdiv. rewrite Rmult_assoc, Rinv_l by lra. lra. }
    assert (Hlen :
      vec_length (b_vx b / sp * BALL_MAX_SPEED)
        ((b_vy b + GRAVITY * dt) / sp * BALL_MAX_SPEED) = BALL_MAX_SPEED).
    { replace (b_vx b / sp * BALL_MAX_SPEED)
        with (BALL_MAX_SPEED / sp * b_vx b) by (field; lra).
      replace ((b_vy b + GRAVITY * dt) / sp * BALL_MAX_SPEED)
        with (BALL_MAX_SPEED / sp * (b_vy b + GRAVITY * dt)) by (field; lra).
      rewrite vec_length_scale by lra. fold sp. field. lra. }
    repeat split; try reflexivity.
    + rewrite Hlen. lra.
    + left. repeat split; try assumption; try (field; lra); lra.
Qed.

(** ** Evaluating the model on given states *)

Ltac consts :=
  unfold FIELD_CENTER_X, FIELD_CENTER_Y, FIELD_LEFT, FIELD_RIGHT,
    FIELD_BOTTOM, FIELD_TOP, SCREEN_WIDTH, SCREEN_HEIGHT, LEFT_PANEL_WIDTH,
    BOTTOM_PANEL_HEIGHT, MARGIN, GRAVITY, BALL_RADIUS, BALL_BASE_SPEED,
    BALL_MAX_SPEED, BALL_BOUNCE_DAMP, VERT_PADDLE_LENGTH,
    VERT_PADDLE_THICKNESS, VERT_PADDLE_TILT_DEG, HOR_PADDLE_WIDTH,
    HOR_PADDLE_THICKNESS, EVENT_INTERVAL, EVENT_WARNING_TIME,
    FIRE_STUN_DURATION in *.

Ltac rsolve := consts; lra.

(** One comparison, minimum, maximum or absolute value of the goal is
    decided by linear arithmetic and replaced by its value. *)
Ltac fstep :=
  match goal with
  | |- context [fgt ?a ?b] =>
      first [ rewrite (fgt_true a b) by rsolve
            | rewrite (fgt_false a b) by rsolve ]
  | |- context [flt ?a ?b] =>
      first [ rewrite (flt_true a b) by rsolve
            | rewrite (flt_false a b) by rsolve ]
  | |- context [fge ?a ?b] =>
      first [ rewrite (fge_true a b) by rsolve
            | rewrite (fge_false a b) by rsolve ]
  | |- context [fle ?a ?b] =>
      first [ rewrite (fle_true a b) by rsolve
            | rewrite (fle_false a b) by rsolve ]
  | |- context [feq ?a ?b] =>
      first [ rewrite (feq_true a b) by rsolve
            | rewrite (feq_false a b) by rsolve ]
  | |- context [Rmin ?a ?b] =>
      first [ rewrite (Rmin_left a b) by rsolve
            | rewrite (Rmin_right a b) by rsolve ]
  | |- context [Rmax ?a ?b] =>
      first [ rewrite (Rmax_left a b) by rsolve
            | rewrite (Rmax_right a b) by rsolve ]
  | |- context [Rabs ?a] =>
      first [ rewrite (Rabs_pos_eq a) by rsolve
            | rewrite (Rabs_left1 a) by rsolve ]
  end.

Ltac feval := repeat (cbn; try fstep).

(** ** The frame step *)

Lemma on_update_message_keeps (dt : R) (g : GameView) :
  let g' := GameView.on_update_message dt g in
  g_state g' = g_state g
  /\ g_ball g' = g_ball g
  /\ g_player_left g' = g_player_left g
  /\ g_player_right g' = g_player_right g.
Proof.
  unfold GameView.on_update_message.
  destruct (fgt _ _); repeat split; reflexivity.
Qed.

Lemma on_update_countdown_value (dt : R) (rnd : Random) (g : GameView) :
  g_countdown (GameView.on_update_countdown dt rnd g) = g_countdown g - dt.
Proof.
  unfold GameView.on_update_countdown. cbv zeta.
  cbn [g_countdown gv_set_countdown].
  destruct (fgt (g_countdown g - dt) 2); [reflexivity|].
  destruct (fgt (g_countdown g - dt) 1); [reflexivity|].
  destruct (fgt (g_countdown g - dt) 0); reflexivity.
Qed.

(** C2, as the code has it.  The step used by a tick is
    [min(dt, 1/30)]: it never exceeds 1/30, a [dt] of at least 1/30
    behaves as 1/30, and every smaller [dt], negative ones included, is
    used unchanged.  In the countdown state the tick never fails and
    takes exactly that step off the countdown, so a negative [dt] adds
    to it. *)
Theorem on_update_caps_dt_above_only (dt : R) (rnd : Random) (g : GameView) :
  GameView.on_update dt rnd g
    = GameView.on_update_step (Rmin dt (1 / 30)) rnd g
  /\ Rmin dt (1 / 30) <= 1 / 30
  /\ (1 / 30 <= dt ->
      GameView.on_update dt rnd g = GameView.on_update (1 / 30) rnd g)
  /\ (dt <= 1 / 30 ->
      GameView.on_update dt rnd g = GameView.on_update_step dt rnd g)
  /\ (g_state g = countdown ->
      exists g',
        GameView.on_update dt rnd g = Ok g'
        /\ g_countdown g' = g_countdown g - Rmin dt (1 / 30)).
Proof.
  unfold GameView.on_update. cbv zeta. repeat split.
  - apply Rmin_r.
  - intros H. rewrite (Rmin_right dt (1 / 30)) by assumption.
    rewrite (Rmin_left (1 / 30) (1 / 30)) by lra. reflexivity.
  - intros H. rewrite (Rmin_left dt (1 / 30)) by assumption. reflexivity.
  - intros Hst. unfold GameView.on_update_step. cbv zeta.
    destruct (on_update_message_keeps (Rmin dt (1 / 30)) g) as (Ms & _).
    rewrite Ms, Hst. eexists. split; [reflexivity|].
    rewrite on_update_countdown_value.
    unfold GameView.on_update_message.
    destruct (fgt (g_last_event_timer g) 0); reflexivity.
Qed.

Lemma on_update_caps_dt_above_only_witness :
  GameView.on_update (-1) rnd0 (GameView.init "pvp")
  = GameView.on_update_step (-1) rnd0 (GameView.init "pvp")
  /\ exists g',
       GameView.on_update (-1) rnd0 (GameView.init "pvp") = Ok g'
       /\ g_countdown g'
          = g_countdown (GameView.init "pvp") - Rmin (-1) (1 / 30).
Proof.
  destruct (on_update_caps_dt_above_only (-1) rnd0 (GameView.init "pvp"))
    as (_ & _ & _ & Hlow & Hcd).
  split; [apply Hlow; lra | apply Hcd; reflexivity].
Defined.

(** C2 fails for a negative [dt]: the tick is not refused, the step
    used is the negative [dt] itself, and the countdown of a fresh game
    runs backward from 3 to 4. *)
Lemma on_update_negative_dt_propagates :
  exists g',
    GameView.on_update (-1) rnd0 (GameView.init "pvp") = Ok g'
    /\ g_countdown g' = 4
    /\ g_countdown (GameView.init "pvp") = 3.
Proof.
  eexists. split; [|split].
  - unfold GameView.on_update. cbv zeta.
    rewrite (Rmin_left (-1) (1 / 30)) by lra.
    unfold GameView.on_update_step, GameView.on_update_message.
    feval. reflexivity.
  - unfold GameView.on_update_countdown. feval. lra.
  - cbn. lra.
Qed.

(** ** Material selection *)

Lemma dict_get_mem {V : Type} (d : list (string * V)) (k : string) :
  dict_mem d k = true -> exists v, dict_get d k = Ok v.
Proof.
  unfold dict_mem. induction d as [| [k' v] d IH]; cbn; intros H.
  - discriminate.
  - destruct (String.eqb k' k); [eexists; reflexivity | apply IH, H].
Qed.

Lemma dict_get_not_mem {V : Type} (d : list (string * V)) (k : string) :
  dict_mem d k = false -> dict_get d k = Raise (KeyError k).
Proof.
  unfold dict_mem. induction d as [| [k' v] d IH]; cbn; intros H.
  - reflexivity.
  - destruct (String.eqb k' k); [discriminate | apply IH, H].
Qed.

(** C3, as the code has it.  [Player.set_material] never fails and never
    looks the name up: for every name, registered or not, both paddles
    take the name and both [burned_out] flags are cleared, and nothing
    else of the player changes.  A registered name can then be looked up
    by the [material] property of both paddles; for an unregistered name
    that later lookup raises [KeyError]. *)
Theorem set_material_unchecked (name : string) (p : Player) :
  let p' := Player.set_material name p in
  vp_material_name (p_vert p') = name
  /\ hp_material_name (p_horz p') = name
  /\ vp_burned_out (p_vert p') = false
  /\ hp_burned_out (p_horz p') = false
  /\ p' = mkPlayer (p_side p) (p_is_cpu p)
            (VerticalPaddle.set_material name (p_vert p))
            (HorizontalPaddle.set_material name (p_horz p))
            (p_score p) (p_move_vert p) (p_move_horz p) (p_stun_timer p)
  /\ (dict_mem MATERIALS name = true ->
      exists m, VerticalPaddle.material (p_vert p') = Ok m
                /\ HorizontalPaddle.material (p_horz p') = Ok m)
  /\ (dict_mem MATERIALS name = false ->
      VerticalPaddle.material (p_vert p') = Raise (KeyError name)
      /\ HorizontalPaddle.material (p_horz p') = Raise (KeyError name)).
Proof.
  cbv zeta. repeat split.
  - intros H. destruct (dict_get_mem MATERIALS name H) as [m Hm].
    exists m. split; exact Hm.
  - apply dict_get_not_mem. assumption.
  - apply dict_get_not_mem. assumption.
Qed.

Lemma set_material_unchecked_witness :
  VerticalPaddle.material
    (p_vert (Player.set_material "lava" (Player.init Left false)))
  = Raise (KeyError "lava")
  /\ exists m,
       VerticalPaddle.material
         (p_vert (Player.set_material rubber (Player.init Left false)))
       = Ok m.
Proof.
  split.
  - apply (set_material_unchecked "lava" (Player.init Left false)).
    reflexivity.
  - destruct (set_material_unchecked rubber (Player.init Left false))
      as (_ & _ & _ & _ & _ & Hreg & _).
    destruct (Hreg eq_refl) as [m [Hm _]]. exists m. exact Hm.
Defined.

(** C3 fails for the unregistered name ["lava"]: selecting it for the
    left player of a game whose left paddles are burned out returns
    normally, and the game has changed: both paddles carry the unknown
    name and are no longer burned out. *)
Lemma set_material_unknown_changes_state :
  let g0 := GameView.init "pvp" in
  let g := gv_set_players
             (Player.set_burned_out true (g_player_left g0))
             (g_player_right g0) g0 in
  let g' := GameView._apply_material "lava" g in
  dict_mem MATERIALS "lava" = false
  /\ g' <> g
  /\ vp_material_name (p_vert (g_player_left g')) = "lava"%string
  /\ hp_material_name (p_horz (g_player_left g')) = "lava"%string
  /\ vp_burned_out (p_vert (g_player_left g)) = true
  /\ vp_burned_out (p_vert (g_player_left g')) = false
  /\ hp_burned_out (p_horz (g_player_left g)) = true
  /\ hp_burned_out (p_horz (g_player_left g')) = false.
Proof.
  cbv zeta. repeat split; try reflexivity.
  intros H.
  apply (f_equal (fun g => vp_burned_out (p_vert (g_player_left g)))) in H.
  cbn in H. discriminate.
Qed.

(** ** What a playing tick leaves alone *)

Lemma bind_Ok {A B : Type} (m : Result A) (f : A -> Result B) (b : B) :
  bind m f = Ok b -> exists a, m = Ok a /\ f a = Ok b.
Proof. destruct m as [a | e]; cbn; intros H; [eauto | discriminate]. Qed.

Lemma Player_update_score (dt : R) (ball : Ball) (p : Player) :
  p_score (Player.update dt ball p) = p_score p.
Proof.
  unfold Player.update, Player.update_paddles, Player.update_stun. cbv zeta.
  destruct (fgt (p_stun_timer p) 0); cbn; destruct (p_is_cpu p); reflexivity.
Qed.

Lemma FireEvent_apply_player_score (p : Player) :
  p_score (FireEvent.apply_player p) = p_score p.
Proof.
  unfold FireEvent.apply_player.
  destruct (String.eqb (Player.get_material p) wood); reflexivity.
Qed.

Lemma GameEvent_apply_keeps (ev : GameEvent) (g : GameView) :
  let g' := GameEvent_apply ev g in
  p_score (g_player_left g') = p_score (g_player_left g)
  /\ p_score (g_player_right g') = p_score (g_player_right g)
  /\ g_ball g' = g_ball g
  /\ g_state g' = g_state g.
Proof.
  destruct ev; cbn; repeat split; apply FireEvent_apply_player_score.
Qed.

Lemma EventManager_update_keeps (dt : R) (rnd : Random) (g g' : GameView) :
  EventManager.update dt rnd g = Ok g' ->
  p_score (g_player_left g') = p_score (g_player_left g)
  /\ p_score (g_player_right g') = p_score (g_player_right g)
  /\ g_ball g' = g_ball g
  /\ g_state g' = g_state g.
Proof.
  unfold EventManager.update. cbv zeta. intros H.
  apply bind_Ok in H. destruct H as (g1 & Hwarn & Hfire).
  assert (H1 : p_score (g_player_left g1) = p_score (g_player_left g)
               /\ p_score (g_player_right g1) = p_score (g_player_right g)
               /\ g_ball g1 = g_ball g /\ g_state g1 = g_state g).
  { unfold EventManager.update_warn in Hwarn. cbv zeta in Hwarn.
    match type of Hwarn with
    | (if ?c then _ else _) = _ => destruct c
    end.
    - apply bind_Ok in Hwarn. destruct Hwarn as (ev & _ & Hg1).
      injection Hg1 as <-. cbn. repeat split; reflexivity.
    - injection Hwarn as <-. cbn. repeat split; reflexivity. }
  destruct H1 as (Hl & Hr & Hb & Hs).
  unfold EventManager.update_fire in Hfire. cbv zeta in Hfire.
  match type of Hfire with
  | (if ?c then _ else _) = _ => destruct c
  end.
  - apply bind_Ok in Hfire. destruct Hfire as (ev & _ & Hg').
    injection Hg' as <-.
    match goal with
    | |- context [GameEvent_apply ev ?g0] =>
        destruct (GameEvent_apply_keeps ev g0) as (Kl & Kr & Kb & Ks)
    end.
    cbn in *. rewrite Kl, Kr, Kb, Ks. cbn. repeat split; assumption.
  - injection Hfire as <-. cbn. repeat split; assumption.
Qed.

Lemma Ball_update_radius (dt : R) (b : Ball) :
  b_radius (Ball.update dt b) = b_radius b.
Proof.
  unfold Ball.update. cbv zeta.
  destruct (fgt _ _); [destruct (normalize _ _)|]; reflexivity.
Qed.

Lemma on_update_walls_keeps (b : Ball) :
  b_radius (GameView.on_update_walls b) = b_radius b
  /\ b_x (GameView.on_update_walls b) = b_x b.
Proof.
  unfold GameView.on_update_walls.
  destruct (fle _ _); [split; reflexivity|].
  destruct (fge _ _); split; reflexivity.
Qed.

Lemma collide_vertical_radius (b b' : Ball) (p : VerticalPaddle) (h : bool) :
  collide_ball_with_vertical_paddle b p = Ok (h, b') ->
  b_radius b' = b_radius b.
Proof.
  unfold collide_ball_with_vertical_paddle.
  destruct (vp_burned_out p); [intros H; injection H as _ <-; reflexivity|].
  destruct (VerticalPaddle.get_segment p) as [[[x1 y1] x2] y2].
  destruct (closest_point_on_segment _ _ _ _ _ _) as [[cx cy] t].
  cbv zeta.
  destruct (fle _ _); [|intros H; injection H as _ <-; reflexivity].
  destruct (normalize _ _) as [nx ny].
  destruct (VerticalPaddle.material p) as [mat | e];
    destruct (feq nx 0 && feq ny 0); cbn; intros H;
    try discriminate; injection H as _ <-; reflexivity.
Qed.

Lemma collide_horizontal_keeps (b b' : Ball) (p : HorizontalPaddle) (h : bool) :
  collide_ball_with_horizontal_paddle b p = Ok (h, b') ->
  b_radius b' = b_radius b /\ b_x b' = b_x b.
Proof.
  unfold collide_ball_with_horizontal_paddle.
  destruct (hp_burned_out p);
    [intros H; injection H as _ <-; split; reflexivity|].
  cbv zeta.
  match goal with
  | |- (if ?c then _ else _) = _ -> _ => destruct c
  end; [|intros H; injection H as _ <-; split; reflexivity].
  destruct (HorizontalPaddle.material p) as [mat | e];
    destruct (fge _ _); cbn; intros H;
    try discriminate; injection H as _ <-; split; reflexivity.
Qed.

Lemma on_update_collisions_radius (g : GameView) (h : bool) (b : Ball) :
  GameView.on_update_collisions g = Ok (h, b) ->
  b_radius b = b_radius (g_ball g).
Proof.
  unfold GameView.on_update_collisions. cbv zeta. intros H.
  apply bind_Ok in H. destruct H as ([h1 b1] & H1 & H).
  apply bind_Ok in H. destruct H as ([h2 b2] & H2 & H).
  apply bind_Ok in H. destruct H as ([h3 b3] & H3 & H).
  apply bind_Ok in H. destruct H as ([h4 b4] & H4 & H).
  injection H as _ <-.
  apply collide_vertical_radius in H1, H2.
  apply collide_horizontal_keeps in H3, H4.
  destruct H3 as [H3 _], H4 as [H4 _]. congruence.
Qed.

Lemma on_update_before_ball_keeps
  (dt : R) (rnd : Random) (g g' : GameView) :
  GameView.on_update_before_ball dt rnd g = Ok g' ->
  p_score (g_player_left g') = p_score (g_player_left g)
  /\ p_score (g_player_right g') = p_score (g_player_right g)
  /\ g_ball g' = g_ball g
  /\ g_state g' = g_state g.
Proof.
  unfold GameView.on_update_before_ball. cbv zeta. intros H.
  apply bind_Ok in H. destruct H as (g1 & Hev & H).
  apply EventManager_update_keeps in Hev.
  destruct Hev as (Hl & Hr & Hb & Hs).
  injection H as <-.
  unfold gv_set_players.
  cbn [g_player_left g_player_right g_ball g_state].
  rewrite !Player_update_score.
  repeat split; assumption.
Qed.

Lemma on_update_playing_keeps
  (dt : R) (rnd : Random) (g g' : GameView) :
  GameView.on_update_playing dt rnd g = Ok g' ->
  p_score (g_player_left g') = p_score (g_player_left g)
  /\ p_score (g_player_right g') = p_score (g_player_right g)
  /\ b_radius (g_ball g') = b_radius (g_ball g)
  /\ g_state g' = g_state g.
Proof.
  unfold GameView.on_update_playing. cbv zeta. intros H.
  apply bind_Ok in H. destruct H as (g0 & Hpre & H).
  apply on_update_before_ball_keeps in Hpre.
  destruct Hpre as (Hl & Hr & Hb & Hs).
  apply bind_Ok in H. destruct H as ([h b] & Hc & H).
  apply on_update_collisions_radius in Hc.
  unfold GameView.on_update_move in Hc. cbn [g_ball gv_set_ball] in Hc.
  rewrite (proj1 (on_update_walls_keeps _)), Ball_update_radius, Hb in Hc.
  injection H as <-.
  unfold GameView.on_update_move, gv_set_ball.
  cbn [g_player_left g_player_right g_ball g_state].
  repeat split; try assumption.
  destruct h; cbn [b_radius]; assumption.
Qed.

(** ** Paddles out of reach *)

Lemma closest_point_between (px py x1 y1 x2 y2 : R) :
  let '(cx, cy, _) := closest_point_on_segment px py x1 y1 x2 y2 in
  Rmin x1 x2 <= cx <= Rmax x1 x2 /\ Rmin y1 y2 <= cy <= Rmax y1 y2.
Proof.
  unfold closest_point_on_segment. cbv zeta.
  destruct (feq _ _).
  - split; split; try apply Rmin_l; apply Rmax_l.
  - set (t := clamp _ 0.0 1.0).
    assert (Ht : 0 <= t <= 1).
    { pose proof (clamp_bounds
        (((px - x1) * (x2 - x1) + (py - y1) * (y2 - y1)) /
         ((x2 - x1) * (x2 - x1) + (y2 - y1) * (y2 - y1))) 0.0 1.0) as H.
      fold t in H. lra. }
    split; split.
    + apply Rmin_case_strong; intros; nra.
    + apply Rmax_case_strong; intros; nra.
    + apply Rmin_case_strong; intros; nra.
    + apply Rmax_case_strong; intros; nra.
Qed.

Lemma vec_length_ge_abs_x (x y : R) : Rabs x <= vec_length x y.
Proof.
  pose proof (vec_length_nonneg x y) as H0.
  pose proof (vec_length_sqr x y) as H2.
  destruct (Rle_lt_dec (Rabs x) (vec_length x y)) as [H | H]; [assumption|].
  exfalso. pose proof (Rabs_pos x) as Hx.
  assert (Hs : Rabs x * Rabs x = x * x).
  { unfold Rabs. destruct (Rcase_abs x); ring. }
  nra.
Qed.

Lemma vec_length_ge_abs_y (x y : R) : Rabs y <= vec_length x y.
Proof.
  unfold vec_length. rewrite (Rplus_comm (x * x)).
  apply (vec_length_ge_abs_x y x).
Qed.

Lemma get_segment_box (p : VerticalPaddle) :
  0 <= vp_length p ->
  let '(x1, y1, x2, y2) := VerticalPaddle.get_segment p in
  vp_x p - vp_length p / 2 <= Rmin x1 x2
  /\ Rmax x1 x2 <= vp_x p + vp_length p / 2
  /\ vp_y p - vp_length p / 2 <= Rmin y1 y2
  /\ Rmax y1 y2 <= vp_y p + vp_length p / 2.
Proof.
  intros HL. unfold VerticalPaddle.get_segment. cbv zeta.
  set (theta := match vp_side p with
                | Left => radians (vp_tilt_deg p)
                | Right => radians (180 - vp_tilt_deg p)
                end).
  pose proof (COS_bound theta) as [Hc1 Hc2].
  pose proof (SIN_bound theta) as [Hs1 Hs2].
  repeat split.
  - apply Rmin_case_strong; intros; nra.
  - apply Rmax_case_strong; intros; nra.
  - apply Rmin_case_strong; intros; nra.
  - apply Rmax_case_strong; intros; nra.
Qed.

(** A ball whose centre is further from the paddle's centre, along one
    axis, than half the paddle plus both radii does not touch it. *)
Lemma collide_vertical_far (b : Ball) (p : VerticalPaddle) :
  0 <= vp_length p ->
  Rabs (b_x b - vp_x p) > vp_length p / 2 + b_radius b + vp_thickness p / 2
  \/ Rabs (b_y b - vp_y p) > vp_length p / 2 + b_radius b + vp_thickness p / 2 ->
  collide_ball_with_vertical_paddle b p = Ok (false, b).
Proof.
  intros HL Hfar. unfold collide_ball_with_vertical_paddle.
  destruct (vp_burned_out p); [reflexivity|].
  pose proof (get_segment_box p HL) as Hbox.
  destruct (VerticalPaddle.get_segment p) as [[[x1 y1] x2] y2].
  pose proof (closest_point_between (b_x b) (b_y b) x1 y1 x2 y2) as Hcp.
  destruct (closest_point_on_segment _ _ _ _ _ _) as [[cx cy] t].
  cbv zeta. rewrite fle_false; [reflexivity|].
  destruct Hbox as (Bx1 & Bx2 & By1 & By2).
  destruct Hcp as [[Cx1 Cx2] [Cy1 Cy2]].
  destruct Hfar as [Hx | Hy].
  - apply Rlt_le_trans with (Rabs (b_x b - cx));
      [|apply vec_length_ge_abs_x].
    revert Hx. unfold Rabs.
    destruct (Rcase_abs (b_x b - vp_x p)), (Rcase_abs (b_x b - cx));
      intros; lra.
  - apply Rlt_le_trans with (Rabs (b_y b - cy));
      [|apply vec_length_ge_abs_y].
    revert Hy. unfold Rabs.
    destruct (Rcase_abs (b_y b - vp_y p)), (Rcase_abs (b_y b - cy));
      intros; lra.
Qed.

Lemma collide_horizontal_far (b : Ball) (p : HorizontalPaddle) :
  b_x b < hp_x p - hp_width p / 2 - b_radius b
  \/ hp_x p + hp_width p / 2 + b_radius b < b_x b
  \/ b_y b < hp_y p - hp_thickness p / 2 - b_radius b
  \/ hp_y p + hp_thickness p / 2 + b_radius b < b_y b ->
  collide_ball_with_horizontal_paddle b p = Ok (false, b).
Proof.
  intros Hfar. unfold collide_ball_with_horizontal_paddle.
  destruct (hp_burned_out p); [reflexivity|].
  cbv zeta.
  destruct Hfar as [H | [H | [H | H]]].
  - rewrite (fle_false _ (b_x b)) by assumption. reflexivity.
  - rewrite (fle_false (b_x b)) by assumption.
    rewrite andb_false_r. reflexivity.
  - rewrite (fle_false _ (b_y b)) by assumption.
    rewrite andb_false_r. reflexivity.
  - rewrite (fle_false (b_y b) _) by assumption.
    rewrite andb_false_r. reflexivity.
Qed.

(** ** Goal on the right *)

(** C4, as the code has it.  The goal test of a playing tick reads the
    ball after that tick's integration, wall test and paddle
    collisions.  If the ball is then beyond [FIELD_RIGHT + radius], the
    tick adds exactly 1 to the left score, leaves the right score,
    re-enters the countdown at 3, puts the ball at rest at the field
    centre and clears [burned_out] on all four paddles and both stun
    timers. *)
Theorem goal_right_resets_round
  (dt : R) (rnd : Random) (g g1 : GameView) :
  g_state g = playing ->
  0 <= b_radius (g_ball g) ->
  GameView.on_update_playing (Rmin dt (1 / 30)) rnd
    (GameView.on_update_message (Rmin dt (1 / 30)) g) = Ok g1 ->
  b_x (g_ball g1) - b_radius (g_ball g1) > FIELD_RIGHT ->
  exists g',
    GameView.on_update dt rnd g = Ok g'
    /\ p_score (g_player_left g') = (p_score (g_player_left g) + 1)%Z
    /\ p_score (g_player_right g') = p_score (g_player_right g)
    /\ g_state g' = countdown
    /\ g_countdown g' = 3
    /\ b_x (g_ball g') = FIELD_CENTER_X
    /\ b_y (g_ball g') = FIELD_CENTER_Y
    /\ b_vx (g_ball g') = 0
    /\ b_vy (g_ball g') = 0
    /\ vp_burned_out (p_vert (g_player_left g')) = false
    /\ hp_burned_out (p_horz (g_player_left g')) = false
    /\ vp_burned_out (p_vert (g_player_right g')) = false
    /\ hp_burned_out (p_horz (g_player_right g')) = false
    /\ p_stun_timer (g_player_left g') = 0
    /\ p_stun_timer (g_player_right g') = 0.
Proof.
  intros Hst Hrad Hplay Hx.
  destruct (on_update_message_keeps (Rmin dt (1 / 30)) g)
    as (Ms & Mb & Ml & Mr).
  destruct (on_update_playing_keeps _ _ _ _ Hplay) as (Kl & Kr & Krad & Ks).
  rewrite Ml in Kl. rewrite Mr in Kr. rewrite Mb in Krad.
  exists (GameView.on_update_goal rnd g1). split.
  - unfold GameView.on_update, GameView.on_update_step. cbv zeta.
    rewrite Ms, Hst, Hplay. reflexivity.
  - unfold GameView.on_update_goal. cbv zeta.
    rewrite flt_false by (consts; lra).
    rewrite fgt_true by assumption.
    cbn. rewrite Kl, Kr. repeat split; try reflexivity; lra.
Qed.

(** ** Ticks of a quiet game *)

Lemma VerticalPaddle_update_still (dt : R) (p : VerticalPaddle) :
  FIELD_BOTTOM + vp_length p / 2 <= vp_y p <= FIELD_TOP - vp_length p / 2 ->
  VerticalPaddle.update dt 0 p = p.
Proof.
  intros Hy. unfold VerticalPaddle.update.
  destruct (negb (vp_enabled p) || vp_burned_out p); [reflexivity|].
  cbv zeta. rewrite clamp_id by lra.
  replace (vp_y p + 0 * vp_speed p * dt) with (vp_y p) by ring.
  destruct p; reflexivity.
Qed.

Lemma HorizontalPaddle_update_still (dt : R) (p : HorizontalPaddle) :
  hp_min_x p <= hp_x p <= hp_max_x p ->
  HorizontalPaddle.update dt 0 p = p.
Proof.
  intros Hx. unfold HorizontalPaddle.update.
  destruct (negb (hp_enabled p) || hp_burned_out p); [reflexivity|].
  cbv zeta. rewrite clamp_id by lra.
  replace (hp_x p + 0 * hp_speed p * dt) with (hp_x p) by ring.
  destruct p; reflexivity.
Qed.

Lemma Player_update_at_rest (dt : R) (ball : Ball) (p : Player) :
  Player_at_rest p -> Player.update dt ball p = p.
Proof.
  intros (Hst & Hcpu & Hmv & Hmh & Hev & Heh & Hy & Hx).
  unfold Player.update, Player.update_stun. cbv zeta.
  rewrite fgt_false by assumption. cbn [p_is_cpu]. rewrite Hcpu.
  unfold Player.update_paddles. cbn. rewrite Hmv, Hmh.
  rewrite VerticalPaddle_update_still by (cbn; assumption).
  rewrite HorizontalPaddle_update_still by (cbn; assumption).
  destruct p as [sd cpu v h sc mv mh st]. cbn in *. subst.
  destruct v, h. cbn in *. subst. reflexivity.
Qed.

Lemma EventManager_update_quiet (dt : R) (rnd : Random) (g : GameView) :
  em_warning_active (g_event_manager g) = false ->
  em_next_event_in (g_event_manager g) - dt > EVENT_WARNING_TIME ->
  EventManager.update dt rnd g
  = Ok (gv_set_event_manager
          (EventManager.update_timers dt (g_event_manager g)) g).
Proof.
  intros Hw Hn. unfold EventManager.update. cbv zeta.
  unfold EventManager.update_warn. cbn. rewrite Hw.
  rewrite fle_false by assumption. cbn.
  unfold EventManager.update_warning_timer. cbn. rewrite Hw.
  unfold EventManager.update_fire. cbn.
  rewrite fle_false by (unfold EVENT_WARNING_TIME in Hn; lra).
  destruct g as [md pl pr b em sel st c ct pe lt ltm]. cbn.
  destruct em. reflexivity.
Qed.

Lemma on_update_walls_clear (b : Ball) :
  FIELD_BOTTOM < b_y b - b_radius b ->
  b_y b + b_radius b < FIELD_TOP ->
  GameView.on_update_walls b = b.
Proof.
  intros Hb Ht. unfold GameView.on_update_walls.
  rewrite fle_false by assumption. rewrite fge_false by assumption.
  reflexivity.
Qed.

(** A playing tick in which no event is due, both players are idle and
    the ball meets neither a wall nor a paddle: only the event timers
    and the ball advance. *)
Lemma on_update_playing_flight (dt : R) (rnd : Random) (g : GameView) :
  let b1 := Ball.update dt (g_ball g) in
  em_warning_active (g_event_manager g) = false ->
  em_next_event_in (g_event_manager g) - dt > EVENT_WARNING_TIME ->
  Player_at_rest (g_player_left g) ->
  Player_at_rest (g_player_right g) ->
  FIELD_BOTTOM < b_y b1 - b_radius b1 ->
  b_y b1 + b_radius b1 < FIELD_TOP ->
  collide_ball_with_vertical_paddle b1 (p_vert (g_player_left g))
    = Ok (false, b1) ->
  collide_ball_with_vertical_paddle b1 (p_vert (g_player_right g))
    = Ok (false, b1) ->
  collide_ball_with_horizontal_paddle b1 (p_horz (g_player_left g))
    = Ok (false, b1) ->
  collide_ball_with_horizontal_paddle b1 (p_horz (g_player_right g))
    = Ok (false, b1) ->
  GameView.on_update_playing dt rnd g
  = Ok (gv_set_ball b1
          (gv_set_event_manager
             (EventManager.update_timers dt (g_event_manager g)) g)).
Proof.
  intros b1 Hw Hn Hl Hr Hb Ht C1 C2 C3 C4.
  unfold GameView.on_update_playing, GameView.on_update_before_ball.
  cbv zeta.
  rewrite EventManager_update_quiet by assumption.
  cbn [bind]. cbn [g_ball g_player_left g_player_right gv_set_event_manager].
  rewrite !Player_update_at_rest by assumption.
  unfold GameView.on_update_collisions, GameView.on_update_move. cbv zeta.
  cbn [g_ball g_player_left g_player_right gv_set_players gv_set_ball
       gv_set_event_manager].
  fold b1. rewrite (on_update_walls_clear b1) by assumption.
  rewrite C1. cbn [bind]. rewrite C2. cbn [bind].
  rewrite C3. cbn [bind]. rewrite C4. cbn [bind orb].
  destruct g; reflexivity.
Qed.

(** ** Evaluating a tick on a given state *)

Lemma vec_length_le_sq (x y m : R) :
  0 <= m -> x * x + y * y <= m * m -> vec_length x y <= m.
Proof. intros Hm H. apply vec_length_le_iff; assumption. Qed.

Lemma vec_length_gt_sq (x y m : R) :
  0 <= m -> x * x + y * y > m * m -> vec_length x y > m.
Proof.
  intros Hm H. destruct (Rle_lt_dec (vec_length x y) m) as [Hle | Hgt].
  - apply vec_length_le_iff in Hle; [lra | assumption].
  - assumption.
Qed.

Ltac abs_cases :=
  unfold Rabs;
  repeat match goal with
         | |- context [Rcase_abs ?x] => destruct (Rcase_abs x)
         end.

Ltac far_vertical :=
  apply collide_vertical_far;
  [ cbn; consts; lra
  | cbn; consts; first [ left; abs_cases; lra | right; abs_cases; lra ] ].

Ltac far_horizontal :=
  apply collide_horizontal_far; cbn; consts;
  first [ left; lra | right; left; lra | right; right; left; lra
        | right; right; right; lra ].

Lemma Player_init_at_rest (side : Side) : Player_at_rest (Player.init side false).
Proof.
  unfold Player_at_rest. destruct side; cbn; consts; repeat split; lra.
Qed.

Lemma on_update_message_idle (dt : R) (g : GameView) :
  g_last_event_timer g <= 0 -> GameView.on_update_message dt g = g.
Proof.
  intros H. unfold GameView.on_update_message.
  rewrite fgt_false by assumption. reflexivity.
Qed.

Lemma Ball_update_past_right :
  Ball.update (1 / 30) ball_past_right
  = mkBall 1310 (600 + GRAVITY * (1 / 30) * (1 / 30)) 300
      (GRAVITY * (1 / 30)) BALL_RADIUS.
Proof.
  rewrite Ball_update_unclamped
    by (apply vec_length_le_sq; cbn; consts; lra).
  cbn. f_equal; lra.
Qed.

Lemma playing_tick_past_right :
  GameView.on_update_playing (Rmin (1 / 30) (1 / 30)) rnd0
    (GameView.on_update_message (Rmin (1 / 30) (1 / 30))
       (playing_with ball_past_right))
  = Ok (gv_set_ball
          (mkBall 1310 (600 + GRAVITY * (1 / 30) * (1 / 30)) 300
             (GRAVITY * (1 / 30)) BALL_RADIUS)
          (gv_set_event_manager
             (EventManager.update_timers (1 / 30) EventManager.init)
             (playing_with ball_past_right))).
Proof.
  rewrite (Rmin_left (1 / 30) (1 / 30)) by lra.
  rewrite on_update_message_idle by (cbn; lra).
  rewrite on_update_playing_flight;
    [ | cbn [g_ball g_player_left g_player_right g_event_manager
             playing_with gv_set_ball gv_set_state GameView.init];
        rewrite ?Ball_update_past_right;
        first [ reflexivity | apply Player_init_at_rest | far_vertical
              | far_horizontal | cbn; consts; lra ] .. ].
  cbn [g_ball g_event_manager playing_with gv_set_ball gv_set_state
       GameView.init].
  rewrite Ball_update_past_right. reflexivity.
Qed.

Lemma goal_right_resets_round_witness :
  exists g',
    GameView.on_update (1 / 30) rnd0 (playing_with ball_past_right) = Ok g'
    /\ p_score (g_player_left g') = 1%Z
    /\ g_state g' = countdown.
Proof.
  destruct (goal_right_resets_round (1 / 30) rnd0
              (playing_with ball_past_right) _
              eq_refl
              ltac:(cbn; consts; lra)
              playing_tick_past_right
              ltac:(cbn; consts; lra))
    as (g' & Hup & Hl & _ & Hs & _).
  exists g'. repeat split; assumption.
Defined.

Lemma Ball_update_returning :
  Ball.update (1 / 30) ball_returning
  = mkBall 1253 (600 + GRAVITY * (1 / 30) * (1 / 30)) (-600)
      (GRAVITY * (1 / 30)) BALL_RADIUS.
Proof.
  rewrite Ball_update_unclamped
    by (apply vec_length_le_sq; cbn; consts; lra).
  cbn. f_equal; lra.
Qed.

(** C4 fails when the ball is moving back: in a game in play the ball is
    put one unit beyond [FIELD_RIGHT + radius] with velocity
    [(-600, 0)]; after one tick of 1/30 it is back inside, nobody has
    scored and the game is still in play. *)
Lemma goal_right_missed_when_returning :
  let g := playing_with ball_returning in
  b_x (g_ball g) > FIELD_RIGHT + b_radius (g_ball g)
  /\ g_state g = playing
  /\ exists g',
       GameView.on_update (1 / 30) rnd0 g = Ok g'
       /\ p_score (g_player_left g') = p_score (g_player_left g)
       /\ g_state g' = playing
       /\ b_x (g_ball g') = 1253.
Proof.
  cbv zeta. split; [cbn; consts; lra|]. split; [reflexivity|].
  eexists. split.
  - unfold GameView.on_update. cbv zeta.
    rewrite (Rmin_left (1 / 30) (1 / 30)) by lra.
    unfold GameView.on_update_step. cbv zeta.
    rewrite on_update_message_idle by (cbn; lra).
    cbn [g_state playing_with gv_set_ball gv_set_state].
    rewrite on_update_playing_flight;
      [ | cbn [g_ball g_player_left g_player_right g_event_manager
               playing_with gv_set_ball gv_set_state GameView.init];
          rewrite ?Ball_update_returning;
          first [ reflexivity | apply Player_init_at_rest | far_vertical
                | far_horizontal | cbn; consts; lra ] .. ].
    cbn [bind]. unfold GameView.on_update_goal. cbv zeta.
    cbn [g_ball gv_set_ball gv_set_event_manager gv_set_state
         playing_with GameView.init].
    rewrite Ball_update_returning. cbn [b_x b_radius].
    rewrite flt_false by (consts; lra).
    rewrite fgt_false by (consts; lra).
    reflexivity.
  - repeat split; reflexivity.
Qed.

(** ** Ball against a horizontal paddle *)

Lemma MATERIALS_wood :
  dict_get MATERIALS wood = Ok (mkMaterial wood 0.95 1.00 0.10 true).
Proof. reflexivity. Qed.

Lemma MATERIALS_steel :
  dict_get MATERIALS steel = Ok (mkMaterial steel 1.05 1.05 0.02 false).
Proof. reflexivity. Qed.

Lemma MATERIALS_rubber :
  dict_get MATERIALS rubber = Ok (mkMaterial rubber 1.20 1.10 0.05 false).
Proof. reflexivity. Qed.

Lemma MATERIALS_positive (k : string) (mat : Material) :
  dict_get MATERIALS k = Ok mat ->
  0 < m_bounce mat /\ 0 < m_power mat /\ 0 <= m_friction mat <= 1.
Proof.
  unfold MATERIALS. cbn [dict_get].
  destruct (String.eqb wood k);
    [intros H; injection H as <-; cbn; lra|].
  destruct (String.eqb steel k);
    [intros H; injection H as <-; cbn; lra|].
  destruct (String.eqb rubber k);
    [intros H; injection H as <-; cbn; lra|].
  discriminate.
Qed.

(** The response of a paddle that is hit, as [collide_ball_with_horizontal_paddle]
    computes it. *)
Lemma collide_horizontal_hit (b : Ball) (p : HorizontalPaddle) (mat : Material) :
  hp_burned_out p = false ->
  hp_x p - hp_width p / 2 - b_radius b <= b_x b
    <= hp_x p + hp_width p / 2 + b_radius b ->
  hp_y p - hp_thickness p / 2 - b_radius b <= b_y b
    <= hp_y p + hp_thickness p / 2 + b_radius b ->
  HorizontalPaddle.material p = Ok mat ->
  collide_ball_with_horizontal_paddle b p
  = Ok (true,
        mkBall (b_x b)
          (if fge (b_y b) (hp_y p)
           then hp_y p + hp_thickness p / 2 + b_radius b + 0.5
           else hp_y p - hp_thickness p / 2 - b_radius b - 0.5)
          (b_vx b * m_bounce mat * (1.0 - m_friction mat) * BALL_BOUNCE_DAMP)
          ((Rabs (b_vy b) + 520.0) * (m_bounce mat * m_power mat)
           * BALL_BOUNCE_DAMP)
          (b_radius b)).
Proof.
  intros Hb [Hx1 Hx2] [Hy1 Hy2] Hmat.
  unfold collide_ball_with_horizontal_paddle. rewrite Hb, Hmat. cbv zeta.
  rewrite !fle_true by assumption. cbn [andb].
  destruct (fge (b_y b) (hp_y p)); unfold reflect; cbn [bind]; cbv zeta beta iota.
  - replace (b_vy b - 2 * (b_vx b * 0.0 + b_vy b * 1.0) * 1.0)
      with (- b_vy b) by lra.
    rewrite Rabs_Ropp. do 3 f_equal. lra.
  - replace (b_vy b - 2 * (b_vx b * 0.0 + b_vy b * -1.0) * -1.0)
      with (- b_vy b) by lra.
    rewrite Rabs_Ropp. do 3 f_equal. lra.
Qed.

(** Whatever the side of the hit, the ball leaves a horizontal paddle
    with a positive vertical velocity. *)
Lemma collide_horizontal_always_up (b b' : Ball) (p : HorizontalPaddle) :
  collide_ball_with_horizontal_paddle b p = Ok (true, b') ->
  0 < b_vy b'.
Proof.
  unfold collide_ball_with_horizontal_paddle.
  destruct (hp_burned_out p); [discriminate|]. cbv zeta.
  match goal with
  | |- (if ?c then _ else _) = _ -> _ => destruct c
  end; [|discriminate].
  destruct (HorizontalPaddle.material p) as [mat | e] eqn:Hmat;
    destruct (fge _ _); unfold reflect; cbn [bind]; cbv zeta beta iota;
    intros H; try discriminate; injection H as <-; cbn [b_vy];
    destruct (MATERIALS_positive _ _ Hmat) as (Hbo & Hpo & _);
    match goal with
    | |- context [Rabs ?v] => pose proof (Rabs_pos v)
    end;
    unfold BALL_BOUNCE_DAMP;
    apply Rmult_lt_0_compat; try lra;
    apply Rmult_lt_0_compat; try lra;
    apply Rmult_lt_0_compat; lra.
Qed.

(** C5 at a hit from below.  The ball [(380, 348)] rises with velocity
    [(0, 550)] into the wooden left paddle, whose centre is at height
    360.  The resolver takes the normal [-y] and puts the ball below the
    box, at 338.5, but the velocity it leaves is [(0, 996.17)]: upward,
    against the chosen normal, back into the paddle.  The same happens
    to the ball of the rally below, which enters the box of the rubber
    paddle at 530 from the side, under the paddle's centre. *)
Theorem horizontal_hit_from_below_kicks_into_paddle :
  (let paddle := HorizontalPaddle.init Left in
   hp_burned_out paddle = false
   /\ b_y ball_from_below < hp_y paddle
   /\ exists b',
        collide_ball_with_horizontal_paddle ball_from_below paddle
          = Ok (true, b')
        /\ b_y b' = hp_y paddle - hp_thickness paddle / 2 - BALL_RADIUS - 0.5
        /\ b_y b' = 338.5
        /\ b_vx b' = 0
        /\ b_vy b' = 996.17
        /\ b_vx b' * 0 + b_vy b' * -1 < 0)
  /\ (let paddle := p_horz (left_player 530 0.0 rubber) in
      hp_burned_out paddle = false
      /\ b_y ball_entering < hp_y paddle
      /\ exists b',
           collide_ball_with_horizontal_paddle ball_entering paddle
             = Ok (true, b')
           /\ b_y b' = 338.5
           /\ b_vy b' = 1215.984
           /\ b_vx b' * 0 + b_vy b' * -1 < 0).
Proof.
  split; cbv zeta.
  - split; [reflexivity|]. split; [cbn; consts; lra|].
    eexists. split.
    + rewrite (collide_horizontal_hit ball_from_below
                 (HorizontalPaddle.init Left)
                 (mkMaterial wood 0.95 1.00 0.10 true));
        [ | reflexivity | cbn; consts; lra | cbn; consts; lra | reflexivity ].
      cbn [b_x b_y b_vx b_vy b_radius ball_from_below hp_y hp_thickness
           HorizontalPaddle.init m_bounce m_power m_friction].
      rewrite fge_false by (consts; lra).
      rewrite Rabs_pos_eq by lra. reflexivity.
    + cbn. consts. repeat split; lra.
  - split; [reflexivity|]. split; [cbn; consts; lra|].
    eexists. split.
    + rewrite (collide_horizontal_hit _ _
                 (mkMaterial rubber 1.20 1.10 0.05 false));
        [ | reflexivity | cbn; consts; lra | cbn; consts; lra
          | exact MATERIALS_rubber ].
      cbn [b_x b_y b_vx b_vy b_radius ball_entering left_player p_horz
           hp_y hp_thickness m_bounce m_power m_friction].
      rewrite fge_false by (consts; lra).
      rewrite Rabs_left1 by lra. reflexivity.
    + cbn. consts. repeat split; lra.
Qed.

(** ** Stunned players *)

(** C6, as the code has it.  For a player with [stun_timer > 0],
    [Player.update] takes [dt] off the timer and disables both paddles,
    which then do not move in that tick whatever the intents are; under
    manual control both intents are zero after the update. *)
Theorem stunned_update_freezes_paddles (dt : R) (ball : Ball) (p : Player) :
  p_stun_timer p > 0 ->
  let p' := Player.update dt ball p in
  p_stun_timer p' = p_stun_timer p - dt
  /\ p_vert p' = VerticalPaddle.set_enabled false (p_vert p)
  /\ p_horz p' = HorizontalPaddle.set_enabled false (p_horz p)
  /\ vp_enabled (p_vert p') = false
  /\ hp_enabled (p_horz p') = false
  /\ vp_y (p_vert p') = vp_y (p_vert p)
  /\ hp_x (p_horz p') = hp_x (p_horz p)
  /\ (p_is_cpu p = false -> p_move_vert p' = 0 /\ p_move_horz p' = 0).
Proof.
  intros Hst. cbv zeta.
  unfold Player.update, Player.update_stun. cbv zeta.
  rewrite fgt_true by assumption. cbn [p_is_cpu].
  destruct (p_is_cpu p);
    unfold Player.update_paddles, Player._cpu_control, Player.set_moves,
      VerticalPaddle.update, HorizontalPaddle.update;
    cbn; repeat split; try reflexivity; try discriminate; lra.
Qed.

Lemma stunned_update_freezes_paddles_witness :
  let p := Player.set_stun 3 (Player.init Left false) in
  let p' := Player.update (1 / 30) ball_high p in
  p_stun_timer p' = p_stun_timer p - 1 / 30
  /\ vp_enabled (p_vert p') = false
  /\ p_move_vert p' = 0.
Proof.
  cbv zeta.
  assert (Hst : p_stun_timer (Player.set_stun 3 (Player.init Left false)) > 0).
  { cbn. rewrite Rmax_right by lra. lra. }
  destruct (stunned_update_freezes_paddles (1 / 30) ball_high _ Hst)
    as (Ht & _ & _ & Hv & _ & _ & _ & Hm).
  repeat split; [exact Ht | exact Hv | exact (proj1 (Hm eq_refl))].
Defined.

(** C6 fails for a stunned automatic player: [_cpu_control] runs after
    the intents were zeroed and sets them again, here to 1 and -1. *)
Lemma stunned_cpu_intents_not_zero :
  let p' := Player.update (1 / 30) ball_high cpu_stunned in
  p_stun_timer cpu_stunned > 0
  /\ p_is_cpu cpu_stunned = true
  /\ p_move_vert p' = 1
  /\ p_move_horz p' = -1.
Proof.
  cbv zeta.
  assert (Hst : p_stun_timer cpu_stunned = 3).
  { cbn. rewrite Rmax_right by lra. reflexivity. }
  split; [rewrite Hst; lra|]. split; [reflexivity|].
  unfold Player.update, Player.update_stun. cbv zeta.
  rewrite fgt_true by (rewrite Hst; lra).
  cbn [p_is_cpu cpu_stunned Player.set_stun Player.init].
  unfold Player.update_paddles, Player._cpu_control, Player.set_moves.
  cbn [p_move_vert p_move_horz].
  unfold ball_high, clamp. cbn.
  repeat fstep. cbn. repeat fstep. split; lra.
Qed.

(** ** The stun timer *)

Lemma Player_update_stun_timer (dt : R) (ball : Ball) (p : Player) :
  p_stun_timer (Player.update dt ball p)
  = if fgt (p_stun_timer p) 0 then p_stun_timer p - dt else p_stun_timer p.
Proof.
  unfold Player.update, Player.update_stun. cbv zeta.
  destruct (fgt (p_stun_timer p) 0); cbn [p_is_cpu];
    destruct (p_is_cpu p); reflexivity.
Qed.

Lemma Player_call_stun_floor (d : R) (c : PlayerCall) (p : Player) :
  match c with
  | Call_set_stun _ => True
  | Call_update dt _ => 0 <= dt <= d
  end ->
  - d <= p_stun_timer p ->
  - d <= p_stun_timer (Player_call c p).
Proof.
  destruct c as [duration | dt ball]; cbn [Player_call]; intros Hc Hp.
  - cbn. apply Rle_trans with (p_stun_timer p); [assumption | apply Rmax_l].
  - rewrite Player_update_stun_timer.
    destruct (fgt (p_stun_timer p) 0) eqn:E; [|assumption].
    apply fgt_spec in E. lra.
Qed.

(** C7, as the code has it.  The timer is not kept above zero: the
    stun branch of [Player.update] subtracts the whole [dt] from a
    positive timer.  What holds is a floor of one step: along every
    sequence of [set_stun] and [update] calls whose steps lie between 0
    and [d], a timer that starts at or above [-d] stays at or above
    [-d] after every call. *)
Theorem stun_timer_floor (d : R) (cs : list PlayerCall) (p : Player) :
  steps_within d cs ->
  - d <= p_stun_timer p ->
  forall n : nat, - d <= p_stun_timer (Player_calls (firstn n cs) p).
Proof.
  unfold steps_within, Player_calls. intros Hcs.
  revert p. induction Hcs as [| c cs Hc Hcs IH]; intros p Hp n.
  - rewrite firstn_nil. exact Hp.
  - destruct n as [| n]; [exact Hp|].
    cbn [firstn fold_left]. apply IH.
    apply Player_call_stun_floor; assumption.
Qed.

Lemma stun_timer_floor_witness :
  - (1 / 30)
  <= p_stun_timer
       (Player_calls
          (firstn 2 [Call_set_stun 0.01; Call_update (1 / 30) ball_high])
          (Player.init Left false)).
Proof.
  apply (stun_timer_floor (1 / 30)
           [Call_set_stun 0.01; Call_update (1 / 30) ball_high]
           (Player.init Left false)).
  - repeat constructor; lra.
  - cbn. lra.
Defined.

(** C7 fails on a fresh player: after [set_stun(0.01)] and one update of
    1/30 the timer is [0.01 - 1/30], which is negative. *)
Lemma stun_timer_goes_negative :
  let p := Player_calls [Call_set_stun 0.01; Call_update (1 / 30) ball_high]
             (Player.init Left false) in
  p_stun_timer (Player.init Left false) = 0
  /\ p_stun_timer p = 0.01 - 1 / 30
  /\ p_stun_timer p < 0.
Proof.
  cbv zeta. cbn [Player_calls fold_left Player_call].
  rewrite Player_update_stun_timer.
  cbn [p_stun_timer Player.set_stun Player.init].
  rewrite (Rmax_right 0.0 0.01) by lra.
  rewrite fgt_true by lra. repeat split; lra.
Qed.

(** ** Free fall *)

Lemma Rsum_cons (d : R) (l : list R) : Rsum (d :: l) = d + Rsum l.
Proof. reflexivity. Qed.

Lemma Rsum_sq_cons (d : R) (l : list R) :
  Rsum_sq (d :: l) = d * d + Rsum_sq l.
Proof. reflexivity. Qed.

Lemma Rsum_nonneg (l : list R) : Forall (fun dt => 0 <= dt) l -> 0 <= Rsum l.
Proof.
  induction 1 as [| d l Hd _ IH]; [cbn; lra|]. rewrite Rsum_cons. lra.
Qed.

(** A ball with no horizontal velocity that is not rising, stepped while
    its speed stays under the cap. *)
Lemma Ball_updates_falling (dts : list R) (b : Ball) :
  Forall (fun dt => 0 <= dt) dts ->
  b_vx b = 0 ->
  b_vy b <= 0 ->
  - (b_vy b + GRAVITY * Rsum dts) <= BALL_MAX_SPEED ->
  let b' := Ball_updates dts b in
  b_vx b' = 0
  /\ b_vy b' = b_vy b + GRAVITY * Rsum dts
  /\ b_x b' = b_x b
  /\ b_y b' = b_y b + b_vy b * Rsum dts
              + GRAVITY * (Rsum dts * Rsum dts + Rsum_sq dts) / 2.
Proof.
  intros Hdts. revert b.
  induction Hdts as [| dt dts Hdt Hdts IH]; intros b Hvx Hvy Hcap.
  - cbn. repeat split; try assumption; lra.
  - rewrite Rsum_cons in Hcap.
    pose proof (Rsum_nonneg dts Hdts) as Hs.
    assert (Hstep : Ball.update dt b =
                    mkBall (b_x b) (b_y b + (b_vy b + GRAVITY * dt) * dt)
                      0 (b_vy b + GRAVITY * dt) (b_radius b)).
    { rewrite Ball_update_unclamped.
      - rewrite Hvx. f_equal. lra.
      - rewrite Hvx, vec_length_axis_y.
        rewrite Rabs_left1 by (unfold GRAVITY; nra).
        unfold GRAVITY in *. nra. }
    cbv zeta. unfold Ball_updates. cbn [fold_left]. rewrite Hstep.
    fold (Ball_updates dts
            (mkBall (b_x b) (b_y b + (b_vy b + GRAVITY * dt) * dt)
               0 (b_vy b + GRAVITY * dt) (b_radius b))).
    assert (Hv1 : b_vy b + GRAVITY * dt <= 0) by (unfold GRAVITY; nra).
    assert (Hc1 : - (b_vy b + GRAVITY * dt + GRAVITY * Rsum dts)
                  <= BALL_MAX_SPEED) by lra.
    destruct (IH (mkBall (b_x b) (b_y b + (b_vy b + GRAVITY * dt) * dt)
                    0 (b_vy b + GRAVITY * dt) (b_radius b))
                eq_refl Hv1 Hc1)
      as (Ivx & Ivy & Ix & Iy).
    cbn [b_x b_y b_vx b_vy] in *.
    rewrite Rsum_cons, Rsum_sq_cons.
    repeat split; try assumption; lra.
Qed.

(** C8, as the code has it.  From rest at the field centre, steps
    [dts >= 0] of total time [t] leave [vy = g t] as long as
    [|g| t <= BALL_MAX_SPEED], and
    [y = center_y + g t^2 / 2 + g (sum of dt^2) / 2]: the velocity is
    updated before the position in each step, so the height runs ahead
    of the closed form by half a step of velocity per step (for [n]
    equal steps, by [g t dt / 2]). *)
Theorem free_fall_from_rest (dts : list R) :
  Forall (fun dt => 0 <= dt) dts ->
  - GRAVITY * Rsum dts <= BALL_MAX_SPEED ->
  let t := Rsum dts in
  let b := Ball_updates dts Ball.init in
  b_vy b = GRAVITY * t
  /\ b_y b = FIELD_CENTER_Y + GRAVITY * (t * t) / 2 + GRAVITY * Rsum_sq dts / 2
  /\ b_x b = FIELD_CENTER_X
  /\ b_vx b = 0.
Proof.
  intros Hdts Hcap. cbv zeta.
  destruct (Ball_updates_falling dts Ball.init Hdts)
    as (Hvx & Hvy & Hx & Hy); cbn; try lra.
  cbn [b_x b_y b_vx b_vy Ball.init] in *.
  repeat split; try assumption; try lra.
Qed.

Lemma Rsum_repeat (d : R) (n : nat) : Rsum (repeat d n) = INR n * d.
Proof.
  induction n as [| n IH]; [cbn; lra|].
  cbn [repeat]. rewrite Rsum_cons, IH, S_INR. lra.
Qed.

Lemma Rsum_sq_repeat (d : R) (n : nat) :
  Rsum_sq (repeat d n) = INR n * (d * d).
Proof.
  induction n as [| n IH]; [cbn; lra|].
  cbn [repeat]. rewrite Rsum_sq_cons, IH, S_INR. lra.
Qed.

Lemma Forall_repeat_nonneg (d : R) (n : nat) :
  0 <= d -> Forall (fun dt => 0 <= dt) (repeat d n).
Proof. intros Hd. induction n; cbn; constructor; assumption. Qed.

Lemma INR_30 : INR 30 = 30.
Proof. rewrite INR_IZR_INZ. reflexivity. Qed.

Lemma free_fall_from_rest_witness :
  let b := Ball_updates (repeat (1 / 30) 30) Ball.init in
  b_vy b = GRAVITY * Rsum (repeat (1 / 30) 30).
Proof.
  apply (free_fall_from_rest (repeat (1 / 30) 30)).
  - apply Forall_repeat_nonneg. lra.
  - rewrite Rsum_repeat, INR_30. consts. lra.
Defined.

(** C8 fails in both parts.  Thirty steps of 1/30 from rest at the
    centre make one second, and the height is then 70/3 units below
    [center_y + g t^2 / 2]; one step of two seconds leaves [vy] at the
    cap, [-1600], and not at [g t = -2800]. *)
Lemma free_fall_misses_closed_form :
  (let b := Ball_updates (repeat (1 / 30) 30) Ball.init in
   Rsum (repeat (1 / 30) 30) = 1
   /\ b_vy b = GRAVITY * 1
   /\ b_y b = FIELD_CENTER_Y + GRAVITY * (1 * 1) / 2 - 70 / 3)
  /\ (let b := Ball_updates [2] Ball.init in
      b_vy b = - BALL_MAX_SPEED /\ GRAVITY * 2 = -2800).
Proof.
  split.
  - cbv zeta.
    assert (Ht : Rsum (repeat (1 / 30) 30) = 1)
      by (rewrite Rsum_repeat, INR_30; lra).
    assert (Hq : Rsum_sq (repeat (1 / 30) 30) = 1 / 30)
      by (rewrite Rsum_sq_repeat, INR_30; lra).
    destruct (Ball_updates_falling (repeat (1 / 30) 30) Ball.init)
      as (_ & Hvy & _ & Hy).
    + apply Forall_repeat_nonneg. lra.
    + cbn. lra.
    + cbn. lra.
    + rewrite Ht. cbn. consts. lra.
    + rewrite Ht, ?Hq in *. cbn [b_y b_vy Ball.init] in *.
      repeat split; consts; lra.
  - cbv zeta. unfold Ball_updates. cbn [fold_left].
    assert (Hsp : vec_length (b_vx Ball.init) (b_vy Ball.init + GRAVITY * 2)
                  = 2800).
    { cbn [b_vx b_vy Ball.init].
      replace 0.0 with 0 by lra. rewrite vec_length_axis_y.
      rewrite Rabs_left1 by (consts; lra). consts. lra. }
    rewrite Ball_update_clamped by (rewrite Hsp; consts; lra).
    cbv zeta. rewrite Hsp. cbn. consts. split; lra.
Qed.

(** ** The range of the horizontal paddles *)

(** Case analysis on every minimum and maximum of the goal, innermost
    first. *)
Ltac minmax_cases :=
  unfold clamp, Rmin, Rmax;
  repeat match goal with
         | |- context [Rle_dec ?a ?b] =>
             lazymatch a with
             | context [Rle_dec _ _] => fail
             | _ =>
                 lazymatch b with
                 | context [Rle_dec _ _] => fail
                 | _ => destruct (Rle_dec a b)
                 end
             end
         end.

Lemma HorizontalPaddle_call_range (c : HorizontalCall) (p : HorizontalPaddle) :
  hp_min_x p <= hp_max_x p ->
  hp_min_x p <= hp_x p <= hp_max_x p ->
  let p' := HorizontalPaddle_call c p in
  hp_min_x p' = hp_min_x p
  /\ hp_max_x p' = hp_max_x p
  /\ hp_width p' = hp_width p
  /\ hp_min_x p <= hp_x p' <= hp_max_x p.
Proof.
  intros Hmm Hx. destruct c as [dt m | nm | e | b]; cbn;
    try (repeat split; try reflexivity; apply Hx).
  unfold HorizontalPaddle.update.
  destruct (negb (hp_enabled p) || hp_burned_out p).
  - repeat split; try reflexivity; apply Hx.
  - cbn. repeat split; try reflexivity; apply clamp_bounds; assumption.
Qed.

Lemma HorizontalPaddle_calls_range
  (cs : list HorizontalCall) (p : HorizontalPaddle) :
  hp_min_x p <= hp_max_x p ->
  hp_min_x p <= hp_x p <= hp_max_x p ->
  let p' := HorizontalPaddle_calls cs p in
  hp_min_x p' = hp_min_x p
  /\ hp_max_x p' = hp_max_x p
  /\ hp_width p' = hp_width p
  /\ hp_min_x p <= hp_x p' <= hp_max_x p.
Proof.
  revert p. unfold HorizontalPaddle_calls.
  induction cs as [| c cs IH]; intros p Hmm Hx.
  - cbn. repeat split; try reflexivity; apply Hx.
  - cbn [fold_left].
    destruct (HorizontalPaddle_call_range c p Hmm Hx) as (A & B & C & D).
    destruct (IH (HorizontalPaddle_call c p)) as (A' & B' & C' & D').
    + rewrite A, B. assumption.
    + rewrite A, B. assumption.
    + cbv zeta. rewrite A', B', C', A, B, C. rewrite A, B in D'.
      repeat split; try reflexivity; apply D'.
Qed.

Lemma HorizontalPaddle_update_moving
  (dt m : R) (p : HorizontalPaddle) :
  hp_enabled p = true -> hp_burned_out p = false ->
  HorizontalPaddle.update dt m p
  = mkHorizontalPaddle (hp_side p) (hp_width p) (hp_thickness p) (hp_y p)
      (hp_speed p) (hp_min_x p) (hp_max_x p)
      (clamp (hp_x p + m * hp_speed p * dt) (hp_min_x p) (hp_max_x p))
      (hp_material_name p) (hp_enabled p) (hp_burned_out p).
Proof.
  intros He Hb. unfold HorizontalPaddle.update. rewrite He, Hb. reflexivity.
Qed.

(** The paddle of the given side after [n] updates of 1/30 with the
    intent 1 or -1, from its first position. *)
Lemma HorizontalPaddle_pushed (side : Side) (up : bool) (n : nat) :
  let p0 := HorizontalPaddle.init side in
  HorizontalPaddle_calls
    (repeat (HCall_update (1 / 30) (if up then 1 else -1)) n) p0
  = mkHorizontalPaddle side HOR_PADDLE_WIDTH HOR_PADDLE_THICKNESS
      (hp_y p0) 900.0 (hp_min_x p0) (hp_max_x p0)
      (if up then Rmin (hp_x p0 + 30 * INR n) (hp_max_x p0)
       else Rmax (hp_x p0 - 30 * INR n) (hp_min_x p0))
      wood true false.
Proof.
  cbv zeta.
  assert (Hr : hp_min_x (HorizontalPaddle.init side) + 100
               <= hp_max_x (HorizontalPaddle.init side)
               /\ hp_x (HorizontalPaddle.init side)
                  <= hp_max_x (HorizontalPaddle.init side)
               /\ hp_min_x (HorizontalPaddle.init side)
                  <= hp_x (HorizontalPaddle.init side))
    by (destruct side; cbn; consts; lra).
  induction n as [| n IH].
  - cbn [repeat HorizontalPaddle_calls fold_left].
    change (INR 0) with 0.
    destruct up.
    + rewrite Rmin_left by lra.
      replace (hp_x (HorizontalPaddle.init side) + 30 * 0)
        with (hp_x (HorizontalPaddle.init side)) by lra.
      destruct side; reflexivity.
    + rewrite Rmax_left by lra.
      replace (hp_x (HorizontalPaddle.init side) - 30 * 0)
        with (hp_x (HorizontalPaddle.init side)) by lra.
      destruct side; reflexivity.
  - replace (repeat (HCall_update (1 / 30) (if up then 1 else -1)) (S n))
      with (repeat (HCall_update (1 / 30) (if up then 1 else -1)) n
            ++ [HCall_update (1 / 30) (if up then 1 else -1)])
      by (rewrite <- repeat_cons; reflexivity).
    unfold HorizontalPaddle_calls in *. rewrite fold_left_app, IH.
    cbn [fold_left HorizontalPaddle_call].
    rewrite HorizontalPaddle_update_moving by reflexivity.
    cbn [hp_side hp_width hp_thickness hp_y hp_speed hp_min_x hp_max_x hp_x
         hp_material_name hp_enabled hp_burned_out].
    rewrite S_INR. pose proof (pos_INR n) as Hn.
    f_equal. destruct up; minmax_cases; lra.
Qed.

(** C10.  Along every sequence of calls the centre of the left paddle
    stays at or left of [FIELD_CENTER_X - 40], hence left of the
    centre line, and its right edge at or left of [FIELD_CENTER_X + 10];
    twelve updates of 1/30 with intent 1 bring the centre to
    [FIELD_CENTER_X - 40] and the right edge to [FIELD_CENTER_X + 10],
    ten units past the centre line.  The right paddle mirrors this: its
    centre stays at or right of [FIELD_CENTER_X + 40], its left edge at
    or right of [FIELD_CENTER_X - 10], which twelve updates with intent
    -1 reach. *)
Theorem horizontal_paddle_overlaps_centerline :
  (forall cs : list HorizontalCall,
     let p := HorizontalPaddle_calls cs (HorizontalPaddle.init Left) in
     hp_x p <= FIELD_CENTER_X - 40
     /\ hp_x p < FIELD_CENTER_X
     /\ hp_width p / 2 = 50
     /\ hp_x p + hp_width p / 2 <= FIELD_CENTER_X + 10)
  /\ (let p := HorizontalPaddle_calls (repeat (HCall_update (1 / 30) 1) 12)
                 (HorizontalPaddle.init Left) in
      hp_x p = FIELD_CENTER_X - 40
      /\ hp_x p + hp_width p / 2 = FIELD_CENTER_X + 10)
  /\ (forall cs : list HorizontalCall,
        let p := HorizontalPaddle_calls cs (HorizontalPaddle.init Right) in
        FIELD_CENTER_X + 40 <= hp_x p
        /\ FIELD_CENTER_X < hp_x p
        /\ hp_width p / 2 = 50
        /\ FIELD_CENTER_X - 10 <= hp_x p - hp_width p / 2)
  /\ (let p := HorizontalPaddle_calls (repeat (HCall_update (1 / 30) (-1)) 12)
                 (HorizontalPaddle.init Right) in
      hp_x p = FIELD_CENTER_X + 40
      /\ hp_x p - hp_width p / 2 = FIELD_CENTER_X - 10).
Proof.
  assert (H12 : INR 12 = 12) by (rewrite INR_IZR_INZ; reflexivity).
  repeat apply conj.
  - intros cs.
    destruct (HorizontalPaddle_calls_range cs (HorizontalPaddle.init Left))
      as (_ & _ & Hw & Hx); [cbn; consts; lra | cbn; consts; lra |].
    cbv zeta. rewrite Hw. cbn in Hx |- *. consts. lra.
  - rewrite (HorizontalPaddle_pushed Left true 12), H12. cbn.
    rewrite Rmin_right by (consts; lra). consts. lra.
  - rewrite (HorizontalPaddle_pushed Left true 12), H12. cbn.
    rewrite Rmin_right by (consts; lra). consts. lra.
  - intros cs.
    destruct (HorizontalPaddle_calls_range cs (HorizontalPaddle.init Right))
      as (_ & _ & Hw & Hx); [cbn; consts; lra | cbn; consts; lra |].
    cbv zeta. rewrite Hw. cbn in Hx |- *. consts. lra.
  - rewrite (HorizontalPaddle_pushed Right false 12), H12. cbn.
    rewrite Rmax_right by (consts; lra). consts. lra.
  - rewrite (HorizontalPaddle_pushed Right false 12), H12. cbn.
    rewrite Rmax_right by (consts; lra). consts. lra.
Qed.

(** ** A rally that breaks the speed cap *)

(** A playing tick in which no event is due and both players are idle,
    whatever the ball meets. *)
Lemma on_update_playing_quiet
  (dt : R) (rnd : Random) (g : GameView)
  (h1 h2 h3 h4 : bool) (b2 b3 b4 b5 : Ball) :
  let b1 := Ball.update dt (g_ball g) in
  em_warning_active (g_event_manager g) = false ->
  em_next_event_in (g_event_manager g) - dt > EVENT_WARNING_TIME ->
  Player_at_rest (g_player_left g) ->
  Player_at_rest (g_player_right g) ->
  FIELD_BOTTOM < b_y b1 - b_radius b1 ->
  b_y b1 + b_radius b1 < FIELD_TOP ->
  collide_ball_with_vertical_paddle b1 (p_vert (g_player_left g))
    = Ok (h1, b2) ->
  collide_ball_with_vertical_paddle b2 (p_vert (g_player_right g))
    = Ok (h2, b3) ->
  collide_ball_with_horizontal_paddle b3 (p_horz (g_player_left g))
    = Ok (h3, b4) ->
  collide_ball_with_horizontal_paddle b4 (p_horz (g_player_right g))
    = Ok (h4, b5) ->
  GameView.on_update_before_ball dt rnd g
  = Ok (gv_set_event_manager
          (EventManager.update_timers dt (g_event_manager g)) g)
  /\ GameView.on_update_collisions
       (GameView.on_update_move dt
          (gv_set_event_manager
             (EventManager.update_timers dt (g_event_manager g)) g))
     = Ok (h1 || h2 || h3 || h4, b5)
  /\ GameView.on_update_playing dt rnd g
     = Ok (gv_set_ball
             (if h1 || h2 || h3 || h4 then
                mkBall (b_x b5) (b_y b5) (b_vx b5 * 1.01) (b_vy b5 * 1.01)
                  (b_radius b5)
              else b5)
             (gv_set_event_manager
                (EventManager.update_timers dt (g_event_manager g)) g)).
Proof.
  intros b1 Hw Hn Hl Hr Hb Ht C1 C2 C3 C4.
  assert (Hpre : GameView.on_update_before_ball dt rnd g
                 = Ok (gv_set_event_manager
                         (EventManager.update_timers dt (g_event_manager g))
                         g)).
  { unfold GameView.on_update_before_ball. cbv zeta.
    rewrite EventManager_update_quiet by assumption.
    cbn [bind g_ball g_player_left g_player_right gv_set_event_manager].
    rewrite !Player_update_at_rest by assumption.
    destruct g; reflexivity. }
  assert (Hcol : GameView.on_update_collisions
                   (GameView.on_update_move dt
                      (gv_set_event_manager
                         (EventManager.update_timers dt (g_event_manager g))
                         g))
                 = Ok (h1 || h2 || h3 || h4, b5)).
  { unfold GameView.on_update_collisions, GameView.on_update_move. cbv zeta.
    cbn [g_ball g_player_left g_player_right gv_set_players gv_set_ball
         gv_set_event_manager].
    fold b1. rewrite (on_update_walls_clear b1) by assumption.
    rewrite C1. cbn [bind]. rewrite C2. cbn [bind].
    rewrite C3. cbn [bind]. rewrite C4. cbn [bind orb]. reflexivity. }
  repeat split; try assumption.
  unfold GameView.on_update_playing. cbv zeta.
  rewrite Hpre. cbn [bind]. rewrite Hcol. cbn [bind].
  unfold GameView.on_update_move.
  cbn [g_ball gv_set_ball gv_set_event_manager].
  destruct g; reflexivity.
Qed.

Lemma Player_update_left (dt : R) (ball : Ball) (xl mh : R) (mat : string) :
  Player.update dt ball (left_player xl mh mat)
  = left_player
      (clamp (xl + mh * 900.0 * dt)
         (FIELD_LEFT + HOR_PADDLE_WIDTH / 2) (FIELD_CENTER_X - 40))
      mh mat.
Proof.
  unfold Player.update, Player.update_stun, left_player. cbv zeta.
  cbn [p_stun_timer]. rewrite fgt_false by lra.
  cbn [p_is_cpu]. unfold Player.update_paddles.
  cbn [p_side p_is_cpu p_vert p_horz p_score p_move_vert p_move_horz
       p_stun_timer VerticalPaddle.set_enabled HorizontalPaddle.set_enabled
       vp_side vp_length vp_thickness vp_tilt_deg vp_x vp_y vp_speed
       vp_material_name vp_enabled vp_burned_out
       hp_side hp_width hp_thickness hp_y hp_speed hp_min_x hp_max_x hp_x
       hp_material_name hp_enabled hp_burned_out].
  unfold VerticalPaddle.update, HorizontalPaddle.update,
    VerticalPaddle.set_enabled, HorizontalPaddle.set_enabled.
  cbn [negb orb vp_side vp_length vp_thickness vp_tilt_deg vp_x vp_y vp_speed
       vp_material_name vp_enabled vp_burned_out
       hp_side hp_width hp_thickness hp_y hp_speed hp_min_x hp_max_x hp_x
       hp_material_name hp_enabled hp_burned_out].
  rewrite (clamp_id (FIELD_CENTER_Y + 0.0 * 900.0 * dt)) by (consts; lra).
  replace (FIELD_CENTER_Y + 0.0 * 900.0 * dt) with FIELD_CENTER_Y by lra.
  reflexivity.
Qed.

Lemma left_player_at_rest (xl : R) (mat : string) :
  FIELD_LEFT + HOR_PADDLE_WIDTH / 2 <= xl <= FIELD_CENTER_X - 40 ->
  Player_at_rest (left_player xl 0.0 mat).
Proof.
  intros Hx. unfold Player_at_rest, left_player. cbn. consts.
  repeat split; lra.
Qed.

Lemma on_show_view_rally :
  GameView.on_show_view rnd0 (GameView.init "pvp")
  = rally countdown 3.0 "3" 0.0 EVENT_INTERVAL Ball.init
      (FIELD_LEFT + HOR_PADDLE_WIDTH / 2 + 50) 0.0 wood.
Proof. reflexivity. Qed.

Lemma rally_apply_material (st : State) (c : R) (text : string)
  (tm nx : R) (ball : Ball) (xl mh : R) (mat mat' : string) :
  GameView._apply_material mat' (rally st c text tm nx ball xl mh mat)
  = rally st c text tm nx ball xl mh mat'.
Proof. reflexivity. Qed.

Lemma rally_press_D (st : State) (c : R) (text : string)
  (tm nx : R) (ball : Ball) (xl mh : R) (mat : string) :
  GameView.on_key_press K_D (rally st c text tm nx ball xl mh mat)
  = rally st c text tm nx ball xl 1.0 mat.
Proof. reflexivity. Qed.

Lemma rally_release_D (st : State) (c : R) (text : string)
  (tm nx : R) (ball : Ball) (xl mh : R) (mat : string) :
  GameView.on_key_release K_D (rally st c text tm nx ball xl mh mat)
  = rally st c text tm nx ball xl 0.0 mat.
Proof. reflexivity. Qed.

Lemma on_update_countdown_running (dt : R) (rnd : Random) (g : GameView) :
  g_countdown g - dt > 0 ->
  GameView.on_update_countdown dt rnd g
  = gv_set_players
      (Player.update dt (g_ball g) (g_player_left g))
      (Player.update dt (g_ball g) (g_player_right g))
      (gv_set_countdown (g_countdown g - dt)
         (countdown_label (g_countdown g - dt)) g).
Proof.
  intros Hc. unfold GameView.on_update_countdown, countdown_label. cbv zeta.
  cbn [g_countdown gv_set_countdown].
  destruct (fgt (g_countdown g - dt) 2); [destruct g; reflexivity|].
  destruct (fgt (g_countdown g - dt) 1); [destruct g; reflexivity|].
  rewrite fgt_true by assumption.
  destruct g; reflexivity.
Qed.

Lemma on_update_countdown_launch (dt : R) (rnd : Random) (g : GameView) :
  g_countdown g - dt <= 0 ->
  GameView.on_update_countdown dt rnd g
  = let ball := Ball.reset rnd (g_ball g) in
    gv_set_players
      (Player.update dt ball (g_player_left g))
      (Player.update dt ball (g_player_right g))
      (gv_set_ball ball
         (gv_set_state playing
            (gv_set_countdown (g_countdown g - dt) (g_countdown_text g) g))).
Proof.
  intros Hc. unfold GameView.on_update_countdown. cbv zeta.
  cbn [g_countdown gv_set_countdown].
  rewrite !fgt_false by lra.
  destruct g; reflexivity.
Qed.

Lemma on_update_frame (rnd : Random) (g : GameView) :
  g_last_event_timer g <= 0 ->
  GameView.on_update (1 / 30) rnd g
  = match g_state g with
    | paused => Ok g
    | countdown => Ok (GameView.on_update_countdown (1 / 30) rnd g)
    | playing =>
        g' <- GameView.on_update_playing (1 / 30) rnd g ;;
        Ok (GameView.on_update_goal rnd g')
    end.
Proof.
  intros H. unfold GameView.on_update. cbv zeta.
  rewrite (Rmin_left (1 / 30) (1 / 30)) by lra.
  unfold GameView.on_update_step. cbv zeta.
  rewrite on_update_message_idle by assumption. reflexivity.
Qed.

Lemma rally_frame_countdown (c : R) (text : string) (tm nx : R)
  (ball : Ball) (xl mh : R) (mat : string) :
  c - 1 / 30 > 0 ->
  Host_call frame (rally countdown c text tm nx ball xl mh mat)
  = Ok (rally countdown (c - 1 / 30) (countdown_label (c - 1 / 30))
          tm nx ball
          (clamp (xl + mh * 900.0 * (1 / 30))
             (FIELD_LEFT + HOR_PADDLE_WIDTH / 2) (FIELD_CENTER_X - 40))
          mh mat).
Proof.
  intros Hc. unfold frame, Host_call.
  rewrite on_update_frame by (cbn; lra).
  cbn [g_state rally].
  rewrite on_update_countdown_running by exact Hc.
  cbn [g_ball g_player_left g_player_right g_countdown rally].
  rewrite Player_update_left.
  rewrite (Player_update_at_rest _ _ (Player.init Right false))
    by apply Player_init_at_rest.
  reflexivity.
Qed.

Lemma rally_frame_launch (c : R) (text : string) (tm nx : R)
  (xl : R) (mat : string) :
  c - 1 / 30 <= 0 ->
  FIELD_LEFT + HOR_PADDLE_WIDTH / 2 <= xl <= FIELD_CENTER_X - 40 ->
  Host_call frame (rally countdown c text tm nx Ball.init xl 0.0 mat)
  = Ok (rally playing (c - 1 / 30) text tm nx
          (mkBall FIELD_CENTER_X FIELD_CENTER_Y (-650) 0 BALL_RADIUS)
          xl 0.0 mat).
Proof.
  intros Hc Hx. unfold frame, Host_call.
  rewrite on_update_frame by (cbn; lra).
  cbn [g_state rally].
  rewrite on_update_countdown_launch by (cbn; lra). cbv zeta.
  cbn [g_ball g_player_left g_player_right g_countdown g_countdown_text
       rally].
  rewrite Player_update_left.
  rewrite (Player_update_at_rest _ _ (Player.init Right false))
    by apply Player_init_at_rest.
  rewrite clamp_id by lra.
  replace (xl + 0.0 * 900.0 * (1 / 30)) with xl by lra.
  assert (Hb : Ball.reset rnd0 Ball.init
               = mkBall FIELD_CENTER_X FIELD_CENTER_Y (-650) 0 BALL_RADIUS).
  { unfold Ball.reset, random_choice_of. cbn. rewrite cos_0, sin_0.
    f_equal; consts; lra. }
  rewrite Hb. reflexivity.
Qed.

(** A frame of play of the rally in which no event is due: the ball
    moves without clamp and without touching a wall, then meets the
    paddles with the given outcomes, and nobody scores. *)
Lemma rally_frame_playing (c : R) (text : string) (tm nx : R)
  (ball : Ball) (xl : R) (mat : string)
  (h1 h2 h3 h4 : bool) (b2 b3 b4 b5 : Ball) :
  let g := rally playing c text tm nx ball xl 0.0 mat in
  let b1 := Ball.update (1 / 30) ball in
  let b6 := if h1 || h2 || h3 || h4 then
              mkBall (b_x b5) (b_y b5) (b_vx b5 * 1.01) (b_vy b5 * 1.01)
                (b_radius b5)
            else b5 in
  nx - 1 / 30 > EVENT_WARNING_TIME ->
  FIELD_LEFT + HOR_PADDLE_WIDTH / 2 <= xl <= FIELD_CENTER_X - 40 ->
  FIELD_BOTTOM < b_y b1 - b_radius b1 ->
  b_y b1 + b_radius b1 < FIELD_TOP ->
  collide_ball_with_vertical_paddle b1 (p_vert (g_player_left g))
    = Ok (h1, b2) ->
  collide_ball_with_vertical_paddle b2 (p_vert (g_player_right g))
    = Ok (h2, b3) ->
  collide_ball_with_horizontal_paddle b3 (p_horz (g_player_left g))
    = Ok (h3, b4) ->
  collide_ball_with_horizontal_paddle b4 (p_horz (g_player_right g))
    = Ok (h4, b5) ->
  FIELD_LEFT <= b_x b6 + b_radius b6 ->
  b_x b6 - b_radius b6 <= FIELD_RIGHT ->
  GameView.on_update_collisions
    (GameView.on_update_move (1 / 30)
       (rally playing c text (tm + 1 / 30) (nx - 1 / 30) ball xl 0.0 mat))
  = Ok (h1 || h2 || h3 || h4, b5)
  /\ Host_call frame g
     = Ok (rally playing c text (tm + 1 / 30) (nx - 1 / 30) b6 xl 0.0 mat).
Proof.
  intros g b1 b6 Hn Hx Hb Ht C1 C2 C3 C4 Gl Gr.
  destruct (on_update_playing_quiet (1 / 30) rnd0 g h1 h2 h3 h4 b2 b3 b4 b5)
    as (_ & Hcol & Hplay);
    try assumption; try reflexivity.
  - apply left_player_at_rest. assumption.
  - apply Player_init_at_rest.
  - split; [exact Hcol|].
    unfold frame, Host_call.
    rewrite on_update_frame by (cbn; lra).
    cbn [g_state rally g]. fold g. rewrite Hplay. cbn [bind].
    unfold GameView.on_update_goal. cbv zeta.
    cbn [g_ball gv_set_ball]. fold b6.
    rewrite flt_false by assumption.
    rewrite fgt_false by assumption.
    reflexivity.
Qed.

Lemma Host_calls_app (cs1 cs2 : list HostCall) (g : GameView) :
  Host_calls (cs1 ++ cs2) g = g' <- Host_calls cs1 g ;; Host_calls cs2 g'.
Proof.
  revert g. induction cs1 as [| c cs1 IH]; intros g; [reflexivity|].
  cbn [app Host_calls]. destruct (Host_call c g) as [g' | e]; cbn [bind].
  - apply IH.
  - reflexivity.
Qed.

Lemma rally_ext (st : State) (text text' mat : string)
  (c c' tm tm' nx nx' xl xl' mh mh' : R) (ball ball' : Ball) :
  c = c' -> text = text' -> tm = tm' -> nx = nx' -> ball = ball' ->
  xl = xl' -> mh = mh' ->
  rally st c text tm nx ball xl mh mat
  = rally st c' text' tm' nx' ball' xl' mh' mat.
Proof. intros; subst; reflexivity. Qed.

Lemma mkBall_ext (x x' y y' vx vx' vy vy' r r' : R) :
  x = x' -> y = y' -> vx = vx' -> vy = vy' -> r = r' ->
  mkBall x y vx vy r = mkBall x' y' vx' vy' r'.
Proof. intros; subst; reflexivity. Qed.

(** [n] frames of the countdown while it lasts: the left paddle moves by
    30 per frame under the intent [mh]. *)
Lemma rally_frames_countdown (tm nx : R) (ball : Ball) (mh : R)
  (mat : string) (n : nat) :
  forall (c : R) (text : string) (xl : R),
    0 <= mh ->
    FIELD_LEFT + HOR_PADDLE_WIDTH / 2 <= xl ->
    xl + 30 * mh * INR n <= FIELD_CENTER_X - 40 ->
    c - INR n / 30 > 0 ->
    Host_calls (repeat frame n)
      (rally countdown c text tm nx ball xl mh mat)
    = Ok (rally countdown (c - INR n / 30)
            (match n with
             | O => text
             | S _ => countdown_label (c - INR n / 30)
             end)
            tm nx ball (xl + 30 * mh * INR n) mh mat).
Proof.
  induction n as [| n IH]; intros c text xl Hmh Hlo Hhi Hc.
  - cbn [repeat Host_calls]. f_equal.
    apply rally_ext; try reflexivity; cbn; lra.
  - rewrite S_INR in Hhi, Hc. pose proof (pos_INR n) as Hn.
    assert (Hmn : 0 <= mh * INR n) by (apply Rmult_le_pos; assumption).
    cbn [repeat Host_calls].
    rewrite rally_frame_countdown by lra. cbn [bind].
    rewrite clamp_id by lra.
    rewrite IH by lra.
    assert (Hcc : c - 1 / 30 - INR n / 30 = c - INR (S n) / 30)
      by (rewrite S_INR; lra).
    f_equal. apply rally_ext; try reflexivity; try lra.
    + destruct n; [f_equal; exact Hcc | rewrite Hcc; reflexivity].
    + rewrite S_INR. lra.
Qed.

(** A frame of play in which the ball flies clear of walls and paddles. *)
Lemma rally_frame_flight (c : R) (text : string) (tm nx : R)
  (x y vx vy xl : R) (mat : string) :
  let vy1 := vy + GRAVITY * (1 / 30) in
  let x1 := x + vx * (1 / 30) in
  let y1 := y + vy1 * (1 / 30) in
  nx - 1 / 30 > EVENT_WARNING_TIME ->
  FIELD_LEFT + HOR_PADDLE_WIDTH / 2 <= xl <= FIELD_CENTER_X - 40 ->
  vx * vx + vy1 * vy1 <= BALL_MAX_SPEED * BALL_MAX_SPEED ->
  446 < x1 < 1090 ->
  xl + 62 < x1 ->
  152 < y1 < 688 ->
  Host_call frame
    (rally playing c text tm nx (mkBall x y vx vy BALL_RADIUS) xl 0.0 mat)
  = Ok (rally playing c text (tm + 1 / 30) (nx - 1 / 30)
          (mkBall x1 y1 vx vy1 BALL_RADIUS) xl 0.0 mat).
Proof.
  intros vy1 x1 y1 Hn Hx Hsp Hx1 Hxl Hy1.
  assert (Hb1 : Ball.update (1 / 30) (mkBall x y vx vy BALL_RADIUS)
                = mkBall x1 y1 vx vy1 BALL_RADIUS).
  { rewrite Ball_update_unclamped; [reflexivity|].
    apply vec_length_le_sq; [consts; lra | exact Hsp]. }
  destruct (rally_frame_playing c text tm nx (mkBall x y vx vy BALL_RADIUS)
              xl mat false false false false
              (mkBall x1 y1 vx vy1 BALL_RADIUS)
              (mkBall x1 y1 vx vy1 BALL_RADIUS)
              (mkBall x1 y1 vx vy1 BALL_RADIUS)
              (mkBall x1 y1 vx vy1 BALL_RADIUS)) as [_ H];
    rewrite ?Hb1; try assumption;
    try (cbn; consts; lra);
    try far_vertical; try far_horizontal.
Qed.

(** Eight frames of flight after the launch. *)
Lemma rally_flight_8 (c : R) (text : string) (tm nx : R) (mat : string) :
  nx - 8 / 30 > EVENT_WARNING_TIME ->
  Host_calls (repeat frame 8)
    (rally playing c text tm nx ball_launch 530 0.0 mat)
  = Ok (rally playing c text (tm + 8 / 30) (nx - 8 / 30) ball_8 530 0.0 mat).
Proof.
  intros Hn. unfold ball_launch. cbn [repeat Host_calls].
  do 8 (rewrite rally_frame_flight by (cbv zeta; consts; lra); cbn [bind]).
  f_equal. apply rally_ext; try reflexivity; try lra.
  unfold ball_8. apply mkBall_ext; consts; lra.
Qed.

Lemma left_player_rubber (xl mh : R) :
  HorizontalPaddle.material (p_horz (left_player xl mh rubber))
  = Ok (mkMaterial rubber 1.20 1.10 0.05 false).
Proof. exact MATERIALS_rubber. Qed.

Lemma Ball_update_ball_8 : Ball.update (1 / 30) ball_8 = ball_entering.
Proof.
  rewrite Ball_update_unclamped
    by (apply vec_length_le_sq; cbn; consts; lra).
  cbn. apply mkBall_ext; consts; lra.
Qed.

(** The ninth frame: the ball enters the box of the left paddle from the
    side, below the paddle's centre, and is kicked upward. *)
Lemma rally_hit_below (c : R) (text : string) (tm nx : R) :
  nx - 1 / 30 > EVENT_WARNING_TIME ->
  Host_call frame (rally playing c text tm nx ball_8 530 0.0 rubber)
  = Ok (rally playing c text (tm + 1 / 30) (nx - 1 / 30) ball_9 530 0.0
          rubber).
Proof.
  intros Hn.
  pose proof (rally_frame_playing c text tm nx ball_8 530 rubber
                false false true false
                ball_entering ball_entering
                (mkBall 575 338.5 (-726.18) 1215.984 BALL_RADIUS)
                (mkBall 575 338.5 (-726.18) 1215.984 BALL_RADIUS)) as H.
  cbv zeta in H. rewrite Ball_update_ball_8 in H. unfold ball_entering in H.
  destruct H as [_ H]; try (cbn; consts; lra);
    try far_vertical; try far_horizontal.
  - rewrite (collide_horizontal_hit _ _ (mkMaterial rubber 1.20 1.10 0.05 false));
      [ | reflexivity | cbn; consts; lra | cbn; consts; lra
        | apply left_player_rubber ].
    cbn. rewrite fge_false by (consts; lra).
    rewrite Rabs_left1 by lra.
    do 2 f_equal. apply mkBall_ext; consts; lra.
  - rewrite H. f_equal. apply rally_ext; try reflexivity.
    cbn. unfold ball_9. apply mkBall_ext; lra.
Qed.

Lemma Forall_repeat {A : Type} (P : A -> Prop) (a : A) (n : nat) :
  P a -> Forall P (repeat a n).
Proof. intros Ha. induction n; cbn; constructor; assumption. Qed.

Lemma frame_valid : Host_valid frame.
Proof. cbn. unfold Random_valid. cbn. lra. Qed.

Lemma rally_calls_valid : Forall Host_valid rally_calls.
Proof.
  unfold rally_calls.
  repeat first
    [ apply Forall_app; split
    | apply Forall_repeat; exact frame_valid
    | apply Forall_cons
    | apply Forall_nil
    | exact frame_valid
    | exact I
    | reflexivity ].
Qed.

Lemma INR_5 : INR 5 = 5.
Proof. rewrite INR_IZR_INZ. reflexivity. Qed.

Lemma INR_84 : INR 84 = 84.
Proof. rewrite INR_IZR_INZ. reflexivity. Qed.

(** The calls of the rally lead from the shown view to [rally_9]. *)
Lemma rally_calls_run :
  Host_calls rally_calls (GameView.on_show_view rnd0 (GameView.init "pvp"))
  = Ok rally_9.
Proof.
  rewrite on_show_view_rally. unfold rally_calls.
  cbn [app Host_calls Host_call bind].
  rewrite rally_apply_material, rally_press_D.
  rewrite Host_calls_app.
  rewrite rally_frames_countdown by (rewrite ?INR_5; consts; lra).
  cbn [bind app Host_calls Host_call]. rewrite rally_release_D.
  rewrite Host_calls_app.
  rewrite rally_frames_countdown by (rewrite ?INR_5, ?INR_84; consts; lra).
  cbn [bind app Host_calls Host_call].
  rewrite rally_frame_launch by (rewrite ?INR_5, ?INR_84; consts; lra).
  cbn [bind]. fold ball_launch.
  rewrite Host_calls_app.
  replace (FIELD_LEFT + HOR_PADDLE_WIDTH / 2 + 50 + 30 * 1.0 * INR 5
           + 30 * 0.0 * INR 84) with 530
    by (rewrite INR_5, INR_84; consts; lra).
  rewrite rally_flight_8 by (consts; lra).
  cbn [bind Host_calls].
  rewrite rally_hit_below by (consts; lra).
  cbn [bind]. f_equal. unfold rally_9.
  apply rally_ext; try reflexivity;
    rewrite ?INR_5, ?INR_84; consts; try lra.
  unfold countdown_label. rewrite !fgt_false by lra. reflexivity.
Qed.

Lemma rally_9_reachable : reachable rally_9.
Proof.
  exists "pvp"%string, rnd0, rally_calls. repeat split.
  - right. reflexivity.
  - cbn. lra.
  - cbn. lra.
  - exact rally_calls_valid.
  - exact rally_calls_run.
Qed.

Lemma Ball_update_speed_le (dt : R) (b : Ball) :
  speed (Ball.update dt b) <= BALL_MAX_SPEED.
Proof.
  unfold speed.
  destruct (Rle_lt_dec
              (vec_length (b_vx b) (b_vy b + GRAVITY * dt)) BALL_MAX_SPEED)
    as [Hle | Hgt].
  - rewrite (Ball_update_unclamped dt b Hle). exact Hle.
  - rewrite (Ball_update_clamped dt b Hgt). cbv zeta. cbn [b_vx b_vy].
    set (sp := vec_length (b_vx b) (b_vy b + GRAVITY * dt)) in *.
    assert (Hsp : 0 < sp) by (unfold BALL_MAX_SPEED in Hgt; lra).
    replace (b_vx b / sp * BALL_MAX_SPEED)
      with (BALL_MAX_SPEED / sp * b_vx b) by (field; lra).
    replace ((b_vy b + GRAVITY * dt) / sp * BALL_MAX_SPEED)
      with (BALL_MAX_SPEED / sp * (b_vy b + GRAVITY * dt)) by (field; lra).
    rewrite vec_length_scale.
    + fold sp. apply Req_le. field. lra.
    + apply Rlt_le, Rdiv_lt_0_compat; [unfold BALL_MAX_SPEED; lra | exact Hsp].
Qed.

Lemma Host_call_keeps_ball (c : HostCall) (g g' : GameView) :
  not_a_frame c = true -> Host_call c g = Ok g' -> g_ball g' = g_ball g.
Proof.
  destruct c as [dt rnd | k | k | nm |]; cbn [not_a_frame Host_call];
    intros Hc H; try discriminate; injection H as <-.
  - unfold GameView.on_key_press, GameView._toggle_pause,
      GameView._toggle_material_target.
    destruct k; cbn; try reflexivity; destruct (g_state g); reflexivity.
  - reflexivity.
  - unfold GameView._apply_material.
    destruct (g_selected_player_for_material g); reflexivity.
  - unfold GameView._toggle_pause. destruct (g_state g); reflexivity.
Qed.

Lemma before_next_ball_update (dt : R) (rnd : Random) (g g' : GameView) :
  GameView.on_update_before_ball dt rnd (GameView.on_update_message dt g)
    = Ok g' ->
  g_ball g' = g_ball g.
Proof.
  intros H. apply on_update_before_ball_keeps in H.
  destruct H as (_ & _ & Hb & _). rewrite Hb.
  apply on_update_message_keeps.
Qed.

(** The tenth frame: the ball comes down on the paddle and leaves it
    faster than the cap. *)
Lemma rally_hit_above :
  GameView.on_update_before_ball (1 / 30) rnd0 rally_9
    = Ok (rally playing 0 "1" (9 / 30 + 1 / 30)
            (EVENT_INTERVAL - 9 / 30 - 1 / 30) ball_9 530 0.0 rubber)
  /\ (exists b,
        GameView.on_update_collisions
          (GameView.on_update_move (1 / 30)
             (rally playing 0 "1" (9 / 30 + 1 / 30)
                (EVENT_INTERVAL - 9 / 30 - 1 / 30) ball_9 530 0.0 rubber))
        = Ok (true, b))
  /\ Host_call frame rally_9 = Ok rally_10.
Proof.
  set (b1 := mkBall (575 + -733.4418 * (1 / 30))
               (338.5 + (1228.14384 + GRAVITY * (1 / 30)) * (1 / 30))
               (-733.4418) (1228.14384 + GRAVITY * (1 / 30)) BALL_RADIUS).
  set (b4 := mkBall (575 + -733.4418 * (1 / 30)) 381.5
               (-733.4418 * 1.2 * 0.95 * 0.98)
               ((1228.14384 - 1400 / 30 + 520) * 1.32 * 0.98)
               BALL_RADIUS).
  assert (Hb1 : Ball.update (1 / 30) ball_9 = b1).
  { rewrite Ball_update_unclamped
      by (apply vec_length_le_sq; cbn; consts; lra).
    reflexivity. }
  assert (Hrest : Player_at_rest (left_player 530 0.0 rubber))
    by (apply left_player_at_rest; consts; lra).
  assert (C1 : collide_ball_with_vertical_paddle b1
                 (p_vert (left_player 530 0.0 rubber)) = Ok (false, b1))
    by far_vertical.
  assert (C2 : collide_ball_with_vertical_paddle b1
                 (p_vert (Player.init Right false)) = Ok (false, b1))
    by far_vertical.
  assert (C3 : collide_ball_with_horizontal_paddle b1
                 (p_horz (left_player 530 0.0 rubber)) = Ok (true, b4)).
  { rewrite (collide_horizontal_hit _ _ (mkMaterial rubber 1.20 1.10 0.05 false));
      [ | reflexivity | cbn; consts; lra | cbn; consts; lra
        | apply left_player_rubber ].
    cbn. rewrite fge_true by (consts; lra).
    rewrite Rabs_pos_eq by (consts; lra).
    do 2 f_equal. apply mkBall_ext; consts; lra. }
  assert (C4 : collide_ball_with_horizontal_paddle b4
                 (p_horz (Player.init Right false)) = Ok (false, b4))
    by far_horizontal.
  destruct (on_update_playing_quiet (1 / 30) rnd0 rally_9
              false false true false b1 b1 b4 b4)
    as (Hpre & _ & _);
    try (cbn [g_ball g_player_left g_player_right rally_9 rally];
         rewrite ?Hb1; assumption);
    try reflexivity; try apply Player_init_at_rest;
    try (cbn; rewrite ?Hb1; cbn; consts; lra).
  destruct (rally_frame_playing 0 "1" (9 / 30) (EVENT_INTERVAL - 9 / 30)
              ball_9 530 rubber false false true false b1 b1 b4 b4)
    as (Hcol & Hcall);
    try (cbn [g_ball g_player_left g_player_right rally];
         rewrite ?Hb1; assumption);
    try (rewrite ?Hb1; cbn; consts; lra).
  repeat split.
  - exact Hpre.
  - exists b4. exact Hcol.
  - fold rally_9 in Hcall. rewrite Hcall. f_equal. unfold rally_10.
    apply rally_ext; try reflexivity; try lra.
    cbn. unfold ball_10. apply mkBall_ext; lra.
Qed.

Lemma reachable_step (c : HostCall) (g g' : GameView) :
  reachable g -> Host_valid c -> Host_call c g = Ok g' -> reachable g'.
Proof.
  intros (mode & rnd & cs & Hm & Hr & Hv & Hrun) Hc Hcall.
  exists mode, rnd, (cs ++ [c]).
  split; [exact Hm|]. split; [exact Hr|]. split.
  - apply Forall_app. split; [assumption | constructor; [assumption | constructor]].
  - rewrite Host_calls_app, Hrun. cbn [bind Host_calls]. rewrite Hcall.
    reflexivity.
Qed.

(** C9.  The state [rally_9] is reached from a freshly shown two-player
    game by the host's calls [rally_calls]; it is in play and its ball
    is within the cap.  In the next frame the ball hits the left
    horizontal paddle, and at the end of that frame, in [rally_10], the
    speed of the ball exceeds [BALL_MAX_SPEED].  Nothing restores the cap
    before the next [Ball.update]: the other calls of the host leave the
    ball alone, and so do the event scheduler and the players, which run
    first in the next frame; the next [Ball.update] then clamps. *)
Theorem speed_cap_broken_by_collision :
  reachable rally_9
  /\ g_state rally_9 = playing
  /\ speed (g_ball rally_9) <= BALL_MAX_SPEED
  /\ (exists (g_pre : GameView) (b : Ball),
        GameView.on_update_before_ball (1 / 30) rnd0 rally_9 = Ok g_pre
        /\ GameView.on_update_collisions
             (GameView.on_update_move (1 / 30) g_pre) = Ok (true, b))
  /\ GameView.on_update (1 / 30) rnd0 rally_9 = Ok rally_10
  /\ reachable rally_10
  /\ g_state rally_10 = playing
  /\ speed (g_ball rally_10) > BALL_MAX_SPEED
  /\ (forall (c : HostCall) (g : GameView),
        not_a_frame c = true ->
        Host_call c rally_10 = Ok g -> g_ball g = g_ball rally_10)
  /\ (forall (dt : R) (rnd : Random) (g : GameView),
        GameView.on_update_before_ball dt rnd
          (GameView.on_update_message dt rally_10) = Ok g ->
        g_ball g = g_ball rally_10)
  /\ (forall dt : R,
        speed (Ball.update dt (g_ball rally_10)) <= BALL_MAX_SPEED).
Proof.
  destruct rally_hit_above as (Hpre & [b Hcol] & Hcall).
  repeat apply conj.
  - exact rally_9_reachable.
  - reflexivity.
  - unfold speed. apply vec_length_le_sq; cbn; consts; lra.
  - eexists. exists b. split; [exact Hpre | exact Hcol].
  - exact Hcall.
  - apply (reachable_step frame rally_9);
      [exact rally_9_reachable | exact frame_valid | exact Hcall].
  - reflexivity.
  - unfold speed. apply vec_length_gt_sq; cbn; consts; lra.
  - intros c g. apply Host_call_keeps_ball.
  - intros dt rnd g. apply before_next_ball_update.
  - intros dt. apply Ball_update_speed_le.
Qed.

Lemma speed_cap_broken_by_collision_witness :
  g_ball (GameView.on_key_press K_W rally_10) = g_ball rally_10
  /\ speed (Ball.update (1 / 30) (g_ball rally_10)) <= BALL_MAX_SPEED.
Proof.
  destruct speed_cap_broken_by_collision
    as (_ & _ & _ & _ & _ & _ & _ & _ & Hother & _ & Hnext).
  split.
  - apply (Hother (Host_on_key_press K_W)); reflexivity.
  - apply Hnext.
Defined.

(** * Further properties of the code *)

(** ** The vector helpers *)

Lemma vec_length_zero_iff (x y : R) : vec_length x y = 0 <-> x = 0 /\ y = 0.
Proof.
  split.
  - intros H. pose proof (vec_length_sqr x y) as H2. rewrite H in H2.
    split; nra.
  - intros [-> ->]. unfold vec_length.
    replace (0 * 0 + 0 * 0) with 0 by ring. apply sqrt_0.
Qed.

Lemma vec_length_le_of_sq (a b c d : R) :
  a * a + b * b <= c * c + d * d -> vec_length a b <= vec_length c d.
Proof. intros H. unfold vec_length. apply sqrt_le_1_alt. exact H. Qed.

Lemma vec_length_eq_of_sq (a b c d : R) :
  a * a + b * b = c * c + d * d -> vec_length a b = vec_length c d.
Proof. intros H. unfold vec_length. rewrite H. reflexivity. Qed.

(** X1.  [clamp v a b] is never below [a]; when [a <= b] it lies in
    [[a, b]], is the point of that interval nearest to [v], leaves the
    points of the interval alone and is idempotent; with the bounds the
    wrong way round it is [a]. *)
Theorem clamp_nearest (v a b : R) :
  a <= clamp v a b
  /\ (a <= b ->
      clamp v a b <= b
      /\ (forall w, a <= w <= b -> Rabs (v - clamp v a b) <= Rabs (v - w))
      /\ (a <= v <= b -> clamp v a b = v)
      /\ clamp (clamp v a b) a b = clamp v a b)
  /\ (b < a -> clamp v a b = a).
Proof.
  split; [apply Rmax_l|]. split.
  - intros Hab. repeat split.
    + apply clamp_bounds. exact Hab.
    + intros w Hw. minmax_cases; abs_cases; lra.
    + apply clamp_id.
    + apply clamp_id. apply clamp_bounds. exact Hab.
  - intros Hba. unfold clamp. apply Rmax_left.
    apply Rle_trans with b; [apply Rmin_l | lra].
Qed.

Lemma clamp_nearest_witness :
  clamp 7 0 5 = 5 /\ Rabs (7 - clamp 7 0 5) <= Rabs (7 - 3) /\ clamp 7 5 0 = 5.
Proof.
  destruct (clamp_nearest 7 0 5) as (_ & Hin & _).
  destruct (Hin ltac:(lra)) as (Hle & Hnear & _ & _).
  destruct (clamp_nearest 7 5 0) as (_ & _ & Hinv).
  repeat split.
  - pose proof (Hnear 5 ltac:(lra)) as H5.
    unfold Rabs in H5.
    destruct (Rcase_abs (7 - clamp 7 0 5)), (Rcase_abs (7 - 5)); lra.
  - apply Hnear. lra.
  - apply Hinv. lra.
Defined.

(** X2.  [normalize] never divides by zero: the zero vector yields
    [(0, 0)], and every other vector yields the vector of length 1 with
    the same direction. *)
Theorem normalize_unit (x y : R) :
  let '(nx, ny) := normalize x y in
  (x = 0 /\ y = 0 -> nx = 0 /\ ny = 0)
  /\ (~ (x = 0 /\ y = 0) ->
      vec_length nx ny = 1
      /\ x = vec_length x y * nx
      /\ y = vec_length x y * ny
      /\ 0 < vec_length x y).
Proof.
  unfold normalize. cbv zeta.
  destruct (feq (vec_length x y) 0) eqn:E; unfold feq in E;
    destruct (Req_dec_T (vec_length x y) 0) as [H0 | Hn]; try discriminate.
  - split; [intros _; split; reflexivity|].
    intros H. exfalso. apply H. apply vec_length_zero_iff. exact H0.
  - pose proof (vec_length_nonneg x y) as Hp.
    assert (Hpos : 0 < vec_length x y) by lra.
    split.
    + intros [-> ->]. exfalso. apply Hn.
      apply vec_length_zero_iff. split; reflexivity.
    + intros _. repeat split; try (field; lra); try assumption.
      replace (x / vec_length x y) with (/ vec_length x y * x) by (field; lra).
      replace (y / vec_length x y) with (/ vec_length x y * y) by (field; lra).
      rewrite vec_length_scale by (apply Rlt_le, Rinv_0_lt_compat; lra).
      field. lra.
Qed.

Lemma normalize_unit_witness :
  normalize 0 0 = (0, 0)
  /\ vec_length (fst (normalize 3 4)) (snd (normalize 3 4)) = 1.
Proof.
  split.
  - pose proof (normalize_unit 0 0) as H.
    destruct (normalize 0 0) as [nx ny].
    destruct H as [H _]. destruct (H (conj eq_refl eq_refl)) as [-> ->].
    reflexivity.
  - pose proof (normalize_unit 3 4) as H.
    destruct (normalize 3 4) as [nx ny].
    destruct H as [_ H]. apply H. intros [H3 _]. lra.
Defined.

(** X3.  For a unit normal [(nx, ny)], [reflect] keeps the length of the
    velocity, reverses its component along the normal, keeps its
    component along the tangent [(-ny, nx)], and is its own inverse. *)
Theorem reflect_unit_normal (vx vy nx ny : R) :
  nx * nx + ny * ny = 1 ->
  let '(rx, ry) := reflect vx vy nx ny in
  vec_length rx ry = vec_length vx vy
  /\ rx * nx + ry * ny = - (vx * nx + vy * ny)
  /\ rx * - ny + ry * nx = vx * - ny + vy * nx
  /\ reflect rx ry nx ny = (vx, vy).
Proof.
  intros Hn. unfold reflect. cbv zeta.
  set (d := vx * nx + vy * ny).
  assert (Hd : (vx - 2 * d * nx) * nx + (vy - 2 * d * ny) * ny = - d).
  { replace ((vx - 2 * d * nx) * nx + (vy - 2 * d * ny) * ny)
      with (d - 2 * d * (nx * nx + ny * ny)) by (unfold d; ring).
    rewrite Hn. ring. }
  repeat split.
  - apply vec_length_eq_of_sq.
    replace ((vx - 2 * d * nx) * (vx - 2 * d * nx)
             + (vy - 2 * d * ny) * (vy - 2 * d * ny))
      with (vx * vx + vy * vy + 4 * d * d * (nx * nx + ny * ny - 1))
      by (unfold d; ring).
    rewrite Hn. ring.
  - exact Hd.
  - replace ((vx - 2 * d * nx) * - ny + (vy - 2 * d * ny) * nx)
      with (vx * - ny + vy * nx) by ring.
    reflexivity.
  - rewrite Hd. f_equal; ring.
Qed.

Lemma reflect_unit_normal_witness :
  reflect 3 (-4) 0 1 = (3, 4) /\ reflect 3 4 0 1 = (3, -4).
Proof.
  pose proof (reflect_unit_normal 3 (-4) 0 1 ltac:(lra)) as H.
  unfold reflect in *. cbv zeta in *.
  destruct H as (_ & _ & _ & H). split.
  - f_equal; lra.
  - rewrite <- H. f_equal; f_equal; lra.
Defined.

(** ** The closest point of a segment *)

(** X4.  [closest_point_on_segment] returns a parameter [t] in [[0, 1]]
    and the point of the segment at [t]; no point of the segment is
    nearer to [(px, py)].  A segment of length zero yields its first end
    with [t = 0], without dividing. *)
Theorem closest_point_on_segment_closest (px py x1 y1 x2 y2 s : R) :
  0 <= s <= 1 ->
  let '(cx, cy, t) := closest_point_on_segment px py x1 y1 x2 y2 in
  0 <= t <= 1
  /\ cx = x1 + t * (x2 - x1)
  /\ cy = y1 + t * (y2 - y1)
  /\ vec_length (px - cx) (py - cy)
     <= vec_length (px - (x1 + s * (x2 - x1))) (py - (y1 + s * (y2 - y1)))
  /\ (x1 = x2 /\ y1 = y2 -> cx = x1 /\ cy = y1 /\ t = 0).
Proof.
  intros Hs. unfold closest_point_on_segment. cbv zeta.
  set (vx := x2 - x1). set (vy := y2 - y1).
  set (D := vx * vx + vy * vy).
  set (N := (px - x1) * vx + (py - y1) * vy).
  destruct (feq D 0) eqn:E; unfold feq in E;
    destruct (Req_dec_T D 0) as [H0 | Hn]; try discriminate.
  - assert (Hv : vx = 0 /\ vy = 0) by (unfold D in H0; split; nra).
    destruct Hv as [Hvx Hvy]. rewrite Hvx, Hvy.
    repeat split; try lra.
    apply vec_length_le_of_sq.
    replace (x1 + s * 0) with x1 by ring.
    replace (y1 + s * 0) with y1 by ring. lra.
  - assert (HD : 0 < D) by (unfold D in *; nra).
    set (t := clamp (N / D) 0.0 1.0).
    assert (Ht : 0 <= t <= 1).
    { pose proof (clamp_bounds (N / D) 0.0 1.0) as H. fold t in H. lra. }
    assert (Hcase : (t = N / D) \/ (t = 0 /\ N <= 0) \/ (t = 1 /\ D <= N)).
    { assert (Hq : N = N / D * D) by (field; lra).
      unfold t, clamp.
      destruct (Rle_lt_dec (N / D) 0) as [Hlo | Hlo].
      - right. left. rewrite Rmin_right by lra. rewrite Rmax_left by lra.
        split; [lra | nra].
      - destruct (Rle_lt_dec 1 (N / D)) as [Hhi | Hhi].
        + right. right. rewrite Rmin_left by lra. rewrite Rmax_right by lra.
          split; [lra | nra].
        + left. rewrite Rmin_right by lra. rewrite Rmax_right by lra.
          reflexivity. }
    split; [exact Ht|]. split; [reflexivity|]. split; [reflexivity|]. split.
    + apply vec_length_le_of_sq.
      assert (Hdiff :
        (px - (x1 + s * vx)) * (px - (x1 + s * vx))
        + (py - (y1 + s * vy)) * (py - (y1 + s * vy))
        - ((px - (x1 + t * vx)) * (px - (x1 + t * vx))
           + (py - (y1 + t * vy)) * (py - (y1 + t * vy)))
        = (s - t) * (D * (s + t) - 2 * N)) by (unfold D, N; ring).
      clearbody t N D.
      destruct Hcase as [Hc | [[Hc HN] | [Hc HN]]].
      * assert (HNt : N = t * D) by (rewrite Hc; field; lra).
        rewrite HNt in Hdiff.
        assert (0 <= (s - t) * (D * (s + t) - 2 * (t * D))).
        { replace ((s - t) * (D * (s + t) - 2 * (t * D)))
            with (D * ((s - t) * (s - t))) by ring.
          apply Rmult_le_pos; [lra | exact (Rle_0_sqr (s - t))]. }
        lra.
      * rewrite Hc in Hdiff |- *.
        assert (0 <= (s - 0) * (D * (s + 0) - 2 * N)).
        { assert (0 <= D * s) by (apply Rmult_le_pos; lra).
          apply Rmult_le_pos; lra. }
        lra.
      * rewrite Hc in Hdiff |- *.
        assert (0 <= (s - 1) * (D * (s + 1) - 2 * N)).
        { replace ((s - 1) * (D * (s + 1) - 2 * N))
            with ((1 - s) * (2 * N - D * (s + 1))) by ring.
          assert (0 <= D * (1 - s)) by (apply Rmult_le_pos; lra).
          apply Rmult_le_pos; lra. }
        lra.
    + intros [Hx Hy]. exfalso. apply Hn. unfold D, vx, vy.
      rewrite Hx, Hy. ring.
Qed.

Lemma closest_point_on_segment_closest_witness :
  let '(cx, cy, t) := closest_point_on_segment 5 3 0 0 10 0 in
  vec_length (5 - cx) (3 - cy)
  <= vec_length (5 - (0 + 1 * (10 - 0))) (3 - (0 + 1 * (0 - 0))).
Proof.
  pose proof (closest_point_on_segment_closest 5 3 0 0 10 0 1 ltac:(lra))
    as H.
  destruct (closest_point_on_segment 5 3 0 0 10 0) as [[cx cy] t].
  apply H.
Defined.

(** ** The vertical paddle *)

Lemma radians_supplement (d : R) : radians (180 - d) = PI - radians d.
Proof. unfold radians. field. Qed.

Lemma cos_sin_sqr (a : R) : cos a * cos a + sin a * sin a = 1.
Proof. pose proof (sin2_cos2 a) as H. unfold Rsqr in H. lra. Qed.

(** X5.  The segment of a vertical paddle is centred on the paddle and
    has the paddle's length, whatever the side and the tilt.  For a tilt
    strictly between 0 and 90 degrees the second end is the upper one,
    and it leans to the right on the left side and to the left on the
    right side. *)
Theorem get_segment_geometry (p : VerticalPaddle) :
  0 < vp_length p ->
  let '(x1, y1, x2, y2) := VerticalPaddle.get_segment p in
  (x1 + x2) / 2 = vp_x p
  /\ (y1 + y2) / 2 = vp_y p
  /\ vec_length (x2 - x1) (y2 - y1) = vp_length p
  /\ (0 < vp_tilt_deg p < 90 ->
      y1 < vp_y p < y2
      /\ match vp_side p with
         | Left => x1 < vp_x p < x2
         | Right => x2 < vp_x p < x1
         end).
Proof.
  intros HL. unfold VerticalPaddle.get_segment. cbv zeta.
  set (theta := match vp_side p with
                | Left => radians (vp_tilt_deg p)
                | Right => radians (180 - vp_tilt_deg p)
                end).
  split; [field|]. split; [field|]. split.
  - replace (vp_x p + cos theta * (vp_length p / 2)
             - (vp_x p - cos theta * (vp_length p / 2)))
      with (vp_length p * cos theta) by field.
    replace (vp_y p + sin theta * (vp_length p / 2)
             - (vp_y p - sin theta * (vp_length p / 2)))
      with (vp_length p * sin theta) by field.
    rewrite vec_length_scale by lra.
    unfold vec_length. rewrite cos_sin_sqr, sqrt_1. ring.
  - intros [Ht0 Ht90].
    pose proof PI_RGT_0 as Hpi.
    assert (Ha : 0 < radians (vp_tilt_deg p) < PI / 2).
    { unfold radians. split.
      - apply Rmult_lt_0_compat; lra.
      - replace (PI / 2) with (90 * (PI / 180)) by field.
        apply Rmult_lt_compat_r; lra. }
    assert (Hc : 0 < cos (radians (vp_tilt_deg p)))
      by (apply cos_gt_0; lra).
    assert (Hs : 0 < sin (radians (vp_tilt_deg p)))
      by (apply sin_gt_0; lra).
    unfold theta. destruct (vp_side p).
    + split; split; nra.
    + rewrite radians_supplement, Rtrigo_facts.cos_pi_minus, sin_PI_x.
      split; split; nra.
Qed.

Lemma get_segment_geometry_witness :
  let '(x1, y1, x2, y2) :=
    VerticalPaddle.get_segment (VerticalPaddle.init Right) in
  vec_length (x2 - x1) (y2 - y1) = VERT_PADDLE_LENGTH
  /\ x2 < vp_x (VerticalPaddle.init Right) < x1.
Proof.
  pose proof (get_segment_geometry (VerticalPaddle.init Right)) as H.
  destruct (VerticalPaddle.get_segment (VerticalPaddle.init Right))
    as [[[x1 y1] x2] y2].
  destruct H as (_ & _ & Hlen & Hlean); [cbn; consts; lra|].
  split; [exact Hlen|].
  apply Hlean. cbn. consts. lra.
Defined.

(** X6.  The two sides mirror each other: for paddles of the same length
    and tilt, the ends of the right paddle's segment are those of the
    left paddle's reflected in the vertical line through the paddle's
    centre. *)
Theorem get_segment_mirror (pl pr : VerticalPaddle) :
  vp_side pl = Left ->
  vp_side pr = Right ->
  vp_length pr = vp_length pl ->
  vp_tilt_deg pr = vp_tilt_deg pl ->
  let '(x1, y1, x2, y2) := VerticalPaddle.get_segment pl in
  let '(x1', y1', x2', y2') := VerticalPaddle.get_segment pr in
  x1' - vp_x pr = - (x1 - vp_x pl)
  /\ x2' - vp_x pr = - (x2 - vp_x pl)
  /\ y1' - vp_y pr = y1 - vp_y pl
  /\ y2' - vp_y pr = y2 - vp_y pl.
Proof.
  intros Hl Hr HL Ht. unfold VerticalPaddle.get_segment. cbv zeta.
  rewrite Hl, Hr, HL, Ht.
  rewrite radians_supplement, Rtrigo_facts.cos_pi_minus, sin_PI_x.
  repeat split; ring.
Qed.

Lemma get_segment_mirror_witness :
  let '(x1, y1, x2, y2) :=
    VerticalPaddle.get_segment (VerticalPaddle.init Left) in
  let '(x1', y1', x2', y2') :=
    VerticalPaddle.get_segment (VerticalPaddle.init Right) in
  x1 - FIELD_LEFT = FIELD_RIGHT - x1' /\ y1 = y1'.
Proof.
  pose proof (get_segment_mirror (VerticalPaddle.init Left)
                (VerticalPaddle.init Right) eq_refl eq_refl eq_refl eq_refl)
    as H.
  destruct (VerticalPaddle.get_segment (VerticalPaddle.init Left))
    as [[[x1 y1] x2] y2].
  destruct (VerticalPaddle.get_segment (VerticalPaddle.init Right))
    as [[[x1' y1'] x2'] y2'].
  destruct H as (Hx1 & _ & Hy1 & _). cbn in Hx1, Hy1. split; lra.
Defined.

Lemma VerticalPaddle_call_keeps (c : VerticalCall) (p : VerticalPaddle) :
  FIELD_BOTTOM + vp_length p / 2 <= FIELD_TOP - vp_length p / 2 ->
  FIELD_BOTTOM + vp_length p / 2 <= vp_y p <= FIELD_TOP - vp_length p / 2 ->
  let p' := VerticalPaddle_call c p in
  vp_length p' = vp_length p
  /\ vp_x p' = vp_x p
  /\ vp_side p' = vp_side p
  /\ vp_tilt_deg p' = vp_tilt_deg p
  /\ FIELD_BOTTOM + vp_length p / 2 <= vp_y p' <= FIELD_TOP - vp_length p / 2.
Proof.
  intros Hr Hy. destruct c as [dt m | nm | e | b]; cbn;
    try (repeat split; try reflexivity; apply Hy).
  unfold VerticalPaddle.update.
  destruct (negb (vp_enabled p) || vp_burned_out p).
  - repeat split; try reflexivity; apply Hy.
  - cbn. repeat split; try reflexivity; apply clamp_bounds; assumption.
Qed.

(** X7.  Along every sequence of calls on a constructed vertical paddle
    the centre keeps its [x] and stays between [FIELD_BOTTOM + 85] and
    [FIELD_TOP - 85], and both ends of the segment stay inside the
    field. *)
Theorem vertical_paddle_stays_in_field (side : Side) (cs : list VerticalCall) :
  let p := VerticalPaddle_calls cs (VerticalPaddle.init side) in
  vp_x p = vp_x (VerticalPaddle.init side)
  /\ FIELD_BOTTOM + 85 <= vp_y p <= FIELD_TOP - 85
  /\ let '(x1, y1, x2, y2) := VerticalPaddle.get_segment p in
     FIELD_BOTTOM <= y1 <= FIELD_TOP /\ FIELD_BOTTOM <= y2 <= FIELD_TOP.
Proof.
  cbv zeta.
  assert (Hinv : forall p,
    vp_length p = VERT_PADDLE_LENGTH ->
    FIELD_BOTTOM + 85 <= vp_y p <= FIELD_TOP - 85 ->
    let p' := VerticalPaddle_calls cs p in
    vp_x p' = vp_x p /\ vp_length p' = VERT_PADDLE_LENGTH
    /\ FIELD_BOTTOM + 85 <= vp_y p' <= FIELD_TOP - 85).
  { unfold VerticalPaddle_calls.
    induction cs as [| c cs IH]; intros p HL Hy.
    - cbn. repeat split; try assumption; apply Hy.
    - cbn [fold_left].
      destruct (VerticalPaddle_call_keeps c p) as (A & B & _ & _ & D);
        try (rewrite HL; consts; lra).
      destruct (IH (VerticalPaddle_call c p)) as (A' & B' & D').
      + rewrite A. exact HL.
      + rewrite HL in D. consts. lra.
      + cbv zeta. rewrite A', B. repeat split; try assumption; apply D'. }
  destruct (Hinv (VerticalPaddle.init side)) as (Hx & HL & Hy);
    [reflexivity | cbn; consts; lra |].
  split; [exact Hx|]. split; [exact Hy|].
  pose proof (get_segment_box
                (VerticalPaddle_calls cs (VerticalPaddle.init side)))
    as Hbox.
  destruct (VerticalPaddle.get_segment
              (VerticalPaddle_calls cs (VerticalPaddle.init side)))
    as [[[x1 y1] x2] y2].
  destruct Hbox as (_ & _ & By1 & By2); [rewrite HL; consts; lra|].
  rewrite HL in By1, By2.
  pose proof (Rmin_l y1 y2). pose proof (Rmin_r y1 y2).
  pose proof (Rmax_l y1 y2). pose proof (Rmax_r y1 y2).
  consts. lra.
Qed.

(** ** The launch *)

Lemma cos_lower (a : R) : - PI / 2 <= a <= PI / 2 -> 1 - a * a / 2 <= cos a.
Proof.
  intros [H1 H2]. pose proof (cos_bound a 0 H1 H2) as [Hb _].
  unfold cos_approx, cos_term in Hb. cbn in Hb. lra.
Qed.

Lemma sin_abs_le (a : R) : - PI < a < PI -> Rabs (sin a) <= Rabs a.
Proof.
  intros [Hlo Hhi]. destruct (Rtotal_order a 0) as [Hn | [-> | Hp]].
  - assert (Hs : 0 < sin (- a)) by (apply sin_gt_0; lra).
    pose proof (sin_lt_x (- a) ltac:(lra)) as Hx.
    rewrite sin_neg in Hs, Hx.
    rewrite (Rabs_left1 (sin a)) by lra. rewrite (Rabs_left1 a) by lra. lra.
  - rewrite sin_0, Rabs_R0. lra.
  - assert (Hs : 0 < sin a) by (apply sin_gt_0; lra).
    pose proof (sin_lt_x a Hp) as Hx.
    rewrite (Rabs_pos_eq (sin a)) by lra. rewrite (Rabs_pos_eq a) by lra. lra.
Qed.

Lemma random_choice_of_sign (i : nat) :
  random_choice_of i (-1) [1] = -1 \/ random_choice_of i (-1) [1] = 1.
Proof.
  unfold random_choice_of. cbn [List.length].
  pose proof (Nat.mod_upper_bound i 2 ltac:(lia)) as Hm.
  destruct (i mod 2)%nat as [| [| k]]; cbn; [left | right | lia]; reflexivity.
Qed.

(** X8.  For every draw of the direction and every launch angle
    between -0.35 and 0.35, [Ball.reset] puts the ball at the field
    centre, keeps its radius, and launches it at no more than
    [BALL_BASE_SPEED], hence under the cap, mostly sideways: the
    horizontal speed is between 610 and 650 and the vertical speed at
    most 68.25. *)
Theorem Ball_reset_launch (rnd : Random) (b : Ball) :
  Random_valid rnd ->
  let b' := Ball.reset rnd b in
  b_x b' = FIELD_CENTER_X
  /\ b_y b' = FIELD_CENTER_Y
  /\ b_radius b' = b_radius b
  /\ speed b' <= BALL_BASE_SPEED
  /\ speed b' < BALL_MAX_SPEED
  /\ 610 <= Rabs (b_vx b') <= 650
  /\ Rabs (b_vy b') <= 68.25.
Proof.
  unfold Random_valid. intros [Hlo Hhi]. cbv zeta.
  unfold Ball.reset, speed. cbv zeta. cbn [b_x b_y b_vx b_vy b_radius].
  set (a := rnd_angle rnd) in *.
  pose proof PI2_3_2 as Hpi.
  assert (Hc : 1 - a * a / 2 <= cos a) by (apply cos_lower; lra).
  pose proof (COS_bound a) as [_ Hc1].
  assert (Hc0 : 0.93875 <= cos a) by nra.
  assert (Hs : Rabs (sin a) <= 0.35).
  { apply Rle_trans with (Rabs a); [apply sin_abs_le; lra|].
    unfold Rabs. destruct (Rcase_abs a); lra. }
  pose proof (cos_sin_sqr a) as Hcs.
  assert (Hsp : vec_length
                  (random_choice_of (rnd_dir_choice rnd) (-1) [1]
                   * BALL_BASE_SPEED * cos a)
                  (BALL_BASE_SPEED * sin a * 0.3) <= BALL_BASE_SPEED).
  { apply vec_length_le_sq; [consts; lra|].
    destruct (random_choice_of_sign (rnd_dir_choice rnd)) as [-> | ->];
      unfold BALL_BASE_SPEED; nra. }
  split; [reflexivity|]. split; [reflexivity|]. split; [reflexivity|].
  split; [exact Hsp|]. split; [unfold BALL_BASE_SPEED, BALL_MAX_SPEED in *; lra|].
  split.
  - destruct (random_choice_of_sign (rnd_dir_choice rnd)) as [-> | ->];
      unfold BALL_BASE_SPEED.
    + rewrite Rabs_left1 by nra. split; nra.
    + rewrite Rabs_pos_eq by nra. split; nra.
  - unfold BALL_BASE_SPEED.
    replace (650.0 * sin a * 0.3) with (195 * sin a) by lra.
    rewrite Rabs_mult, (Rabs_pos_eq 195) by lra. lra.
Qed.

Lemma Ball_reset_launch_witness :
  speed (Ball.reset rnd0 Ball.init) <= BALL_BASE_SPEED
  /\ 610 <= Rabs (b_vx (Ball.reset rnd0 Ball.init)) <= 650.
Proof.
  destruct (Ball_reset_launch rnd0 Ball.init) as (_ & _ & _ & Hs & _ & Hv & _).
  - unfold Random_valid. cbn. lra.
  - split; assumption.
Defined.

(** ** The end of a stun *)




(** ** Fire *)

(** X10.  [FireEvent.apply] asks for the material by its name, not for
    the flag of the table, and the two agree: a player whose material
    is registered is touched exactly when [MATERIALS] marks the
    material as burnable.  A player who is touched has both paddles
    burned out and is stunned for at least [FIRE_STUN_DURATION], a stun
    that was longer is kept; any other player is left as it was. *)
Theorem fire_burns_the_burnable (p : Player) (mat : Material) :
  VerticalPaddle.material (p_vert p) = Ok mat ->
  let p' := FireEvent.apply_player p in
  (m_burnable mat = true ->
     vp_burned_out (p_vert p') = true
     /\ hp_burned_out (p_horz p') = true
     /\ p_stun_timer p' = Rmax (p_stun_timer p) FIRE_STUN_DURATION
     /\ FIRE_STUN_DURATION <= p_stun_timer p'
     /\ p_stun_timer p <= p_stun_timer p'
     /\ p_score p' = p_score p
     /\ vp_y (p_vert p') = vp_y (p_vert p)
     /\ hp_x (p_horz p') = hp_x (p_horz p))
  /\ (m_burnable mat = false -> p' = p).
Proof.
  unfold VerticalPaddle.material, MATERIALS, FireEvent.apply_player,
    Player.get_material. cbn [dict_get]. cbv zeta.
  rewrite (String.eqb_sym (vp_material_name (p_vert p)) wood).
  destruct (String.eqb wood (vp_material_name (p_vert p))).
  - intros H. injection H as <-. cbn. split; [intros _ | discriminate].
    repeat split; try reflexivity; [apply Rmax_r | apply Rmax_l].
  - destruct (String.eqb steel (vp_material_name (p_vert p)));
      [intros H; injection H as <-; cbn; split;
       [discriminate | reflexivity]|].
    destruct (String.eqb rubber (vp_material_name (p_vert p)));
      [intros H; injection H as <-; cbn; split;
       [discriminate | reflexivity]|].
    discriminate.
Qed.

Lemma fire_burns_the_burnable_witness :
  vp_burned_out (p_vert (FireEvent.apply_player (Player.init Left false)))
  = true
  /\ FireEvent.apply_player
       (Player.set_material steel (Player.init Left false))
     = Player.set_material steel (Player.init Left false).
Proof.
  split.
  - exact (proj1 (proj1 (fire_burns_the_burnable (Player.init Left false)
                           _ MATERIALS_wood) eq_refl)).
  - exact (proj2 (fire_burns_the_burnable
                    (Player.set_material steel (Player.init Left false))
                    _ MATERIALS_steel) eq_refl).
Defined.

(** X11.  Burned paddles are out of play: whatever the ball, the step
    and the intent, a burned paddle is not hit and does not move, also
    when its material name is not registered.  [set_material] with any
    name and [_reset_round] put both paddles back. *)
Theorem burned_paddles_out_of_play
  (p : Player) (b : Ball) (dt mv mh : R) (name : string)
  (first : bool) (rnd : Random) (g : GameView) :
  vp_burned_out (p_vert p) = true ->
  hp_burned_out (p_horz p) = true ->
  collide_ball_with_vertical_paddle b (p_vert p) = Ok (false, b)
  /\ collide_ball_with_horizontal_paddle b (p_horz p) = Ok (false, b)
  /\ VerticalPaddle.update dt mv (p_vert p) = p_vert p
  /\ HorizontalPaddle.update dt mh (p_horz p) = p_horz p
  /\ vp_burned_out (p_vert (Player.set_material name p)) = false
  /\ hp_burned_out (p_horz (Player.set_material name p)) = false
  /\ (let g' := GameView._reset_round first rnd g in
      vp_burned_out (p_vert (g_player_left g')) = false
      /\ hp_burned_out (p_horz (g_player_left g')) = false
      /\ vp_burned_out (p_vert (g_player_right g')) = false
      /\ hp_burned_out (p_horz (g_player_right g')) = false
      /\ p_stun_timer (g_player_left g') = 0
      /\ p_stun_timer (g_player_right g') = 0).
Proof.
  intros Hv Hh.
  unfold collide_ball_with_vertical_paddle,
    collide_ball_with_horizontal_paddle, VerticalPaddle.update,
    HorizontalPaddle.update.
  rewrite Hv, Hh, !orb_true_r.
  repeat split; try reflexivity;
    unfold GameView._reset_round; cbv zeta; destruct first; cbn;
    try reflexivity; lra.
Qed.

Lemma burned_paddles_out_of_play_witness :
  let p := FireEvent.apply_player (Player.init Left false) in
  collide_ball_with_vertical_paddle
    (mkBall (vp_x (p_vert p)) (vp_y (p_vert p)) 0 0 BALL_RADIUS) (p_vert p)
  = Ok (false, mkBall (vp_x (p_vert p)) (vp_y (p_vert p)) 0 0 BALL_RADIUS).
Proof.
  cbv zeta.
  exact (proj1 (burned_paddles_out_of_play
                  (FireEvent.apply_player (Player.init Left false))
                  (mkBall _ _ 0 0 BALL_RADIUS) 0 0 0 wood false rnd0
                  (GameView.init "pvp") eq_refl eq_refl)).
Defined.

(** ** The walls *)

(** X12.  After the wall test of [on_update] a ball that fits into the
    field lies strictly between floor and ceiling.  The test changes
    neither the horizontal position nor the horizontal velocity, never
    makes the vertical velocity larger in size, and a ball that was
    moved leaves the wall it touched: upward from the floor, downward
    from the ceiling, with 0.85 of its vertical speed. *)
Theorem walls_keep_ball_inside (b : Ball) :
  2 * b_radius b + 0.5 < FIELD_TOP - FIELD_BOTTOM ->
  let b' := GameView.on_update_walls b in
  FIELD_BOTTOM < b_y b' - b_radius b'
  /\ b_y b' + b_radius b' < FIELD_TOP
  /\ b_x b' = b_x b /\ b_vx b' = b_vx b /\ b_radius b' = b_radius b
  /\ Rabs (b_vy b') <= Rabs (b_vy b)
  /\ speed b' <= speed b
  /\ (b_y b - b_radius b <= FIELD_BOTTOM ->
        b_y b' - b_radius b' = FIELD_BOTTOM + 0.5
        /\ b_vy b' = 0.85 * Rabs (b_vy b))
  /\ (FIELD_BOTTOM < b_y b - b_radius b -> FIELD_TOP <= b_y b + b_radius b ->
        b_y b' + b_radius b' = FIELD_TOP - 0.5
        /\ b_vy b' = - (0.85 * Rabs (b_vy b)))
  /\ (FIELD_BOTTOM < b_y b - b_radius b -> b_y b + b_radius b < FIELD_TOP ->
        b' = b).
Proof.
  intros Hr. cbv zeta. unfold GameView.on_update_walls, speed.
  pose proof (Rabs_pos (b_vy b)) as Ha.
  assert (Hsq : Rabs (b_vy b) * Rabs (b_vy b) = b_vy b * b_vy b).
  { unfold Rabs. destruct (Rcase_abs (b_vy b)); ring. }
  destruct (Rle_lt_dec (b_y b - b_radius b) FIELD_BOTTOM) as [Hlo | Hlo].
  - rewrite fle_true by assumption. cbn [b_x b_y b_vx b_vy b_radius].
    rewrite (Rabs_pos_eq (Rabs (b_vy b) * 0.85)) by lra.
    repeat split; try reflexivity; try lra.
    apply vec_length_le_of_sq. nra.
  - rewrite fle_false by assumption.
    destruct (Rle_lt_dec FIELD_TOP (b_y b + b_radius b)) as [Hhi | Hhi].
    + rewrite fge_true by lra. cbn [b_x b_y b_vx b_vy b_radius].
      replace (- Rabs (b_vy b) * 0.85) with (- (Rabs (b_vy b) * 0.85)) by lra.
      rewrite Rabs_Ropp, (Rabs_pos_eq (Rabs (b_vy b) * 0.85)) by lra.
      repeat split; try reflexivity; try lra.
      apply vec_length_le_of_sq. nra.
    + rewrite fge_false by lra.
      repeat split; try reflexivity; lra.
Qed.

Lemma walls_keep_ball_inside_witness :
  let b' := GameView.on_update_walls (mkBall 500 145 100 (-200) BALL_RADIUS) in
  FIELD_BOTTOM < b_y b' - b_radius b' /\ b_vy b' = 0.85 * Rabs (-200).
Proof.
  cbv zeta.
  destruct (walls_keep_ball_inside (mkBall 500 145 100 (-200) BALL_RADIUS))
    as (H1 & _ & _ & _ & _ & _ & _ & H2 & _).
  - cbn. rsolve.
  - split; [exact H1|]. apply H2. cbn. rsolve.
Defined.

(** ** Ball against a vertical paddle *)

(** [normalize] meets the zero vector or returns a unit vector. *)
Lemma normalize_cases (x y : R) :
  (vec_length x y = 0 /\ normalize x y = (0, 0))
  \/ (vec_length x y <> 0
      /\ normalize x y = (x / vec_length x y, y / vec_length x y)
      /\ (x / vec_length x y) * (x / vec_length x y)
         + (y / vec_length x y) * (y / vec_length x y) = 1).
Proof.
  unfold normalize. cbv zeta.
  destruct (Req_dec (vec_length x y) 0) as [H | H].
  - left. rewrite feq_true by assumption. split; [assumption | reflexivity].
  - right. rewrite feq_false by assumption.
    split; [assumption|]. split; [reflexivity|].
    pose proof (vec_length_sqr x y) as Hs. field_simplify_eq; [|assumption].
    lra.
Qed.

Lemma collide_vertical_hit_inv (b b' : Ball) (p : VerticalPaddle) :
  collide_ball_with_vertical_paddle b p = Ok (true, b') ->
  exists (x1 y1 x2 y2 cx cy t nx ny : R) (mat : Material),
    vp_burned_out p = false
    /\ VerticalPaddle.get_segment p = (x1, y1, x2, y2)
    /\ closest_point_on_segment (b_x b) (b_y b) x1 y1 x2 y2 = (cx, cy, t)
    /\ VerticalPaddle.material p = Ok mat
    /\ vec_length (b_x b - cx) (b_y b - cy)
       <= b_radius b + vp_thickness p / 2
    /\ nx * nx + ny * ny = 1
    /\ (vec_length (b_x b - cx) (b_y b - cy) = 0 -> nx = 1 /\ ny = 0)
    /\ (vec_length (b_x b - cx) (b_y b - cy) <> 0 ->
          nx = (b_x b - cx) / vec_length (b_x b - cx) (b_y b - cy)
          /\ ny = (b_y b - cy) / vec_length (b_x b - cx) (b_y b - cy))
    /\ b_radius b' = b_radius b
    /\ b_x b' = b_x b + nx * (b_radius b + vp_thickness p / 2
                              - vec_length (b_x b - cx) (b_y b - cy) + 0.5)
    /\ b_y b' = b_y b + ny * (b_radius b + vp_thickness p / 2
                              - vec_length (b_x b - cx) (b_y b - cy) + 0.5)
    /\ b_vx b' * nx + b_vy b' * ny
       = - (m_bounce mat * m_power mat * BALL_BOUNCE_DAMP)
         * (b_vx b * nx + b_vy b * ny)
    /\ b_vy b' * nx - b_vx b' * ny
       = m_bounce mat * m_power mat * BALL_BOUNCE_DAMP * (1 - m_friction mat)
         * (b_vy b * nx - b_vx b * ny).
Proof.
  unfold collide_ball_with_vertical_paddle.
  destruct (vp_burned_out p) eqn:Hb; [discriminate|].
  destruct (VerticalPaddle.get_segment p) as [[[x1 y1] x2] y2] eqn:Hseg.
  destruct (closest_point_on_segment _ _ _ _ _ _) as [[cx cy] t] eqn:Hcp.
  cbv zeta.
  destruct (fle _ _) eqn:Hd; [|discriminate].
  assert (Hdist : vec_length (b_x b - cx) (b_y b - cy)
                  <= b_radius b + vp_thickness p / 2).
  { destruct (Rle_lt_dec (vec_length (b_x b - cx) (b_y b - cy))
                (b_radius b + vp_thickness p / 2)) as [H | H]; [exact H|].
    rewrite fle_false in Hd by assumption. discriminate. }
  set (d := vec_length (b_x b - cx) (b_y b - cy)) in *.
  destruct (normalize_cases (b_x b - cx) (b_y b - cy))
    as [[H0 ->] | (H0 & -> & Hunit)]; fold d in H0.
  - rewrite !feq_true by reflexivity. cbn [andb].
    unfold reflect. cbv zeta.
    destruct (VerticalPaddle.material p) as [mat | e]; cbn [bind];
      [|discriminate].
    intros H. injection H as <-.
    exists x1, y1, x2, y2, cx, cy, t, 1, 0, mat.
    cbn [b_x b_y b_vx b_vy b_radius].
    split; [reflexivity|]. split; [reflexivity|]. split; [exact Hcp|].
    split; [reflexivity|]. split; [assumption|]. split; [lra|].
    split; [intros; split; reflexivity|].
    split; [intros; contradiction|].
    split; [reflexivity|]. split; [unfold d; lra|]. split; [unfold d; lra|].
    unfold BALL_BOUNCE_DAMP.
    replace 1.0 with 1 by lra. replace 0.0 with 0 by lra.
    replace 0.98 with (98 / 100) by lra. split; field.
  - fold d in Hunit. fold d.
    set (nx := (b_x b - cx) / d) in *. set (ny := (b_y b - cy) / d) in *.
    assert (Hnz : feq nx 0 && feq ny 0 = false).
    { destruct (Req_dec nx 0) as [Hx | Hx].
      - rewrite (feq_true nx) by assumption. cbn [andb].
        apply feq_false. intros Hy. rewrite Hx, Hy in Hunit. lra.
      - rewrite (feq_false nx) by assumption. reflexivity. }
    rewrite Hnz. unfold reflect. cbv zeta.
    destruct (VerticalPaddle.material p) as [mat | e]; cbn [bind];
      [|discriminate].
    intros H. injection H as <-.
    exists x1, y1, x2, y2, cx, cy, t, nx, ny, mat.
    cbn [b_x b_y b_vx b_vy b_radius].
    split; [reflexivity|]. split; [reflexivity|]. split; [exact Hcp|].
    split; [reflexivity|]. split; [assumption|]. split; [assumption|].
    split; [intros; contradiction|].
    split; [intros; split; reflexivity|].
    split; [reflexivity|]. split; [reflexivity|]. split; [reflexivity|].
    unfold BALL_BOUNCE_DAMP. replace 0.98 with (98 / 100) by lra. split.
    + transitivity
        (m_bounce mat * m_power mat * (98 / 100)
         * (b_vx b * nx + b_vy b * ny)
         * (1 - 2 * (nx * nx + ny * ny))); [field | rewrite Hunit; field].
    + transitivity
        (m_bounce mat * m_power mat * (98 / 100)
         * (b_vy b * nx - b_vx b * ny)
         * (1 - m_friction mat * (nx * nx + ny * ny)));
        [field | rewrite Hunit; field].
Qed.

Lemma basis_sq (x y nx ny : R) :
  nx * nx + ny * ny = 1 ->
  x * x + y * y
  = (x * nx + y * ny) * (x * nx + y * ny)
    + (y * nx - x * ny) * (y * nx - x * ny).
Proof.
  intros H. transitivity ((x * x + y * y) * (nx * nx + ny * ny));
    [rewrite H; ring | ring].
Qed.

Lemma MATERIALS_gain (k : string) (mat : Material) :
  dict_get MATERIALS k = Ok mat ->
  m_bounce mat * m_power mat * BALL_BOUNCE_DAMP <= 1.2936
  /\ (m_burnable mat = true ->
      m_bounce mat * m_power mat * BALL_BOUNCE_DAMP < 1).
Proof.
  unfold MATERIALS, BALL_BOUNCE_DAMP. cbn [dict_get].
  destruct (String.eqb wood k);
    [intros H; injection H as <-; cbn; split; [lra | intros _; lra]|].
  destruct (String.eqb steel k);
    [intros H; injection H as <-; cbn; split; [lra | discriminate]|].
  destruct (String.eqb rubber k);
    [intros H; injection H as <-; cbn; split; [lra | discriminate]|].
  discriminate.
Qed.

(** X13.  The response of a vertical paddle that is hit.  The ball is
    pushed by at least 0.5 along a unit normal, and in the frame of that
    normal the velocity is turned and scaled: the normal component is
    reversed and multiplied by [k = bounce * power * BALL_BOUNCE_DAMP] of
    the paddle's material, the tangential component is kept and
    multiplied by [k * (1 - friction)].  So the ball leaves with a speed
    between [k * (1 - friction)] and [k] times the speed it came with:
    at most 1.2936 times for every registered material, and less than
    before for a burnable one.  The normal component is reversed
    whatever its sign: a ball in reach that moves away from the paddle
    is sent back towards it. *)
Theorem vertical_hit_response (b b' : Ball) (p : VerticalPaddle) :
  collide_ball_with_vertical_paddle b p = Ok (true, b') ->
  exists (nx ny push : R) (mat : Material),
    VerticalPaddle.material p = Ok mat
    /\ nx * nx + ny * ny = 1
    /\ 0.5 <= push
    /\ b_x b' = b_x b + nx * push
    /\ b_y b' = b_y b + ny * push
    /\ b_radius b' = b_radius b
    /\ (let k := m_bounce mat * m_power mat * BALL_BOUNCE_DAMP in
        b_vx b' * nx + b_vy b' * ny = - k * (b_vx b * nx + b_vy b * ny)
        /\ b_vy b' * nx - b_vx b' * ny
           = k * (1 - m_friction mat) * (b_vy b * nx - b_vx b * ny)
        /\ k * (1 - m_friction mat) * speed b <= speed b' <= k * speed b
        /\ speed b' <= 1.2936 * speed b
        /\ (m_burnable mat = true -> speed b' <= speed b)
        /\ (0 < b_vx b * nx + b_vy b * ny ->
            b_vx b' * nx + b_vy b' * ny < 0)).
Proof.
  intros H.
  destruct (collide_vertical_hit_inv b b' p H)
    as (x1 & y1 & x2 & y2 & cx & cy & t & nx & ny & mat & _ & _ & _ & Hmat
        & Hdist & Hunit & _ & _ & Hr & Hx & Hy & Hn & Ht).
  exists nx, ny,
    (b_radius b + vp_thickness p / 2
     - vec_length (b_x b - cx) (b_y b - cy) + 0.5), mat.
  split; [exact Hmat|]. split; [exact Hunit|]. split; [lra|].
  split; [exact Hx|]. split; [exact Hy|]. split; [exact Hr|].
  cbv zeta.
  destruct (MATERIALS_positive _ _ Hmat) as (Hbo & Hpo & Hf0 & Hf1).
  destruct (MATERIALS_gain _ _ Hmat) as (Hgain & Hburn).
  set (k := m_bounce mat * m_power mat * BALL_BOUNCE_DAMP) in *.
  assert (Hk : 0 < k).
  { unfold k, BALL_BOUNCE_DAMP.
    apply Rmult_lt_0_compat; [apply Rmult_lt_0_compat; assumption | lra]. }
  set (f := m_friction mat) in *.
  pose proof (basis_sq (b_vx b) (b_vy b) nx ny Hunit) as Hv.
  pose proof (basis_sq (b_vx b') (b_vy b') nx ny Hunit) as Hv'.
  rewrite Hn, Ht in Hv'.
  set (A := b_vx b * nx + b_vy b * ny) in *.
  set (C := b_vy b * nx - b_vx b * ny) in *.
  pose proof (vec_length_nonneg (b_vx b) (b_vy b)) as Hs0.
  pose proof (vec_length_sqr (b_vx b) (b_vy b)) as Hs2.
  fold (speed b) in Hs0, Hs2.
  assert (HA : 0 <= A * A) by apply Rle_0_sqr.
  assert (HC : 0 <= C * C) by apply Rle_0_sqr.
  assert (Hkk : 0 < k * k) by (apply Rmult_lt_0_compat; assumption).
  assert (Hff : 0 <= (1 - f) * (1 - f) <= 1) by nra.
  assert (HkC : 0 <= k * k * (C * C)) by (apply Rmult_le_pos; lra).
  assert (HkA : 0 <= k * k * (A * A)) by (apply Rmult_le_pos; lra).
  assert (Hup : speed b' <= k * speed b).
  { unfold speed at 1. apply vec_length_le_iff.
    - apply Rmult_le_pos; lra.
    - rewrite Hv'.
      replace (k * speed b * (k * speed b))
        with (k * k * (speed b * speed b)) by ring.
      rewrite Hs2, Hv.
      assert (k * k * (C * C) * ((1 - f) * (1 - f)) <= k * k * (C * C) * 1)
        by (apply Rmult_le_compat_l; lra).
      lra. }
  assert (Hlow : k * (1 - f) * speed b <= speed b').
  { assert (Hq : (k * (1 - f) * speed b) * (k * (1 - f) * speed b)
                 <= speed b' * speed b').
    { unfold speed at 3 4. rewrite vec_length_sqr, Hv'.
      replace (k * (1 - f) * speed b * (k * (1 - f) * speed b))
        with (k * k * ((1 - f) * (1 - f)) * (speed b * speed b)) by ring.
      rewrite Hs2, Hv.
      assert (k * k * (A * A) * ((1 - f) * (1 - f)) <= k * k * (A * A) * 1)
        by (apply Rmult_le_compat_l; lra).
      lra. }
    pose proof (vec_length_nonneg (b_vx b') (b_vy b')) as Hs0'.
    fold (speed b') in Hs0'.
    assert (0 <= k * (1 - f) * speed b).
    { apply Rmult_le_pos; [apply Rmult_le_pos|]; lra. }
    destruct (Rle_lt_dec (k * (1 - f) * speed b) (speed b')) as [Hle | Hlt];
      [exact Hle | exfalso; nra]. }
  split; [lra|]. split; [lra|]. split; [split; assumption|].
  split.
  { apply Rle_trans with (k * speed b); [assumption|].
    apply Rmult_le_compat_r; assumption. }
  split.
  { intros Hb. specialize (Hburn Hb).
    apply Rle_trans with (k * speed b); [assumption|].
    replace (speed b) with (1 * speed b) at 2 by ring.
    apply Rmult_le_compat_r; lra. }
  intros HA0. rewrite Hn. nra.
Qed.

(** The closest point is a point of the segment, and seen from it no
    point of the segment lies on the side of [(px, py)]. *)
Lemma closest_point_obtuse (px py x1 y1 x2 y2 cx cy t s : R) :
  closest_point_on_segment px py x1 y1 x2 y2 = (cx, cy, t) ->
  0 <= s <= 1 ->
  0 <= t <= 1
  /\ cx = x1 + t * (x2 - x1)
  /\ cy = y1 + t * (y2 - y1)
  /\ (px - cx) * (x1 + s * (x2 - x1) - cx)
     + (py - cy) * (y1 + s * (y2 - y1) - cy) <= 0.
Proof.
  intros Hcp Hs. unfold closest_point_on_segment in Hcp. cbv zeta in Hcp.
  set (vx := x2 - x1) in *. set (vy := y2 - y1) in *.
  set (D := vx * vx + vy * vy) in *.
  set (N := (px - x1) * vx + (py - y1) * vy) in *.
  destruct (feq D 0) eqn:E; unfold feq in E;
    destruct (Req_dec_T D 0) as [H0 | Hn]; try discriminate.
  - injection Hcp as <- <- <-.
    assert (Hv : vx = 0 /\ vy = 0) by (unfold D in H0; split; nra).
    destruct Hv as [-> ->]. repeat split; lra.
  - assert (HD : 0 < D) by (unfold D in *; nra).
    set (t0 := clamp (N / D) 0.0 1.0) in *.
    assert (Ht : 0 <= t0 <= 1).
    { pose proof (clamp_bounds (N / D) 0.0 1.0) as H. fold t0 in H. lra. }
    assert (Hcase : (N = t0 * D) \/ (t0 = 0 /\ N <= 0) \/ (t0 = 1 /\ D <= N)).
    { assert (Hq : N = N / D * D) by (field; lra).
      unfold t0, clamp.
      destruct (Rle_lt_dec (N / D) 0) as [Hlo | Hlo].
      - right. left. rewrite Rmin_right by lra. rewrite Rmax_left by lra.
        split; [lra | nra].
      - destruct (Rle_lt_dec 1 (N / D)) as [Hhi | Hhi].
        + right. right. rewrite Rmin_left by lra. rewrite Rmax_right by lra.
          split; [lra | nra].
        + left. rewrite Rmin_right by lra. rewrite Rmax_right by lra.
          exact Hq. }
    injection Hcp as <- <- <-.
    split; [exact Ht|]. split; [reflexivity|]. split; [reflexivity|].
    replace ((px - (x1 + t0 * vx)) * (x1 + s * vx - (x1 + t0 * vx))
             + (py - (y1 + t0 * vy)) * (y1 + s * vy - (y1 + t0 * vy)))
      with ((s - t0) * (N - t0 * D)) by (unfold N, D; ring).
    clearbody t0 N D.
    destruct Hcase as [Hc | [[Hc HN] | [Hc HN]]].
    + rewrite Hc. lra.
    + rewrite Hc.
      replace ((s - 0) * (N - 0 * D)) with (- (s * (- N))) by ring.
      assert (0 <= s * (- N)) by (apply Rmult_le_pos; lra). lra.
    + rewrite Hc.
      replace ((s - 1) * (N - 1 * D)) with (- ((1 - s) * (N - D))) by ring.
      assert (0 <= (1 - s) * (N - D)) by (apply Rmult_le_pos; lra). lra.
Qed.

(** No point of the segment is nearer than the closest point. *)
Lemma closest_point_min (px py x1 y1 x2 y2 cx cy t s : R) :
  closest_point_on_segment px py x1 y1 x2 y2 = (cx, cy, t) ->
  0 <= s <= 1 ->
  vec_length (px - cx) (py - cy)
  <= vec_length (px - (x1 + s * (x2 - x1))) (py - (y1 + s * (y2 - y1))).
Proof.
  intros Hcp Hs.
  destruct (closest_point_obtuse _ _ _ _ _ _ _ _ _ s Hcp Hs)
    as (_ & _ & _ & Hob).
  apply vec_length_le_of_sq.
  set (qx := x1 + s * (x2 - x1)) in *. set (qy := y1 + s * (y2 - y1)) in *.
  replace ((px - qx) * (px - qx) + (py - qy) * (py - qy))
    with ((px - cx) * (px - cx) + (py - cy) * (py - cy)
          - 2 * ((px - cx) * (qx - cx) + (py - cy) * (qy - cy))
          + ((qx - cx) * (qx - cx) + (qy - cy) * (qy - cy))) by ring.
  pose proof (Rle_0_sqr (qx - cx)) as H1. pose proof (Rle_0_sqr (qy - cy)) as H2.
  unfold Rsqr in H1, H2. lra.
Qed.

(** A ball whose centre is within both radii of the paddle's centre hits
    a paddle that is not burned out and has a registered material. *)
Lemma collide_vertical_near (b : Ball) (p : VerticalPaddle) (mat : Material) :
  vp_burned_out p = false ->
  VerticalPaddle.material p = Ok mat ->
  vec_length (b_x b - vp_x p) (b_y b - vp_y p)
  <= b_radius b + vp_thickness p / 2 ->
  exists b', collide_ball_with_vertical_paddle b p = Ok (true, b').
Proof.
  intros Hb Hmat Hnear. unfold collide_ball_with_vertical_paddle.
  rewrite Hb, Hmat.
  assert (Hmid : forall x1 y1 x2 y2,
             VerticalPaddle.get_segment p = (x1, y1, x2, y2) ->
             vp_x p = x1 + / 2 * (x2 - x1) /\ vp_y p = y1 + / 2 * (y2 - y1)).
  { unfold VerticalPaddle.get_segment. cbv zeta. intros x1 y1 x2 y2 H.
    injection H as <- <- <- <-. split; field. }
  destruct (VerticalPaddle.get_segment p) as [[[x1 y1] x2] y2].
  destruct (Hmid x1 y1 x2 y2 eq_refl) as [Hx Hy].
  destruct (closest_point_on_segment _ _ _ _ _ _) as [[cx cy] t] eqn:Hcp.
  pose proof (closest_point_min _ _ _ _ _ _ _ _ _ (/ 2) Hcp ltac:(lra)) as Hmin.
  rewrite <- Hx, <- Hy in Hmin.
  cbv zeta. rewrite fle_true by lra.
  destruct (normalize _ _) as [nx ny].
  destruct (feq nx 0 && feq ny 0); unfold reflect; cbn; eexists; reflexivity.
Qed.

(** X14.  A hit is not repeated.  When the ball's centre was not on the
    centre line of the paddle, the ball that
    [collide_ball_with_vertical_paddle] leaves is 0.5 further from the
    paddle than contact, and a second call on it reports no hit and
    changes nothing. *)
Theorem vertical_hit_not_repeated (b b' : Ball) (p : VerticalPaddle) :
  collide_ball_with_vertical_paddle b p = Ok (true, b') ->
  (let '(x1, y1, x2, y2) := VerticalPaddle.get_segment p in
   let '(cx, cy, _) := closest_point_on_segment (b_x b) (b_y b) x1 y1 x2 y2 in
   vec_length (b_x b - cx) (b_y b - cy) <> 0) ->
  collide_ball_with_vertical_paddle b' p = Ok (false, b').
Proof.
  intros H Hnz.
  destruct (collide_vertical_hit_inv b b' p H)
    as (x1 & y1 & x2 & y2 & cx & cy & t & nx & ny & mat & Hb & Hseg & Hcp
        & Hmat & Hdist & Hunit & _ & Hn & Hr & Hx & Hy & _ & _).
  rewrite Hseg, Hcp in Hnz. specialize (Hn Hnz). destruct Hn as [Hnx Hny].
  set (d := vec_length (b_x b - cx) (b_y b - cy)) in *.
  set (L := b_radius b + vp_thickness p / 2 + 0.5).
  assert (Hd : 0 < d).
  { pose proof (vec_length_nonneg (b_x b - cx) (b_y b - cy)) as H0.
    fold d in H0. lra. }
  assert (Hbx : b_x b - cx = nx * d) by (rewrite Hnx; field; lra).
  assert (Hby : b_y b - cy = ny * d) by (rewrite Hny; field; lra).
  assert (Hx' : b_x b' - cx = nx * L) by (unfold L; rewrite Hx; lra).
  assert (Hy' : b_y b' - cy = ny * L) by (unfold L; rewrite Hy; lra).
  assert (HL : 0 < L) by (unfold L; lra).
  unfold collide_ball_with_vertical_paddle. rewrite Hb, Hseg.
  destruct (closest_point_on_segment (b_x b') (b_y b') x1 y1 x2 y2)
    as [[cx' cy'] t'] eqn:Hcp'.
  cbv zeta. rewrite fle_false; [reflexivity|].
  rewrite Hr. apply Rlt_le_trans with L; [unfold L; lra|].
  assert (Ht' : 0 <= t' <= 1 /\ cx' = x1 + t' * (x2 - x1)
                /\ cy' = y1 + t' * (y2 - y1)).
  { destruct (closest_point_obtuse _ _ _ _ _ _ _ _ _ 0 Hcp' ltac:(lra))
      as (A & B & C & _). repeat split; assumption || apply A. }
  destruct Ht' as (Ht' & Hcx' & Hcy').
  destruct (closest_point_obtuse _ _ _ _ _ _ _ _ _ t' Hcp Ht')
    as (_ & _ & _ & Hob).
  rewrite <- Hcx', <- Hcy', Hbx, Hby in Hob.
  assert (Hob' : nx * (cx' - cx) + ny * (cy' - cy) <= 0).
  { assert (d * (nx * (cx' - cx) + ny * (cy' - cy)) <= 0) by lra.
    destruct (Rle_lt_dec (nx * (cx' - cx) + ny * (cy' - cy)) 0)
      as [Hle | Hlt]; [exact Hle | exfalso].
    assert (0 < d * (nx * (cx' - cx) + ny * (cy' - cy)))
      by (apply Rmult_lt_0_compat; assumption).
    lra. }
  replace L with (vec_length (L * nx) (L * ny)).
  2:{ rewrite vec_length_scale by lra.
      unfold vec_length. rewrite Hunit, sqrt_1. ring. }
  apply vec_length_le_of_sq.
  replace (b_x b' - cx') with (L * nx - (cx' - cx)) by lra.
  replace (b_y b' - cy') with (L * ny - (cy' - cy)) by lra.
  pose proof (Rle_0_sqr (cx' - cx)) as H1.
  pose proof (Rle_0_sqr (cy' - cy)) as H2. unfold Rsqr in H1, H2.
  assert (0 <= L * - (nx * (cx' - cx) + ny * (cy' - cy)))
    by (apply Rmult_le_pos; lra).
  nra.
Qed.

Lemma ball_on_left_paddle_hits :
  exists b',
    collide_ball_with_vertical_paddle ball_on_left_paddle
      (VerticalPaddle.init Left) = Ok (true, b').
Proof.
  apply (collide_vertical_near _ _ (mkMaterial wood 0.95 1.00 0.10 true)).
  - reflexivity.
  - reflexivity.
  - cbn. replace (FIELD_LEFT + 60 - (FIELD_LEFT + 60)) with 0 by ring.
    rewrite vec_length_axis_y.
    replace (FIELD_CENTER_Y + 15 - FIELD_CENTER_Y) with 15 by ring.
    rewrite Rabs_pos_eq by lra. rsolve.
Qed.

Lemma ball_on_left_paddle_off_line :
  let '(x1, y1, x2, y2) := VerticalPaddle.get_segment (VerticalPaddle.init Left) in
  let '(cx, cy, _) :=
    closest_point_on_segment (b_x ball_on_left_paddle)
      (b_y ball_on_left_paddle) x1 y1 x2 y2 in
  vec_length (b_x ball_on_left_paddle - cx) (b_y ball_on_left_paddle - cy)
  <> 0.
Proof.
  destruct (VerticalPaddle.get_segment (VerticalPaddle.init Left))
    as [[[x1 y1] x2] y2] eqn:Hseg.
  destruct (closest_point_on_segment _ _ _ _ _ _) as [[cx cy] t] eqn:Hcp.
  intros H0. apply vec_length_zero_iff in H0. destruct H0 as [Hx Hy].
  destruct (closest_point_obtuse _ _ _ _ _ _ _ _ _ 0 Hcp ltac:(lra))
    as (Ht & Hcx & Hcy & _).
  unfold VerticalPaddle.get_segment in Hseg. cbv zeta in Hseg.
  cbn [VerticalPaddle.init vp_side vp_tilt_deg vp_length vp_x vp_y] in Hseg.
  injection Hseg as <- <- <- <-.
  cbn [ball_on_left_paddle b_x b_y] in Hx, Hy.
  assert (Hr : radians VERT_PADDLE_TILT_DEG = PI / 6)
    by (unfold radians, VERT_PADDLE_TILT_DEG; lra).
  rewrite Hr in *. rewrite sin_PI6 in *.
  assert (Hc : 0 < cos (PI / 6)).
  { apply cos_gt_0; pose proof PI_RGT_0; lra. }
  unfold VERT_PADDLE_LENGTH in *.
  assert (Ht2 : cos (PI / 6) * (2 * t - 1) = 0) by lra.
  assert (t = / 2) by nra.
  subst t. lra.
Qed.

Lemma vertical_hit_response_witness :
  exists b',
    collide_ball_with_vertical_paddle ball_on_left_paddle
      (VerticalPaddle.init Left) = Ok (true, b')
    /\ speed b' <= 1.2936 * speed ball_on_left_paddle.
Proof.
  destruct ball_on_left_paddle_hits as [b' Hb']. exists b'.
  split; [exact Hb'|].
  destruct (vertical_hit_response _ _ _ Hb')
    as (nx & ny & push & mat & _ & _ & _ & _ & _ & _ & _ & _ & _ & H & _).
  exact H.
Defined.

Lemma vertical_hit_not_repeated_witness :
  exists b',
    collide_ball_with_vertical_paddle ball_on_left_paddle
      (VerticalPaddle.init Left) = Ok (true, b')
    /\ collide_ball_with_vertical_paddle b' (VerticalPaddle.init Left)
       = Ok (false, b').
Proof.
  destruct ball_on_left_paddle_hits as [b' Hb']. exists b'.
  split; [exact Hb'|].
  exact (vertical_hit_not_repeated _ _ _ Hb' ball_on_left_paddle_off_line).
Defined.

(** ** The response of a horizontal paddle *)

Lemma MATERIALS_horizontal_gain (k : string) (mat : Material) :
  dict_get MATERIALS k = Ok mat ->
  0.931 <= m_bounce mat * m_power mat * BALL_BOUNCE_DAMP <= 1.2936
  /\ 0 < m_bounce mat * (1.0 - m_friction mat) * BALL_BOUNCE_DAMP <= 1.1172.
Proof.
  unfold MATERIALS, BALL_BOUNCE_DAMP. cbn [dict_get].
  destruct (String.eqb wood k);
    [intros H; injection H as <-; cbn; lra|].
  destruct (String.eqb steel k);
    [intros H; injection H as <-; cbn; lra|].
  destruct (String.eqb rubber k);
    [intros H; injection H as <-; cbn; lra|].
  discriminate.
Qed.

(** X15.  The response of a horizontal paddle that is hit.  The ball
    keeps its horizontal position and is put 0.5 clear of the box, above
    it when its centre was at or above the paddle's and below it
    otherwise.  It always leaves upwards, faster than 484 even when it
    arrived at rest, with a horizontal velocity of the same direction
    and at most 1.1172 times the size; and a second call on the ball
    that is left reports no hit. *)
Theorem horizontal_hit_response (b b' : Ball) (p : HorizontalPaddle) :
  collide_ball_with_horizontal_paddle b p = Ok (true, b') ->
  exists mat : Material,
    HorizontalPaddle.material p = Ok mat
    /\ b_x b' = b_x b
    /\ b_radius b' = b_radius b
    /\ (hp_y p <= b_y b ->
        b_y b' = hp_y p + hp_thickness p / 2 + b_radius b + 0.5)
    /\ (b_y b < hp_y p ->
        b_y b' = hp_y p - hp_thickness p / 2 - b_radius b - 0.5)
    /\ b_vy b'
       = (Rabs (b_vy b) + 520) * (m_bounce mat * m_power mat * BALL_BOUNCE_DAMP)
    /\ b_vx b'
       = b_vx b * (m_bounce mat * (1.0 - m_friction mat) * BALL_BOUNCE_DAMP)
    /\ 484 < b_vy b'
    /\ Rabs (b_vx b') <= 1.1172 * Rabs (b_vx b)
    /\ collide_ball_with_horizontal_paddle b' p = Ok (false, b').
Proof.
  unfold collide_ball_with_horizontal_paddle at 1.
  destruct (hp_burned_out p) eqn:Hb; [discriminate|]. cbv zeta.
  match goal with
  | |- (if ?c then _ else _) = _ -> _ => destruct c
  end; [|discriminate].
  destruct (HorizontalPaddle.material p) as [mat | e] eqn:Hmat;
    [|destruct (fge _ _); discriminate].
  destruct (MATERIALS_horizontal_gain _ _ Hmat) as ([Hk1 Hk2] & [Hg1 Hg2]).
  pose proof (Rabs_pos (b_vy b)) as Habs.
  assert (Hvy : forall v,
             v = (Rabs (b_vy b) + 520)
                 * (m_bounce mat * m_power mat * BALL_BOUNCE_DAMP) ->
             484 < v).
  { intros v ->.
    apply Rlt_le_trans with (520 * 0.931); [lra|].
    apply Rmult_le_compat; lra. }
  assert (Hvx : forall v,
             v = b_vx b
                 * (m_bounce mat * (1.0 - m_friction mat) * BALL_BOUNCE_DAMP) ->
             Rabs v <= 1.1172 * Rabs (b_vx b)).
  { intros v ->. rewrite Rabs_mult, Rmult_comm.
    rewrite (Rabs_pos_eq (_ * BALL_BOUNCE_DAMP)) by lra.
    apply Rmult_le_compat_r; [apply Rabs_pos | lra]. }
  destruct (fge (b_y b) (hp_y p)) eqn:Hside;
    unfold reflect; cbn [bind]; cbv zeta beta iota;
    intros H; injection H as <-; exists mat;
    cbn [b_x b_y b_vx b_vy b_radius].
  - assert (Hge : hp_y p <= b_y b).
    { destruct (Rle_lt_dec (hp_y p) (b_y b)) as [Hle | Hlt]; [exact Hle|].
      rewrite fge_false in Hside by assumption. discriminate. }
    replace (b_vy b - 2 * (b_vx b * 0.0 + b_vy b * 1.0) * 1.0)
      with (- b_vy b) by lra.
    replace (b_vx b - 2 * (b_vx b * 0.0 + b_vy b * 1.0) * 0.0)
      with (b_vx b) by lra.
    rewrite Rabs_Ropp.
    split; [reflexivity|]. split; [reflexivity|]. split; [reflexivity|].
    split; [intros; reflexivity|]. split; [intros; lra|].
    split; [lra|]. split; [lra|].
    split; [apply Hvy; lra|]. split; [apply Hvx; lra|].
    apply collide_horizontal_far. cbn [b_x b_y b_radius]. right. right. right.
    lra.
  - assert (Hlt : b_y b < hp_y p).
    { destruct (Rle_lt_dec (hp_y p) (b_y b)) as [Hle | Hlt]; [|exact Hlt].
      rewrite fge_true in Hside by lra. discriminate. }
    replace (b_vy b - 2 * (b_vx b * 0.0 + b_vy b * -1.0) * -1.0)
      with (- b_vy b) by lra.
    replace (b_vx b - 2 * (b_vx b * 0.0 + b_vy b * -1.0) * 0.0)
      with (b_vx b) by lra.
    rewrite Rabs_Ropp.
    split; [reflexivity|]. split; [reflexivity|]. split; [reflexivity|].
    split; [intros; lra|]. split; [intros; reflexivity|].
    split; [lra|]. split; [lra|].
    split; [apply Hvy; lra|]. split; [apply Hvx; lra|].
    apply collide_horizontal_far. cbn [b_x b_y b_radius]. right. right. left.
    lra.
Qed.

Lemma horizontal_hit_response_witness :
  exists b',
    collide_ball_with_horizontal_paddle ball_from_below
      (HorizontalPaddle.init Left) = Ok (true, b')
    /\ 484 < b_vy b'
    /\ collide_ball_with_horizontal_paddle b' (HorizontalPaddle.init Left)
       = Ok (false, b').
Proof.
  assert (Hhit : exists b',
            collide_ball_with_horizontal_paddle ball_from_below
              (HorizontalPaddle.init Left) = Ok (true, b')).
  { eexists.
    apply (collide_horizontal_hit ball_from_below
             (HorizontalPaddle.init Left)
             (mkMaterial wood 0.95 1.00 0.10 true));
      [reflexivity | cbn; rsolve | cbn; rsolve | exact MATERIALS_wood]. }
  destruct Hhit as [b' Hb']. exists b'. split; [exact Hb'|].
  destruct (horizontal_hit_response _ _ _ Hb')
    as (mat & _ & _ & _ & _ & _ & _ & _ & Hup & _ & Hno).
  split; assumption.
Defined.

(** ** The automatic player *)





(** ** Keys *)

(** X17.  Key events only steer.  [on_key_press] and [on_key_release]
    leave the ball, the event scheduler, the countdown, the scores, the
    stun timers and both paddles of both players as they are; a key
    press can only change the intents, the pause state and the player
    the material buttons act on, a key release only the intents.  The
    right player's intents are not touched when it is the automatic
    player.  A release of either key of an axis sets that axis to zero,
    also when the opposite key is still held. *)
Theorem keys_only_steer (k : Key) (g : GameView) :
  (forall g', g' = GameView.on_key_press k g \/ g' = GameView.on_key_release k g ->
     g_ball g' = g_ball g
     /\ g_event_manager g' = g_event_manager g
     /\ g_countdown g' = g_countdown g
     /\ g_pending_event g' = g_pending_event g
     /\ p_vert (g_player_left g') = p_vert (g_player_left g)
     /\ p_horz (g_player_left g') = p_horz (g_player_left g)
     /\ p_vert (g_player_right g') = p_vert (g_player_right g)
     /\ p_horz (g_player_right g') = p_horz (g_player_right g)
     /\ p_score (g_player_left g') = p_score (g_player_left g)
     /\ p_score (g_player_right g') = p_score (g_player_right g)
     /\ p_stun_timer (g_player_left g') = p_stun_timer (g_player_left g)
     /\ p_stun_timer (g_player_right g') = p_stun_timer (g_player_right g)
     /\ (p_is_cpu (g_player_right g) = true ->
         g_player_right g' = g_player_right g))
  /\ g_state (GameView.on_key_release k g) = g_state g
  /\ g_selected_player_for_material (GameView.on_key_release k g)
     = g_selected_player_for_material g
  /\ (k = LEFT_VERTICAL_UP \/ k = LEFT_VERTICAL_DOWN ->
      p_move_vert (g_player_left (GameView.on_key_release k g)) = 0)
  /\ (k = LEFT_HORIZONTAL_LEFT \/ k = LEFT_HORIZONTAL_RIGHT ->
      p_move_horz (g_player_left (GameView.on_key_release k g)) = 0)
  /\ (p_is_cpu (g_player_right g) = false ->
      (k = RIGHT_VERTICAL_UP \/ k = RIGHT_VERTICAL_DOWN ->
       p_move_vert (g_player_right (GameView.on_key_release k g)) = 0)
      /\ (k = RIGHT_HORIZONTAL_LEFT \/ k = RIGHT_HORIZONTAL_RIGHT ->
          p_move_horz (g_player_right (GameView.on_key_release k g)) = 0)).
Proof.
  split.
  - intros g' [-> | ->].
    + unfold GameView.on_key_press, GameView._toggle_pause,
        GameView._toggle_material_target.
      destruct k; cbn; destruct (g_state g); cbn;
        destruct (p_is_cpu (g_player_right g)); cbn;
        repeat split; try reflexivity; intros; try discriminate.
    + unfold GameView.on_key_release.
      destruct k; cbn; destruct (p_is_cpu (g_player_right g)); cbn;
        repeat split; try reflexivity; intros; try discriminate.
  - unfold GameView.on_key_release.
    unfold LEFT_VERTICAL_UP, LEFT_VERTICAL_DOWN, LEFT_HORIZONTAL_LEFT,
      LEFT_HORIZONTAL_RIGHT, RIGHT_VERTICAL_UP, RIGHT_VERTICAL_DOWN,
      RIGHT_HORIZONTAL_LEFT, RIGHT_HORIZONTAL_RIGHT.
    split; [reflexivity|]. split; [reflexivity|].
    split; [intros [-> | ->]; cbn; lra|].
    split; [intros [-> | ->]; cbn; lra|].
    intros Hcpu. rewrite Hcpu.
    split; intros [-> | ->]; cbn; lra.
Qed.

Lemma keys_only_steer_witness :
  p_move_vert
    (g_player_left
       (GameView.on_key_release K_S
          (GameView.on_key_press K_S
             (GameView.on_key_press K_W (GameView.init "pvp"))))) = 0.
Proof.
  apply (proj1 (proj2 (proj2 (proj2
           (keys_only_steer K_S
              (GameView.on_key_press K_S
                 (GameView.on_key_press K_W (GameView.init "pvp")))))))).
  right. reflexivity.
Defined.

(** ** Well-formed games are kept *)

Lemma VerticalPaddle_update_ok (side : Side) (dt m : R) (p : VerticalPaddle) :
  VerticalPaddle_ok side p -> VerticalPaddle_ok side (VerticalPaddle.update dt m p).
Proof.
  intros [H1 H2 H3 H4 H5 H6 H7 H8 H9]. unfold VerticalPaddle.update.
  destruct (negb (vp_enabled p) || vp_burned_out p);
    [constructor; assumption|].
  constructor; cbn; try assumption.
  rewrite H2. apply clamp_bounds. rsolve.
Qed.

Lemma HorizontalPaddle_update_ok (side : Side) (dt m : R) (p : HorizontalPaddle) :
  HorizontalPaddle_ok side p ->
  HorizontalPaddle_ok side (HorizontalPaddle.update dt m p).
Proof.
  intros [H1 H2 H3 H4 H5 H6 H7 H8]. unfold HorizontalPaddle.update.
  destruct (negb (hp_enabled p) || hp_burned_out p);
    [constructor; assumption|].
  constructor; cbn; try assumption.
  apply clamp_bounds. lra.
Qed.

Lemma VerticalPaddle_update_flags (dt m : R) (p : VerticalPaddle) :
  let p' := VerticalPaddle.update dt m p in
  vp_material_name p' = vp_material_name p
  /\ vp_enabled p' = vp_enabled p
  /\ vp_burned_out p' = vp_burned_out p.
Proof.
  unfold VerticalPaddle.update.
  destruct (negb (vp_enabled p) || vp_burned_out p);
    repeat split; reflexivity.
Qed.

Lemma HorizontalPaddle_update_flags (dt m : R) (p : HorizontalPaddle) :
  let p' := HorizontalPaddle.update dt m p in
  hp_material_name p' = hp_material_name p
  /\ hp_enabled p' = hp_enabled p
  /\ hp_burned_out p' = hp_burned_out p.
Proof.
  unfold HorizontalPaddle.update.
  destruct (negb (hp_enabled p) || hp_burned_out p);
    repeat split; reflexivity.
Qed.

Lemma VerticalPaddle_set_enabled_ok (side : Side) (e : bool) (p : VerticalPaddle) :
  VerticalPaddle_ok side p ->
  VerticalPaddle_ok side (VerticalPaddle.set_enabled e p).
Proof. intros []. constructor; assumption. Qed.

Lemma HorizontalPaddle_set_enabled_ok
  (side : Side) (e : bool) (p : HorizontalPaddle) :
  HorizontalPaddle_ok side p ->
  HorizontalPaddle_ok side (HorizontalPaddle.set_enabled e p).
Proof. intros []. constructor; assumption. Qed.

Lemma update_stun_ok (side : Side) (dt : R) (p : Player) :
  0 <= dt <= 1 / 30 ->
  Player_ok side p -> Player_ok side (Player.update_stun dt p).
Proof.
  intros Hdt [H1 H2 H3 H4 H5 H6 H7 H8 H9 H10]. unfold Player.update_stun.
  destruct (fgt (p_stun_timer p) 0) eqn:E.
  - apply fgt_spec in E.
    constructor; cbn; try assumption; try lra;
      try (apply VerticalPaddle_set_enabled_ok; assumption);
      try (apply HorizontalPaddle_set_enabled_ok; assumption);
      try reflexivity; right; left; lra.
  - constructor; cbn; try assumption;
      try (apply VerticalPaddle_set_enabled_ok; assumption);
      try (apply HorizontalPaddle_set_enabled_ok; assumption);
      reflexivity.
Qed.

Lemma Player_set_moves_ok (side : Side) (mv mh : R) (p : Player) :
  mv = -1 \/ mv = 0 \/ mv = 1 ->
  mh = -1 \/ mh = 0 \/ mh = 1 ->
  Player_ok side p -> Player_ok side (Player.set_moves mv mh p).
Proof. intros Hv Hh []. constructor; assumption. Qed.

Lemma _cpu_control_ok (side : Side) (dt : R) (ball : Ball) (p : Player) :
  Player_ok side p -> Player_ok side (Player._cpu_control dt ball p).
Proof.
  intros H. unfold Player._cpu_control. cbv zeta.
  apply Player_set_moves_ok; [| |exact H].
  - destruct (fgt _ _); [|destruct (flt _ _)]; lra.
  - destruct (fgt _ _); [|destruct (flt _ _)]; lra.
Qed.

Lemma update_paddles_ok (side : Side) (dt : R) (p : Player) :
  Player_ok side p -> Player_ok side (Player.update_paddles dt p).
Proof.
  intros [H1 H2 H3 H4 H5 H6 H7 H8 H9 H10]. unfold Player.update_paddles.
  destruct (VerticalPaddle_update_flags dt (p_move_vert p) (p_vert p))
    as (Vm & Ve & Vb).
  destruct (HorizontalPaddle_update_flags dt (p_move_horz p) (p_horz p))
    as (Hm & He & Hb).
  constructor; cbn; try assumption; try congruence.
  - apply VerticalPaddle_update_ok; assumption.
  - apply HorizontalPaddle_update_ok; assumption.
Qed.

Lemma Player_update_ok (side : Side) (dt : R) (ball : Ball) (p : Player) :
  0 <= dt <= 1 / 30 ->
  Player_ok side p -> Player_ok side (Player.update dt ball p).
Proof.
  intros Hdt H. unfold Player.update. cbv zeta.
  apply update_paddles_ok.
  pose proof (update_stun_ok side dt p Hdt H) as H'.
  destruct (p_is_cpu (Player.update_stun dt p));
    [apply _cpu_control_ok|]; exact H'.
Qed.

(** What [Player.update] never changes. *)
Lemma Player_update_keeps (dt : R) (ball : Ball) (p : Player) :
  let p' := Player.update dt ball p in
  p_is_cpu p' = p_is_cpu p
  /\ vp_burned_out (p_vert p') = vp_burned_out (p_vert p)
  /\ vp_material_name (p_vert p') = vp_material_name (p_vert p)
  /\ p_score p' = p_score p.
Proof.
  cbv zeta. unfold Player.update, Player.update_stun, Player.update_paddles,
    Player._cpu_control, Player.set_moves. cbv zeta.
  destruct (fgt (p_stun_timer p) 0); cbn [p_is_cpu]; destruct (p_is_cpu p);
    cbn [p_side p_is_cpu p_vert p_horz p_score p_move_vert p_move_horz
         p_stun_timer];
    match goal with
    | |- context [VerticalPaddle.update dt ?m ?q] =>
        destruct (VerticalPaddle_update_flags dt m q) as (-> & _ & ->)
    end; repeat split; reflexivity.
Qed.

Lemma apply_player_ok (side : Side) (p : Player) :
  Player_ok side p -> Player_ok side (FireEvent.apply_player p).
Proof.
  intros H. unfold FireEvent.apply_player, Player.get_material.
  destruct (String.eqb (vp_material_name (p_vert p)) wood) eqn:E; [|exact H].
  apply String.eqb_eq in E.
  destruct H as [H1 H2 H3 H4 H5 H6 H7 H8 H9 H10].
  constructor; cbn; try assumption; try reflexivity.
  - destruct H2. constructor; cbn; try assumption. intros _. exact E.
  - destruct H3. constructor; assumption.
  - unfold FIRE_STUN_DURATION in *. split.
    + apply Rlt_le_trans with (p_stun_timer p); [lra | apply Rmax_l].
    + apply Rmax_lub; lra.
Qed.

Lemma apply_player_keeps (p : Player) :
  p_is_cpu (FireEvent.apply_player p) = p_is_cpu p
  /\ p_score (FireEvent.apply_player p) = p_score p.
Proof.
  unfold FireEvent.apply_player.
  destruct (String.eqb _ _); split; reflexivity.
Qed.

Lemma Player_set_material_ok (side : Side) (name : string) (p : Player) :
  dict_mem MATERIALS name = true ->
  Player_ok side p -> Player_ok side (Player.set_material name p).
Proof.
  intros Hn [H1 H2 H3 H4 H5 H6 H7 H8 H9 H10].
  constructor; cbn; try assumption; try reflexivity.
  - destruct H2. constructor; cbn; try assumption. discriminate.
  - destruct H3. constructor; assumption.
Qed.

Lemma random_choice_single {A : Type} (i : nat) (a : A) :
  random_choice i [a] = Ok a.
Proof.
  unfold random_choice. cbn [List.length]. rewrite Nat.mod_1_r. reflexivity.
Qed.

(** One run of the scheduler on a game whose only event is the fire: it
    does not raise, and it leaves each player alone or applies the fire
    to it. *)
Lemma EventManager_update_run (dt : R) (rnd : Random) (g : GameView) :
  em_events (g_event_manager g) = [FireEvent] ->
  exists g',
    EventManager.update dt rnd g = Ok g'
    /\ g_mode g' = g_mode g
    /\ g_ball g' = g_ball g
    /\ g_state g' = g_state g
    /\ g_countdown g' = g_countdown g
    /\ g_countdown_text g' = g_countdown_text g
    /\ g_selected_player_for_material g' = g_selected_player_for_material g
    /\ (g_player_left g' = g_player_left g
        \/ g_player_left g' = FireEvent.apply_player (g_player_left g))
    /\ (g_player_right g' = g_player_right g
        \/ g_player_right g' = FireEvent.apply_player (g_player_right g))
    /\ em_events (g_event_manager g') = [FireEvent]
    /\ em_timer (g_event_manager g') = em_timer (g_event_manager g) + dt
    /\ em_next_event_in (g_event_manager g')
       = (if fle (em_next_event_in (g_event_manager g) - dt) 0
          then EVENT_INTERVAL
          else em_next_event_in (g_event_manager g) - dt)
    /\ (g_last_event_timer g' = g_last_event_timer g
        \/ g_last_event_timer g' = 2).
Proof.
  destruct g as [mode pl pr ball em sel st c txt pe lt ltm].
  destruct em as [tm nx wa wt wtxt evs]. cbn. intros ->.
  unfold EventManager.update, EventManager.update_warn,
    EventManager.update_warning_timer, EventManager.update_fire,
    EventManager.update_timers.
  cbn -[random_choice]. rewrite !random_choice_single.
  destruct wa; cbn;
    destruct (fle (nx - dt) EVENT_WARNING_TIME); cbn;
    destruct (fle (nx - dt) 0); cbn;
    try destruct (fle (wt - dt) 0); cbn;
    try destruct (fle (EVENT_WARNING_TIME - dt) 0); cbn;
    try (destruct pe as [[|]|]; cbn);
    eexists; (split; [reflexivity|]); cbn; repeat split; auto; lra.
Qed.

(** *** The ball through one frame *)

(** The ball between floor and ceiling. *)
Lemma on_update_walls_inside (b : Ball) :
  b_radius b = BALL_RADIUS ->
  let b' := GameView.on_update_walls b in
  b_radius b' = BALL_RADIUS
  /\ FIELD_BOTTOM < b_y b' - b_radius b'
  /\ b_y b' + b_radius b' < FIELD_TOP
  /\ speed b' <= speed b.
Proof.
  intros Hr. cbv zeta. unfold GameView.on_update_walls, speed.
  pose proof (Rabs_pos (b_vy b)) as Ha.
  assert (Hsq : Rabs (b_vy b) * Rabs (b_vy b) = b_vy b * b_vy b).
  { unfold Rabs. destruct (Rcase_abs (b_vy b)); ring. }
  destruct (Rle_lt_dec (b_y b - b_radius b) FIELD_BOTTOM) as [Hlo | Hlo].
  - rewrite fle_true by assumption. cbn [b_x b_y b_vx b_vy b_radius].
    rewrite Hr. repeat split; try rsolve.
    apply vec_length_le_of_sq. nra.
  - rewrite fle_false by assumption.
    destruct (Rle_lt_dec FIELD_TOP (b_y b + b_radius b)) as [Hhi | Hhi].
    + rewrite fge_true by lra. cbn [b_x b_y b_vx b_vy b_radius].
      rewrite Hr. repeat split; try rsolve.
      apply vec_length_le_of_sq. nra.
    + rewrite fge_false by lra. repeat split; try assumption; lra.
Qed.

Lemma tilt_sin (side : Side) :
  sin (match side with
       | Right => radians (180 - VERT_PADDLE_TILT_DEG)
       | Left => radians VERT_PADDLE_TILT_DEG
       end) = 1 / 2.
Proof.
  assert (Hr : radians VERT_PADDLE_TILT_DEG = PI / 6)
    by (unfold radians, VERT_PADDLE_TILT_DEG; lra).
  destruct side.
  - rewrite Hr. apply sin_PI6.
  - rewrite radians_supplement, Hr, sin_PI_x. apply sin_PI6.
Qed.

(** The segment of a well-formed paddle: within 85 of the paddle's
    centre horizontally and within 42.5 vertically. *)
Lemma get_segment_ok (side : Side) (p : VerticalPaddle) :
  VerticalPaddle_ok side p ->
  let '(x1, y1, x2, y2) := VerticalPaddle.get_segment p in
  vp_x p - 85 <= Rmin x1 x2 /\ Rmax x1 x2 <= vp_x p + 85
  /\ y1 = vp_y p - 42.5 /\ y2 = vp_y p + 42.5.
Proof.
  intros [H1 H2 H3 H4 H5 H6 H7 H8 H9].
  pose proof (get_segment_box p) as Hbox.
  unfold VerticalPaddle.get_segment in *. cbv zeta in *.
  rewrite H1, H4. rewrite H1, H4 in Hbox. rewrite (tilt_sin side).
  rewrite H2 in *. unfold VERT_PADDLE_LENGTH in *.
  destruct (Hbox ltac:(lra)) as (B1 & B2 & _ & _).
  repeat split; lra.
Qed.

Lemma Rmult_abs_le (n L : R) : -1 <= n <= 1 -> 0 <= L -> - L <= n * L <= L.
Proof. intros Hn HL. split; nra. Qed.

Lemma unit_component (nx ny : R) :
  nx * nx + ny * ny = 1 -> -1 <= nx <= 1 /\ -1 <= ny <= 1.
Proof. intros H. split; split; nra. Qed.

(** One call of the resolver on a well-formed vertical paddle: it does
    not raise, the ball stays between floor and ceiling, gains at most
    the factor 1.2936, and after a hit it is near the paddle. *)
Lemma collide_vertical_ok (side : Side) (b : Ball) (p : VerticalPaddle) :
  VerticalPaddle_ok side p ->
  b_radius b = BALL_RADIUS ->
  FIELD_BOTTOM < b_y b - b_radius b ->
  b_y b + b_radius b < FIELD_TOP ->
  exists (h : bool) (b' : Ball),
    collide_ball_with_vertical_paddle b p = Ok (h, b')
    /\ b_radius b' = BALL_RADIUS
    /\ FIELD_BOTTOM < b_y b' - b_radius b'
    /\ b_y b' + b_radius b' < FIELD_TOP
    /\ speed b' <= 1.2936 * speed b
    /\ (h = false -> b' = b)
    /\ (h = true -> Rabs (b_x b' - vp_x p) <= 106.5).
Proof.
  intros Hok Hr Hlo Hhi.
  pose proof (vec_length_nonneg (b_vx b) (b_vy b)) as Hs0. fold (speed b) in Hs0.
  destruct (collide_ball_with_vertical_paddle b p) as [[h b'] | e] eqn:Hc.
  2:{ exfalso. revert Hc. unfold collide_ball_with_vertical_paddle.
      destruct (vp_burned_out p); [discriminate|].
      destruct (VerticalPaddle.get_segment p) as [[[x1 y1] x2] y2].
      destruct (closest_point_on_segment _ _ _ _ _ _) as [[cx cy] t].
      cbv zeta. destruct (fle _ _); [|discriminate].
      destruct (normalize _ _) as [nx ny].
      destruct (dict_get_mem MATERIALS _ (vok_material _ _ Hok)) as [mat Hmat].
      unfold VerticalPaddle.material. rewrite Hmat.
      destruct (feq nx 0 && feq ny 0); unfold reflect; cbn; discriminate. }
  exists h, b'. split; [reflexivity|].
  destruct h.
  - destruct (collide_vertical_hit_inv b b' p Hc)
      as (x1 & y1 & x2 & y2 & cx & cy & t & nx & ny & mat & Hb & Hseg & Hcp
          & Hmat & Hdist & Hunit & Hdeg & Hn & Hr' & Hx & Hy & Hvn & Hvt).
    pose proof (get_segment_ok side p Hok) as Hsg. rewrite Hseg in Hsg.
    destruct Hsg as (Sx1 & Sx2 & Sy1 & Sy2).
    pose proof (closest_point_between (b_x b) (b_y b) x1 y1 x2 y2) as Hbt.
    rewrite Hcp in Hbt. destruct Hbt as [[Cx1 Cx2] [Cy1 Cy2]].
    rewrite Rmin_left in Cy1 by lra. rewrite Rmax_right in Cy2 by lra.
    destruct (unit_component nx ny Hunit) as [Hnx Hny].
    pose proof (vec_length_nonneg (b_x b - cx) (b_y b - cy)) as Hd0.
    set (d := vec_length (b_x b - cx) (b_y b - cy)) in *.
    rewrite (vok_thickness _ _ Hok), Hr in Hx, Hy, Hdist.
    unfold VERT_PADDLE_THICKNESS, BALL_RADIUS in Hx, Hy, Hdist.
    pose proof (vok_y _ _ Hok) as Hvy.
    unfold VERT_PADDLE_LENGTH in Hvy.
    assert (Hpos : b_x b' - cx = nx * 21.5 /\ b_y b' - cy = ny * 21.5
                   \/ b_x b' - cx = 21.5 /\ b_y b' = b_y b).
    { destruct (Req_dec d 0) as [H0 | H0].
      - right. destruct (Hdeg H0) as [-> ->].
        pose proof (proj1 (vec_length_zero_iff _ _) H0) as [Hzx Hzy].
        rewrite Hx, Hy, H0. lra.
      - left. destruct (Hn H0) as [Hnx' Hny'].
        assert (b_x b - cx = nx * d) by (rewrite Hnx'; field; exact H0).
        assert (b_y b - cy = ny * d) by (rewrite Hny'; field; exact H0).
        rewrite Hx, Hy. lra. }
    pose proof (Rmult_abs_le nx 21.5 Hnx ltac:(lra)) as Lx.
    pose proof (Rmult_abs_le ny 21.5 Hny ltac:(lra)) as Ly.
    assert (Hsp : speed b' <= 1.2936 * speed b).
    { destruct (MATERIALS_positive _ _ Hmat) as (Hbo & Hpo & Hf0 & Hf1).
      destruct (MATERIALS_gain _ _ Hmat) as (Hgain & _).
      set (k := m_bounce mat * m_power mat * BALL_BOUNCE_DAMP) in *.
      assert (Hk : 0 < k).
      { unfold k, BALL_BOUNCE_DAMP.
        apply Rmult_lt_0_compat; [apply Rmult_lt_0_compat; assumption | lra]. }
      apply Rle_trans with (k * speed b);
        [|apply Rmult_le_compat_r; assumption].
      pose proof (basis_sq (b_vx b) (b_vy b) nx ny Hunit) as Hv.
      pose proof (basis_sq (b_vx b') (b_vy b') nx ny Hunit) as Hv'.
      rewrite Hvn, Hvt in Hv'.
      set (A := b_vx b * nx + b_vy b * ny) in *.
      set (C := b_vy b * nx - b_vx b * ny) in *.
      pose proof (vec_length_sqr (b_vx b) (b_vy b)) as Hs2.
      fold (speed b) in Hs2.
      assert (HC : 0 <= C * C) by apply Rle_0_sqr.
      assert (Hkk : 0 < k * k) by (apply Rmult_lt_0_compat; assumption).
      assert (Hff : 0 <= (1 - m_friction mat) * (1 - m_friction mat) <= 1)
        by nra.
      assert (HkC : 0 <= k * k * (C * C)) by (apply Rmult_le_pos; lra).
      unfold speed at 1. apply vec_length_le_iff.
      - apply Rmult_le_pos; lra.
      - rewrite Hv'.
        replace (k * speed b * (k * speed b))
          with (k * k * (speed b * speed b)) by ring.
        rewrite Hs2, Hv.
        assert (k * k * (C * C)
                * ((1 - m_friction mat) * (1 - m_friction mat))
                <= k * k * (C * C) * 1)
          by (apply Rmult_le_compat_l; lra).
        lra. }
    rewrite Hr', Hr. unfold BALL_RADIUS.
    rewrite Hr in Hlo, Hhi. unfold BALL_RADIUS in Hlo, Hhi.
    split; [reflexivity|].
    split; [destruct Hpos as [[_ Hp] | [_ Hp]]; rsolve|].
    split; [destruct Hpos as [[_ Hp] | [_ Hp]]; rsolve|].
    split; [exact Hsp|]. split; [discriminate|]. intros _.
    revert Sx1 Sx2 Cx1 Cx2. unfold Rmin, Rmax, Rabs.
    destruct (Rle_dec x1 x2), (Rcase_abs (b_x b' - vp_x p));
      intros; destruct Hpos as [[Hp _] | [Hp _]]; lra.
  - assert (Hb' : b' = b).
    { revert Hc. unfold collide_ball_with_vertical_paddle.
      destruct (vp_burned_out p); [intros H; injection H as <-; reflexivity|].
      destruct (VerticalPaddle.get_segment p) as [[[x1 y1] x2] y2].
      destruct (closest_point_on_segment _ _ _ _ _ _) as [[cx cy] t].
      cbv zeta. destruct (fle _ _);
        [|intros H; injection H as <-; reflexivity].
      destruct (normalize _ _) as [nx ny].
      destruct (VerticalPaddle.material p);
        destruct (feq nx 0 && feq ny 0); unfold reflect; cbn; discriminate. }
    subst b'. repeat split; try assumption; try discriminate. lra.
Qed.

(** One call of the resolver on a well-formed horizontal paddle with a
    registered material: it does not raise, the ball stays between floor
    and ceiling, and a hit puts it 21.5 above or below the paddle with
    at most 1.2936 times its speed plus 520. *)
Lemma collide_horizontal_ok (side : Side) (b : Ball) (p : HorizontalPaddle) :
  HorizontalPaddle_ok side p ->
  dict_mem MATERIALS (hp_material_name p) = true ->
  b_radius b = BALL_RADIUS ->
  FIELD_BOTTOM < b_y b - b_radius b ->
  b_y b + b_radius b < FIELD_TOP ->
  exists (h : bool) (b' : Ball),
    collide_ball_with_horizontal_paddle b p = Ok (h, b')
    /\ b_radius b' = BALL_RADIUS
    /\ FIELD_BOTTOM < b_y b' - b_radius b'
    /\ b_y b' + b_radius b' < FIELD_TOP
    /\ speed b' <= 1.2936 * (speed b + 520)
    /\ (h = false -> b' = b)
    /\ (h = true ->
        b_y b' = FIELD_BOTTOM + 220 + 21.5
        \/ b_y b' = FIELD_BOTTOM + 220 - 21.5).
Proof.
  intros [H1 H2 H3 H4 H5 H6 H7 H8] Hm Hr Hlo Hhi.
  pose proof (vec_length_nonneg (b_vx b) (b_vy b)) as Hs0.
  fold (speed b) in Hs0.
  assert (Hsame : exists (h : bool) (b' : Ball),
            Ok (false, b) = Ok (h, b')
            /\ b_radius b' = BALL_RADIUS
            /\ FIELD_BOTTOM < b_y b' - b_radius b'
            /\ b_y b' + b_radius b' < FIELD_TOP
            /\ speed b' <= 1.2936 * (speed b + 520)
            /\ (h = false -> b' = b)
            /\ (h = true ->
                b_y b' = FIELD_BOTTOM + 220 + 21.5
                \/ b_y b' = FIELD_BOTTOM + 220 - 21.5)).
  { exists false, b. repeat split; try assumption; try discriminate. lra. }
  unfold collide_ball_with_horizontal_paddle.
  destruct (hp_burned_out p); [exact Hsame|]. cbv zeta.
  match goal with
  | |- context [if ?c then _ else _] => destruct c
  end; [|exact Hsame].
  destruct (dict_get_mem MATERIALS _ Hm) as [mat Hmat].
  unfold HorizontalPaddle.material. rewrite Hmat.
  destruct (MATERIALS_horizontal_gain _ _ Hmat) as ([Hk1 Hk2] & [Hg1 Hg2]).
  set (k := m_bounce mat * m_power mat * BALL_BOUNCE_DAMP) in *.
  set (gx := m_bounce mat * (1.0 - m_friction mat) * BALL_BOUNCE_DAMP) in *.
  pose proof (Rabs_pos (b_vy b)) as Habs.
  pose proof (vec_length_ge_abs_y (b_vx b) (b_vy b)) as Hvy.
  fold (speed b) in Hvy.
  pose proof (vec_length_sqr (b_vx b) (b_vy b)) as Hs2.
  fold (speed b) in Hs2.
  assert (Hsq : Rabs (b_vy b) * Rabs (b_vy b) = b_vy b * b_vy b).
  { unfold Rabs. destruct (Rcase_abs (b_vy b)); ring. }
  assert (Hsp : vec_length (b_vx b * gx) ((Rabs (b_vy b) + 520) * k)
                <= 1.2936 * (speed b + 520)).
  { apply vec_length_le_sq; [lra|].
    assert (E1 : b_vx b * gx * (b_vx b * gx)
                 <= 1.2936 * 1.2936 * (b_vx b * b_vx b)).
    { replace (b_vx b * gx * (b_vx b * gx))
        with (gx * gx * (b_vx b * b_vx b)) by ring.
      apply Rmult_le_compat_r; [apply Rle_0_sqr | nra]. }
    assert (E2 : (Rabs (b_vy b) + 520) * k * ((Rabs (b_vy b) + 520) * k)
                 <= 1.2936 * 1.2936
                    * ((Rabs (b_vy b) + 520) * (Rabs (b_vy b) + 520))).
    { replace ((Rabs (b_vy b) + 520) * k * ((Rabs (b_vy b) + 520) * k))
        with (k * k * ((Rabs (b_vy b) + 520) * (Rabs (b_vy b) + 520)))
        by ring.
      apply Rmult_le_compat_r; [apply Rle_0_sqr | nra]. }
    nra. }
  rewrite H3, H4, Hr. unfold HOR_PADDLE_THICKNESS, BALL_RADIUS.
  destruct (fge (b_y b) _); unfold reflect; cbn [bind]; cbv zeta beta iota;
    eexists; eexists; (split; [reflexivity|]);
    cbn [b_x b_y b_vx b_vy b_radius]; unfold speed;
    cbn [b_x b_y b_vx b_vy b_radius].
  - replace (b_vy b - 2 * (b_vx b * 0.0 + b_vy b * 1.0) * 1.0)
      with (- b_vy b) by lra.
    replace (b_vx b - 2 * (b_vx b * 0.0 + b_vy b * 1.0) * 0.0)
      with (b_vx b) by lra.
    rewrite Rabs_Ropp.
    replace (b_vx b * m_bounce mat * (1.0 - m_friction mat) * BALL_BOUNCE_DAMP)
      with (b_vx b * gx) by (unfold gx; ring).
    replace ((Rabs (b_vy b) + 520.0) * (m_bounce mat * m_power mat)
             * BALL_BOUNCE_DAMP)
      with ((Rabs (b_vy b) + 520) * k) by (unfold k; lra).
    repeat split; try rsolve; try discriminate; exact Hsp.
  - replace (b_vy b - 2 * (b_vx b * 0.0 + b_vy b * -1.0) * -1.0)
      with (- b_vy b) by lra.
    replace (b_vx b - 2 * (b_vx b * 0.0 + b_vy b * -1.0) * 0.0)
      with (b_vx b) by lra.
    rewrite Rabs_Ropp.
    replace (b_vx b * m_bounce mat * (1.0 - m_friction mat) * BALL_BOUNCE_DAMP)
      with (b_vx b * gx) by (unfold gx; ring).
    replace ((Rabs (b_vy b) + 520.0) * (m_bounce mat * m_power mat)
             * BALL_BOUNCE_DAMP)
      with ((Rabs (b_vy b) + 520) * k) by (unfold k; lra).
    repeat split; try rsolve; try discriminate; exact Hsp.
Qed.

(** The four resolver calls of a frame: no more than one vertical and
    one horizontal paddle are hit. *)
Lemma on_update_collisions_ok (g : GameView) :
  Player_ok Left (g_player_left g) ->
  Player_ok Right (g_player_right g) ->
  b_radius (g_ball g) = BALL_RADIUS ->
  FIELD_BOTTOM < b_y (g_ball g) - b_radius (g_ball g) ->
  b_y (g_ball g) + b_radius (g_ball g) < FIELD_TOP ->
  exists (h : bool) (b' : Ball),
    GameView.on_update_collisions g = Ok (h, b')
    /\ b_radius b' = BALL_RADIUS
    /\ FIELD_BOTTOM < b_y b' - b_radius b'
    /\ b_y b' + b_radius b' < FIELD_TOP
    /\ speed b' <= 1.2936 * (1.2936 * speed (g_ball g) + 520).
Proof.
  intros Hl Hr Hrad Hlo Hhi.
  set (b := g_ball g) in *.
  pose proof (vec_length_nonneg (b_vx b) (b_vy b)) as Hs0.
  fold (speed b) in Hs0.
  destruct (collide_vertical_ok Left b _ (pok_vert _ _ Hl) Hrad Hlo Hhi)
    as (h1 & b1 & E1 & R1 & L1 & T1 & S1 & F1 & N1).
  assert (V2 : exists (h2 : bool) (b2 : Ball),
             collide_ball_with_vertical_paddle b1 (p_vert (g_player_right g))
             = Ok (h2, b2)
             /\ b_radius b2 = BALL_RADIUS
             /\ FIELD_BOTTOM < b_y b2 - b_radius b2
             /\ b_y b2 + b_radius b2 < FIELD_TOP
             /\ speed b2 <= 1.2936 * speed b).
  { destruct h1.
    - exists false, b1. split; [|repeat split; assumption].
      specialize (N1 eq_refl).
      pose proof (pok_vert _ _ Hl) as Vl. pose proof (pok_vert _ _ Hr) as Vr.
      apply collide_vertical_far.
      + rewrite (vok_length _ _ Vr). rsolve.
      + left. rewrite (vok_length _ _ Vr), (vok_thickness _ _ Vr), R1.
        rewrite (vok_x _ _ Vr). rewrite (vok_x _ _ Vl) in N1.
        cbn [VerticalPaddle.init vp_x] in *.
        revert N1. abs_cases; intros; rsolve.
    - rewrite (F1 eq_refl) in *.
      destruct (collide_vertical_ok Right b _ (pok_vert _ _ Hr) Hrad Hlo Hhi)
        as (h2 & b2 & E2 & R2 & L2 & T2 & S2 & _ & _).
      exists h2, b2. repeat split; assumption. }
  destruct V2 as (h2 & b2 & E2 & R2 & L2 & T2 & S2).
  assert (Hml : dict_mem MATERIALS (hp_material_name (p_horz (g_player_left g)))
                = true).
  { rewrite (pok_material _ _ Hl). apply (vok_material _ _ (pok_vert _ _ Hl)). }
  assert (Hmr : dict_mem MATERIALS (hp_material_name (p_horz (g_player_right g)))
                = true).
  { rewrite (pok_material _ _ Hr). apply (vok_material _ _ (pok_vert _ _ Hr)). }
  pose proof (vec_length_nonneg (b_vx b2) (b_vy b2)) as Hs2.
  fold (speed b2) in Hs2.
  destruct (collide_horizontal_ok Left b2 _ (pok_horz _ _ Hl) Hml R2 L2 T2)
    as (h3 & b3 & E3 & R3 & L3 & T3 & S3 & F3 & N3).
  assert (V4 : exists (h4 : bool) (b4 : Ball),
             collide_ball_with_horizontal_paddle b3 (p_horz (g_player_right g))
             = Ok (h4, b4)
             /\ b_radius b4 = BALL_RADIUS
             /\ FIELD_BOTTOM < b_y b4 - b_radius b4
             /\ b_y b4 + b_radius b4 < FIELD_TOP
             /\ speed b4 <= 1.2936 * (speed b2 + 520)).
  { destruct h3.
    - exists false, b3. split; [|repeat split; assumption].
      specialize (N3 eq_refl).
      pose proof (pok_horz _ _ Hr) as Hh.
      apply collide_horizontal_far.
      rewrite (hok_y _ _ Hh), (hok_thickness _ _ Hh), R3.
      unfold HOR_PADDLE_THICKNESS, BALL_RADIUS.
      destruct N3 as [-> | ->]; [right; right; right | right; right; left];
        lra.
    - rewrite (F3 eq_refl) in *.
      destruct (collide_horizontal_ok Right b2 _ (pok_horz _ _ Hr) Hmr R2 L2 T2)
        as (h4 & b4 & E4 & R4 & L4 & T4 & S4 & _ & _).
      exists h4, b4. repeat split; assumption. }
  destruct V4 as (h4 & b4 & E4 & R4 & L4 & T4 & S4).
  exists (false || h1 || h2 || h3 || h4)%bool, b4.
  split.
  - unfold GameView.on_update_collisions. cbv zeta. fold b.
    rewrite E1. cbn [bind]. rewrite E2. cbn [bind]. rewrite E3. cbn [bind].
    rewrite E4. reflexivity.
  - repeat split; try assumption. lra.
Qed.

(** A playing frame up to the rally boost keeps a well-formed game
    well-formed, but for the goal lines, which the goal test restores. *)
Lemma on_update_playing_ok (dt : R) (rnd : Random) (g : GameView) :
  0 <= dt <= 1 / 30 ->
  GameView_ok g ->
  exists g',
    GameView.on_update_playing dt rnd g = Ok g'
    /\ Player_ok Left (g_player_left g')
    /\ Player_ok Right (g_player_right g')
    /\ p_is_cpu (g_player_left g') = false
    /\ p_is_cpu (g_player_right g') = String.eqb (g_mode g') "cpu"
    /\ EventManager_ok (g_event_manager g')
    /\ g_state g' = g_state g
    /\ g_last_event_timer g' <= 2
    /\ b_radius (g_ball g') = BALL_RADIUS
    /\ FIELD_BOTTOM < b_y (g_ball g') - b_radius (g_ball g')
    /\ b_y (g_ball g') + b_radius (g_ball g') < FIELD_TOP
    /\ speed (g_ball g') <= SPEED_BOUND.
Proof.
  intros Hdt [Gl Gr Gm Gc Gb Ge Gs Gt].
  destruct (EventManager_update_run dt rnd g (eok_events _ Ge))
    as (g1 & E1 & Md & Bl & St & _ & _ & _ & Pl & Pr & Ev & Tm & Nx & Lt).
  assert (Gl1 : Player_ok Left (g_player_left g1)).
  { destruct Pl as [-> | ->]; [|apply apply_player_ok]; exact Gl. }
  assert (Gr1 : Player_ok Right (g_player_right g1)).
  { destruct Pr as [-> | ->]; [|apply apply_player_ok]; exact Gr. }
  assert (Gm1 : p_is_cpu (g_player_left g1) = false).
  { destruct Pl as [-> | ->];
      [|rewrite (proj1 (apply_player_keeps _))]; exact Gm. }
  assert (Gc1 : p_is_cpu (g_player_right g1) = String.eqb (g_mode g1) "cpu").
  { rewrite Md. destruct Pr as [-> | ->];
      [|rewrite (proj1 (apply_player_keeps _))]; exact Gc. }
  set (pl := Player.update dt (g_ball g1) (g_player_left g1)).
  set (pr := Player.update dt (g_ball g1) (g_player_right g1)).
  pose proof (Player_update_ok Left dt (g_ball g1) _ Hdt Gl1) as Gl2.
  pose proof (Player_update_ok Right dt (g_ball g1) _ Hdt Gr1) as Gr2.
  fold pl in Gl2. fold pr in Gr2.
  set (g2 := gv_set_players pl pr g1).
  set (g3 := GameView.on_update_move dt g2).
  assert (B3 : b_radius (g_ball g3) = BALL_RADIUS
               /\ FIELD_BOTTOM < b_y (g_ball g3) - b_radius (g_ball g3)
               /\ b_y (g_ball g3) + b_radius (g_ball g3) < FIELD_TOP
               /\ speed (g_ball g3) <= BALL_MAX_SPEED).
  { unfold g3, GameView.on_update_move, g2. cbn [g_ball gv_set_ball gv_set_players].
    rewrite Bl.
    destruct (on_update_walls_inside (Ball.update dt (g_ball g)))
      as (A & B & C & D).
    - rewrite Ball_update_radius. apply (bok_radius _ Gb).
    - repeat split; try assumption.
      apply Rle_trans with (speed (Ball.update dt (g_ball g)));
        [exact D | apply Ball_update_speed_le]. }
  destruct B3 as (R3 & L3 & T3 & S3).
  destruct (on_update_collisions_ok g3) as (h & b4 & E4 & R4 & L4 & T4 & S4);
    try assumption.
  pose proof (vec_length_nonneg (b_vx (g_ball g3)) (b_vy (g_ball g3))) as Hs0.
  fold (speed (g_ball g3)) in Hs0.
  pose proof (vec_length_nonneg (b_vx b4) (b_vy b4)) as Hs4.
  fold (speed b4) in Hs4.
  eexists. split.
  - unfold GameView.on_update_playing, GameView.on_update_before_ball.
    cbv zeta. rewrite E1. cbn [bind]. fold pl pr g2 g3. rewrite E4.
    cbn [bind]. reflexivity.
  - cbn [g_player_left g_player_right g_mode g_event_manager g_state
         g_last_event_timer g_ball gv_set_ball gv_set_players
         GameView.on_update_move g3 g2].
    unfold g3, GameView.on_update_move, g2.
    cbn [g_player_left g_player_right g_mode g_event_manager g_state
         g_last_event_timer g_ball gv_set_ball gv_set_players].
    split; [exact Gl2|]. split; [exact Gr2|].
    split; [unfold pl; rewrite (proj1 (Player_update_keeps _ _ _)); exact Gm1|].
    split; [unfold pr; rewrite (proj1 (Player_update_keeps _ _ _)); exact Gc1|].
    split.
    { constructor; [exact Ev | | rewrite Tm; pose proof (eok_timer _ Ge); lra].
      rewrite Nx. pose proof (eok_next _ Ge) as Hn.
      destruct (fle _ 0) eqn:E.
      - rsolve.
      - assert (0 < em_next_event_in (g_event_manager g) - dt).
        { destruct (Rle_lt_dec (em_next_event_in (g_event_manager g) - dt) 0)
            as [Hle | Hlt]; [|exact Hlt].
          rewrite fle_true in E by assumption. discriminate. }
        lra. }
    split; [exact St|].
    split; [destruct Lt as [-> | ->]; [exact Gt | lra]|].
    unfold BALL_MAX_SPEED, SPEED_BOUND in *.
    destruct h; cbn [b_radius b_y b_vx b_vy]; repeat split; try assumption.
    + unfold speed. cbn [b_vx b_vy].
      rewrite (Rmult_comm (b_vx b4)), (Rmult_comm (b_vy b4)).
      rewrite vec_length_scale by lra. fold (speed b4). lra.
    + lra.
Qed.

(** *** Resets, goals and the countdown *)

Lemma vec_length_zero : vec_length 0 0 = 0.
Proof. rewrite vec_length_axis_y. apply Rabs_R0. Qed.

Lemma Ball_reset_speed (rnd : Random) (b : Ball) :
  speed (Ball.reset rnd b) <= BALL_BASE_SPEED.
Proof.
  unfold speed, Ball.reset. cbv zeta. cbn [b_vx b_vy].
  pose proof (cos_sin_sqr (rnd_angle rnd)) as Hcs.
  pose proof (Rle_0_sqr (sin (rnd_angle rnd))) as Hs. unfold Rsqr in Hs.
  apply vec_length_le_sq; [rsolve|].
  destruct (random_choice_of_sign (rnd_dir_choice rnd)) as [-> | ->];
    unfold BALL_BASE_SPEED; nra.
Qed.

Lemma Ball_centre_ok (vx vy : R) :
  vec_length vx vy <= SPEED_BOUND ->
  Ball_ok (mkBall FIELD_CENTER_X FIELD_CENTER_Y vx vy BALL_RADIUS).
Proof. intros H. constructor; cbn; try rsolve. exact H. Qed.

Lemma Player_clear_ok (side : Side) (p : Player) :
  Player_ok side p ->
  Player_ok side (Player.set_stun_timer 0.0 (Player.set_burned_out false p)).
Proof.
  intros [H1 H2 H3 H4 H5 H6 H7 H8 H9 H10].
  constructor; cbn; try assumption; try reflexivity.
  - destruct H2. constructor; cbn; try assumption. discriminate.
  - destruct H3. constructor; assumption.
  - rsolve.
Qed.

Lemma Player_set_score_ok (side : Side) (n : Z) (p : Player) :
  (0 <= n)%Z -> Player_ok side p -> Player_ok side (Player.set_score n p).
Proof. intros Hn []. constructor; assumption. Qed.

(** [_reset_round] makes a well-formed game that counts down of every
    game whose players, scheduler and ball radius are in order. *)
Lemma _reset_round_ok (first : bool) (rnd : Random) (g : GameView) :
  Player_ok Left (g_player_left g) ->
  Player_ok Right (g_player_right g) ->
  p_is_cpu (g_player_left g) = false ->
  p_is_cpu (g_player_right g) = String.eqb (g_mode g) "cpu" ->
  EventManager_ok (g_event_manager g) ->
  b_radius (g_ball g) = BALL_RADIUS ->
  g_last_event_timer g <= 2 ->
  GameView_ok (GameView._reset_round first rnd g)
  /\ g_state (GameView._reset_round first rnd g) = countdown.
Proof.
  intros Gl Gr Gm Gc Ge Hr Gt.
  pose proof (Player_clear_ok _ _ Gl) as Cl.
  pose proof (Player_clear_ok _ _ Gr) as Cr.
  assert (Hball : Ball_ok (mkBall FIELD_CENTER_X FIELD_CENTER_Y 0.0 0.0
                             BALL_RADIUS)).
  { apply Ball_centre_ok. replace 0.0 with 0 by lra.
    rewrite vec_length_zero. unfold SPEED_BOUND. lra. }
  unfold GameView._reset_round. cbv zeta.
  split; [|reflexivity].
  destruct first;
    (constructor;
     cbn [g_player_left g_player_right g_mode g_ball g_event_manager g_state
          g_countdown g_countdown_text g_last_event_timer gv_set_players
          gv_set_ball gv_set_state gv_set_countdown Ball.reset b_x b_y
          b_radius];
     [ try apply Player_set_score_ok; try lia; assumption
     | try apply Player_set_score_ok; try lia; assumption
     | exact Gm | exact Gc
     | rewrite Hr; exact Hball
     | exact Ge
     | intros _; constructor;
       cbn [g_player_left g_player_right g_ball g_countdown g_countdown_text
            gv_set_players gv_set_ball gv_set_state gv_set_countdown
            Ball.reset b_x b_y b_radius Player.set_score Player.set_stun_timer
            Player.set_burned_out VerticalPaddle.set_burned_out p_vert
            p_stun_timer vp_burned_out];
       [ lra
       | unfold countdown_label; rewrite fgt_true by lra; reflexivity
       | rewrite Hr; reflexivity
       | reflexivity | reflexivity | lra | lra ]
     | exact Gt ]).
Qed.

(** The goal test restores the goal lines: a ball beyond one of them
    starts a new round. *)
Lemma on_update_goal_ok (rnd : Random) (g : GameView) :
  Player_ok Left (g_player_left g) ->
  Player_ok Right (g_player_right g) ->
  p_is_cpu (g_player_left g) = false ->
  p_is_cpu (g_player_right g) = String.eqb (g_mode g) "cpu" ->
  EventManager_ok (g_event_manager g) ->
  g_state g <> countdown ->
  g_last_event_timer g <= 2 ->
  b_radius (g_ball g) = BALL_RADIUS ->
  FIELD_BOTTOM < b_y (g_ball g) - b_radius (g_ball g) ->
  b_y (g_ball g) + b_radius (g_ball g) < FIELD_TOP ->
  speed (g_ball g) <= SPEED_BOUND ->
  GameView_ok (GameView.on_update_goal rnd g).
Proof.
  intros Gl Gr Gm Gc Ge Gs Gt Hr Hlo Hhi Hsp.
  unfold GameView.on_update_goal. cbv zeta.
  destruct (Rlt_le_dec (b_x (g_ball g) + b_radius (g_ball g)) FIELD_LEFT)
    as [Hl | Hl].
  - rewrite flt_true by assumption.
    apply _reset_round_ok; cbn; try assumption.
    apply Player_set_score_ok; [pose proof (pok_score _ _ Gr); lia | exact Gr].
  - rewrite flt_false by assumption.
    destruct (Rle_lt_dec (b_x (g_ball g) - b_radius (g_ball g)) FIELD_RIGHT)
      as [Hg | Hg].
    + rewrite fgt_false by assumption.
      constructor; try assumption.
      * constructor; assumption.
      * intros H. contradiction.
    + rewrite fgt_true by lra.
      apply _reset_round_ok; cbn; try assumption.
      apply Player_set_score_ok;
        [pose proof (pok_score _ _ Gl); lia | exact Gl].
Qed.

Lemma Player_update_idle_stun (dt : R) (ball : Ball) (p : Player) :
  p_stun_timer p <= 0 ->
  p_stun_timer (Player.update dt ball p) <= 0.
Proof.
  intros H. rewrite Player_update_stun_timer, fgt_false by assumption.
  exact H.
Qed.

Lemma on_update_countdown_ok (dt : R) (rnd : Random) (g : GameView) :
  0 <= dt <= 1 / 30 ->
  GameView_ok g ->
  g_state g = countdown ->
  GameView_ok (GameView.on_update_countdown dt rnd g).
Proof.
  intros Hdt [Gl Gr Gm Gc Gb Ge Gs Gt] Hst.
  destruct (Gs Hst) as [Rc Rt Rb Rlb Rrb Rls Rrs].
  unfold GameView.on_update_countdown. cbv zeta.
  cbn [g_countdown gv_set_countdown].
  set (c := g_countdown g - dt).
  assert (Hlabel : forall g0,
             g_player_left g0 = g_player_left g ->
             g_player_right g0 = g_player_right g ->
             g_mode g0 = g_mode g ->
             g_ball g0 = g_ball g ->
             g_event_manager g0 = g_event_manager g ->
             g_last_event_timer g0 = g_last_event_timer g ->
             g_state g0 = countdown ->
             g_countdown g0 = c ->
             g_countdown_text g0 = countdown_label c ->
             0 < c ->
             GameView_ok
               (gv_set_players
                  (Player.update dt (g_ball g0) (g_player_left g0))
                  (Player.update dt (g_ball g0) (g_player_right g0)) g0)).
  { intros g0 Pl Pr Md Bl Em Lt St Cd Tx Hc.
    rewrite Pl, Pr, Bl.
    destruct (Player_update_keeps dt (g_ball g) (g_player_left g))
      as (Kl1 & Kl2 & _).
    destruct (Player_update_keeps dt (g_ball g) (g_player_right g))
      as (Kr1 & Kr2 & _).
    constructor;
      cbn [g_player_left g_player_right g_mode g_ball g_event_manager g_state
           g_countdown g_countdown_text g_last_event_timer gv_set_players].
    - apply Player_update_ok; assumption.
    - apply Player_update_ok; assumption.
    - rewrite Kl1. exact Gm.
    - rewrite Kr1, Md. exact Gc.
    - rewrite Bl. exact Gb.
    - rewrite Em. exact Ge.
    - intros _. constructor;
        cbn [g_player_left g_player_right g_ball g_countdown
             g_countdown_text gv_set_players].
      + rewrite Cd. unfold c in Hc |- *. lra.
      + rewrite Cd. exact Tx.
      + rewrite Bl. exact Rb.
      + rewrite Kl2. exact Rlb.
      + rewrite Kr2. exact Rrb.
      + apply Player_update_idle_stun. exact Rls.
      + apply Player_update_idle_stun. exact Rrs.
    - rewrite Lt. exact Gt. }
  destruct (Rlt_le_dec 0 c) as [Hc | Hc].
  - assert (Hg0 : exists g0,
               (if fgt c 2
                then gv_set_countdown c "3"
                       (gv_set_countdown c (g_countdown_text g) g)
                else if fgt c 1
                then gv_set_countdown c "2"
                       (gv_set_countdown c (g_countdown_text g) g)
                else if fgt c 0
                then gv_set_countdown c "1"
                       (gv_set_countdown c (g_countdown_text g) g)
                else GameView._start_ball_after_countdown rnd
                       (gv_set_state playing
                          (gv_set_countdown c (g_countdown_text g) g)))
               = g0
               /\ g_player_left g0 = g_player_left g
               /\ g_player_right g0 = g_player_right g
               /\ g_mode g0 = g_mode g
               /\ g_ball g0 = g_ball g
               /\ g_event_manager g0 = g_event_manager g
               /\ g_last_event_timer g0 = g_last_event_timer g
               /\ g_state g0 = countdown
               /\ g_countdown g0 = c
               /\ g_countdown_text g0 = countdown_label c).
    { unfold countdown_label.
      destruct (fgt c 2); [|destruct (fgt c 1)];
        [| |rewrite (fgt_true c 0) by lra];
        eexists; (split; [reflexivity|]); cbn; repeat split; assumption. }
    destruct Hg0 as (g0 & -> & Pl & Pr & Md & Bl & Em & Lt & St & Cd & Tx).
    apply Hlabel; assumption.
  - rewrite (fgt_false c 2), (fgt_false c 1), (fgt_false c 0) by lra.
    unfold GameView._start_ball_after_countdown.
    cbn [g_ball gv_set_ball gv_set_state gv_set_countdown g_player_left
         g_player_right].
    destruct (Player_update_keeps dt (Ball.reset rnd (g_ball g))
                (g_player_left g)) as (Kl1 & _).
    destruct (Player_update_keeps dt (Ball.reset rnd (g_ball g))
                (g_player_right g)) as (Kr1 & _).
    constructor;
      cbn [g_player_left g_player_right g_mode g_ball g_event_manager g_state
           g_countdown g_countdown_text g_last_event_timer gv_set_players
           gv_set_ball gv_set_state gv_set_countdown].
    + apply Player_update_ok; assumption.
    + apply Player_update_ok; assumption.
    + rewrite Kl1. exact Gm.
    + rewrite Kr1. exact Gc.
    + pose proof (Ball_reset_speed rnd (g_ball g)) as Hs.
      unfold Ball.reset in *. cbv zeta in *. rewrite (bok_radius _ Gb).
      apply Ball_centre_ok. unfold speed in Hs. cbn [b_vx b_vy] in Hs.
      unfold SPEED_BOUND, BALL_BASE_SPEED in *. lra.
    + exact Ge.
    + discriminate.
    + exact Gt.
Qed.

(** *** The calls of the host *)

(** A call that only steers keeps a well-formed game well-formed. *)
Lemma GameView_ok_steer (g g' : GameView) :
  GameView_ok g ->
  g_mode g' = g_mode g ->
  g_ball g' = g_ball g ->
  g_event_manager g' = g_event_manager g ->
  g_countdown g' = g_countdown g ->
  g_countdown_text g' = g_countdown_text g ->
  g_last_event_timer g' <= 2 ->
  (g_state g' = countdown -> g_state g = countdown) ->
  Player_ok Left (g_player_left g') ->
  Player_ok Right (g_player_right g') ->
  p_is_cpu (g_player_left g') = p_is_cpu (g_player_left g) ->
  p_is_cpu (g_player_right g') = p_is_cpu (g_player_right g) ->
  (vp_burned_out (p_vert (g_player_left g'))
   = vp_burned_out (p_vert (g_player_left g))
   \/ vp_burned_out (p_vert (g_player_left g')) = false) ->
  (vp_burned_out (p_vert (g_player_right g'))
   = vp_burned_out (p_vert (g_player_right g))
   \/ vp_burned_out (p_vert (g_player_right g')) = false) ->
  p_stun_timer (g_player_left g') = p_stun_timer (g_player_left g) ->
  p_stun_timer (g_player_right g') = p_stun_timer (g_player_right g) ->
  GameView_ok g'.
Proof.
  intros [Gl Gr Gm Gc Gb Ge Gs Gt] Md Bl Em Cd Tx Lt St Pl Pr Cl Cr Bbl Bbr
    Sl Sr.
  constructor; try assumption.
  - rewrite Cl. exact Gm.
  - rewrite Cr, Md. exact Gc.
  - rewrite Bl. exact Gb.
  - rewrite Em. exact Ge.
  - intros H. destruct (Gs (St H)) as [Rc Rt Rb Rlb Rrb Rls Rrs].
    constructor.
    + rewrite Cd. exact Rc.
    + rewrite Cd, Tx. exact Rt.
    + rewrite Bl. exact Rb.
    + destruct Bbl as [-> | ->]; [exact Rlb | reflexivity].
    + destruct Bbr as [-> | ->]; [exact Rrb | reflexivity].
    + rewrite Sl. exact Rls.
    + rewrite Sr. exact Rrs.
Qed.

Ltac intent :=
  first [ assumption | left; lra | right; left; lra | right; right; lra ].

Ltac steer_goal :=
  first [ reflexivity
        | assumption
        | left; reflexivity
        | discriminate
        | congruence
        | apply Player_set_moves_ok; [intent | intent | assumption] ].

Lemma on_key_press_ok (k : Key) (g : GameView) :
  GameView_ok g -> GameView_ok (GameView.on_key_press k g).
Proof.
  intros H. pose proof H as [Gl Gr Gm Gc Gb Ge Gs Gt].
  pose proof (pok_move_vert _ _ Gl). pose proof (pok_move_horz _ _ Gl).
  pose proof (pok_move_vert _ _ Gr). pose proof (pok_move_horz _ _ Gr).
  apply (GameView_ok_steer g); [exact H | ..];
    unfold GameView.on_key_press, GameView._toggle_pause,
      GameView._toggle_material_target;
    destruct k; cbn; destruct (g_state g) eqn:Est; cbn;
    destruct (p_is_cpu (g_player_right g)) eqn:Ecpu; cbn; steer_goal.
Qed.

Lemma on_key_release_ok (k : Key) (g : GameView) :
  GameView_ok g -> GameView_ok (GameView.on_key_release k g).
Proof.
  intros H. pose proof H as [Gl Gr Gm Gc Gb Ge Gs Gt].
  pose proof (pok_move_vert _ _ Gl). pose proof (pok_move_horz _ _ Gl).
  pose proof (pok_move_vert _ _ Gr). pose proof (pok_move_horz _ _ Gr).
  apply (GameView_ok_steer g); [exact H | ..];
    unfold GameView.on_key_release;
    destruct k; cbn;
    destruct (p_is_cpu (g_player_right g)) eqn:Ecpu; cbn; steer_goal.
Qed.

Lemma _apply_material_ok (name : string) (g : GameView) :
  dict_mem MATERIALS name = true ->
  GameView_ok g -> GameView_ok (GameView._apply_material name g).
Proof.
  intros Hn H. pose proof H as [Gl Gr Gm Gc Gb Ge Gs Gt].
  apply (GameView_ok_steer g); [exact H | ..];
    unfold GameView._apply_material;
    destruct (g_selected_player_for_material g); cbn;
    first [ steer_goal
          | right; reflexivity
          | apply Player_set_material_ok; assumption ].
Qed.

Lemma _toggle_pause_ok (g : GameView) :
  GameView_ok g -> GameView_ok (GameView._toggle_pause g).
Proof.
  intros H. pose proof H as [Gl Gr Gm Gc Gb Ge Gs Gt].
  apply (GameView_ok_steer g); [exact H | ..];
    unfold GameView._toggle_pause; destruct (g_state g) eqn:Est; cbn;
    steer_goal.
Qed.

Lemma on_update_message_ok (dt : R) (g : GameView) :
  0 <= dt ->
  GameView_ok g -> GameView_ok (GameView.on_update_message dt g).
Proof.
  intros Hdt H. pose proof H as [Gl Gr Gm Gc Gb Ge Gs Gt].
  apply (GameView_ok_steer g); [exact H | ..];
    unfold GameView.on_update_message;
    destruct (fgt (g_last_event_timer g) 0) eqn:E; cbn;
    first [ steer_goal | lra | intros; assumption ].
Qed.

(** A frame on a well-formed game does not raise and leaves a
    well-formed game. *)
Lemma on_update_ok (dt : R) (rnd : Random) (g : GameView) :
  0 <= dt ->
  GameView_ok g ->
  exists g', GameView.on_update dt rnd g = Ok g' /\ GameView_ok g'.
Proof.
  intros Hdt H. unfold GameView.on_update, GameView.on_update_step.
  cbv zeta.
  assert (Hd : 0 <= Rmin dt (1 / 30) <= 1 / 30).
  { split; [apply Rmin_glb; lra | apply Rmin_r]. }
  set (d := Rmin dt (1 / 30)) in *.
  pose proof (on_update_message_ok d g (proj1 Hd) H) as H1.
  set (g1 := GameView.on_update_message d g) in *.
  destruct (g_state g1) eqn:Est.
  - eexists. split; [reflexivity|].
    apply on_update_countdown_ok; assumption.
  - destruct (on_update_playing_ok d rnd g1 Hd H1)
      as (g2 & E2 & Gl & Gr & Gm & Gc & Ge & St & Lt & Br & Bb & Bt & Bs).
    rewrite E2. cbn [bind]. eexists. split; [reflexivity|].
    apply on_update_goal_ok; try assumption.
    rewrite St, Est. discriminate.
  - eexists. split; [reflexivity | exact H1].
Qed.

Lemma Host_call_ok (c : HostCall) (g : GameView) :
  Host_valid c ->
  GameView_ok g ->
  exists g', Host_call c g = Ok g' /\ GameView_ok g'.
Proof.
  intros Hc H. destruct c as [dt rnd | k | k | name |]; cbn [Host_call].
  - apply on_update_ok; [apply Hc | exact H].
  - eexists. split; [reflexivity | apply on_key_press_ok; exact H].
  - eexists. split; [reflexivity | apply on_key_release_ok; exact H].
  - eexists. split; [reflexivity | apply _apply_material_ok; [exact Hc | exact H]].
  - eexists. split; [reflexivity | apply _toggle_pause_ok; exact H].
Qed.

Lemma VerticalPaddle_init_ok (side : Side) :
  VerticalPaddle_ok side (VerticalPaddle.init side).
Proof.
  constructor; cbn; try reflexivity; try rsolve; discriminate.
Qed.

Lemma HorizontalPaddle_init_ok (side : Side) :
  HorizontalPaddle_ok side (HorizontalPaddle.init side).
Proof.
  constructor; cbn; try reflexivity; try rsolve.
  destruct side; cbn; rsolve.
Qed.

Lemma Player_init_ok (side : Side) (is_cpu : bool) :
  Player_ok side (Player.init side is_cpu).
Proof.
  constructor; cbn; try reflexivity; try lia; try rsolve.
  - apply VerticalPaddle_init_ok.
  - apply HorizontalPaddle_init_ok.
Qed.

Lemma on_show_view_ok (mode : string) (rnd : Random) :
  GameView_ok (GameView.on_show_view rnd (GameView.init mode)).
Proof.
  unfold GameView.on_show_view.
  apply _reset_round_ok; cbn; try reflexivity; try apply Player_init_ok.
  - constructor; cbn; [reflexivity | rsolve | lra].
  - lra.
Qed.

Lemma Host_calls_ok (cs : list HostCall) (g : GameView) :
  Forall Host_valid cs ->
  GameView_ok g ->
  exists g', Host_calls cs g = Ok g' /\ GameView_ok g'.
Proof.
  intros Hcs. revert g. induction Hcs as [| c cs Hc Hcs IH]; intros g H.
  - exists g. split; [reflexivity | exact H].
  - destruct (Host_call_ok c g Hc H) as (g1 & E1 & H1).
    destruct (IH g1 H1) as (g2 & E2 & H2).
    exists g2. split; [|exact H2].
    cbn [Host_calls]. rewrite E1. exact E2.
Qed.

(** Every state that the host can reach is well-formed. *)
Lemma reachable_ok (g : GameView) : reachable g -> GameView_ok g.
Proof.
  intros (mode & rnd & cs & _ & _ & Hcs & Hrun).
  destruct (Host_calls_ok cs _ Hcs (on_show_view_ok mode rnd))
    as (g' & E & H).
  rewrite E in Hrun. injection Hrun as <-. exact H.
Qed.

(** ** What holds in every reachable state *)

Lemma on_show_view_reachable (mode : string) (rnd : Random) :
  mode = "cpu"%string \/ mode = "pvp"%string ->
  Random_valid rnd ->
  reachable (GameView.on_show_view rnd (GameView.init mode)).
Proof.
  intros Hm Hr. exists mode, rnd, [].
  split; [exact Hm|]. split; [exact Hr|]. split; [constructor | reflexivity].
Qed.

Lemma rnd0_valid : Random_valid rnd0.
Proof. unfold Random_valid. cbn. lra. Qed.

Lemma reachable_calls (cs : list HostCall) (g g' : GameView) :
  reachable g -> Forall Host_valid cs -> Host_calls cs g = Ok g' ->
  reachable g'.
Proof.
  intros (mode & rnd & cs0 & Hm & Hr & Hv & Hrun) Hcs Hcalls.
  exists mode, rnd, (cs0 ++ cs).
  split; [exact Hm|]. split; [exact Hr|]. split.
  - apply Forall_app. split; assumption.
  - rewrite Host_calls_app, Hrun. exact Hcalls.
Qed.

(** X18.  The game does not crash.  From every reachable state, every
    sequence of frames with [dt >= 0], key events, pause clicks and
    clicks on the buttons of registered materials runs to the end: no
    material lookup raises [KeyError] and no [random.choice] raises
    [IndexError]. *)
Theorem reachable_never_raises (g : GameView) (cs : list HostCall) :
  reachable g ->
  Forall Host_valid cs ->
  exists g', Host_calls cs g = Ok g' /\ reachable g'.
Proof.
  intros Hg Hcs.
  destruct (Host_calls_ok cs g Hcs (reachable_ok g Hg)) as (g' & E & _).
  exists g'. split; [exact E|].
  exact (reachable_calls cs g g' Hg Hcs E).
Qed.

Lemma reachable_never_raises_witness :
  exists g',
    Host_calls [Host_on_key_press K_W; frame; Host_apply_material steel; frame]
      rally_9 = Ok g'
    /\ reachable g'.
Proof.
  apply (reachable_never_raises rally_9).
  - exact rally_9_reachable.
  - repeat constructor; cbn; lra.
Defined.

(** X19.  The ball stays in the field and its speed stays bounded.  In
    every reachable state the ball has the radius [BALL_RADIUS], lies
    strictly between floor and ceiling, is not wholly beyond a goal
    line, and is not faster than 3384: the cap of [Ball.update] followed
    by one hit of a vertical paddle, one hit of a horizontal paddle and
    the rally boost, all that one frame can add. *)
Theorem ball_stays_in_field (g : GameView) :
  reachable g ->
  b_radius (g_ball g) = BALL_RADIUS
  /\ FIELD_BOTTOM < b_y (g_ball g) - b_radius (g_ball g)
  /\ b_y (g_ball g) + b_radius (g_ball g) < FIELD_TOP
  /\ FIELD_LEFT <= b_x (g_ball g) + b_radius (g_ball g)
  /\ b_x (g_ball g) - b_radius (g_ball g) <= FIELD_RIGHT
  /\ speed (g_ball g) <= 3384.
Proof.
  intros Hg. destruct (gok_ball _ (reachable_ok g Hg)) as [H1 H2 H3 H4 H5 H6].
  repeat split; assumption.
Qed.

Lemma ball_stays_in_field_witness :
  FIELD_BOTTOM < b_y (g_ball rally_9) - b_radius (g_ball rally_9)
  /\ speed (g_ball rally_9) <= 3384.
Proof.
  destruct (ball_stays_in_field rally_9 rally_9_reachable)
    as (_ & H1 & _ & _ & _ & H2).
  split; assumption.
Defined.

(** X20.  The players stay in order.  In every reachable state, for
    each player: both paddles carry the same material, which is
    registered in [MATERIALS], and the same burned and enabled flags;
    only wooden paddles are burned out; both paddles are inside their
    ranges and keep the size and the fixed coordinate they were built
    with; the intents are -1, 0 or 1; the score is not negative.  The
    left player is never automatic, the right one exactly in the mode
    ["cpu"]. *)
Theorem players_stay_in_order (g : GameView) (p : Player) (side : Side) :
  reachable g ->
  (side = Left /\ p = g_player_left g)
  \/ (side = Right /\ p = g_player_right g) ->
  p_side p = side
  /\ hp_material_name (p_horz p) = vp_material_name (p_vert p)
  /\ dict_mem MATERIALS (vp_material_name (p_vert p)) = true
  /\ hp_burned_out (p_horz p) = vp_burned_out (p_vert p)
  /\ hp_enabled (p_horz p) = vp_enabled (p_vert p)
  /\ (vp_burned_out (p_vert p) = true -> vp_material_name (p_vert p) = wood)
  /\ vp_x (p_vert p) = vp_x (VerticalPaddle.init side)
  /\ FIELD_BOTTOM + VERT_PADDLE_LENGTH / 2 <= vp_y (p_vert p)
       <= FIELD_TOP - VERT_PADDLE_LENGTH / 2
  /\ hp_y (p_horz p) = hp_y (HorizontalPaddle.init side)
  /\ hp_min_x (HorizontalPaddle.init side) <= hp_x (p_horz p)
       <= hp_max_x (HorizontalPaddle.init side)
  /\ vp_length (p_vert p) = VERT_PADDLE_LENGTH
  /\ hp_width (p_horz p) = HOR_PADDLE_WIDTH
  /\ (p_move_vert p = -1 \/ p_move_vert p = 0 \/ p_move_vert p = 1)
  /\ (p_move_horz p = -1 \/ p_move_horz p = 0 \/ p_move_horz p = 1)
  /\ (0 <= p_score p)%Z
  /\ p_is_cpu p = match side with
                  | Left => false
                  | Right => String.eqb (g_mode g) "cpu"
                  end.
Proof.
  intros Hg Hp. pose proof (reachable_ok g Hg) as [Gl Gr Gm Gc _ _ _ _].
  assert (Hok : Player_ok side p
                /\ p_is_cpu p = match side with
                                | Left => false
                                | Right => String.eqb (g_mode g) "cpu"
                                end).
  { destruct Hp as [[-> ->] | [-> ->]]; split; assumption. }
  destruct Hok as [[H1 H2 H3 H4 H5 H6 H7 H8 H9 H10] Hcpu].
  destruct H2 as [V1 V2 V3 V4 V5 V6 V7 V8 V9].
  destruct H3 as [W1 W2 W3 W4 W5 W6 W7 W8].
  rewrite <- W6, <- W7.
  repeat split; try assumption; try apply V7; apply W8.
Qed.

Lemma players_stay_in_order_witness :
  hp_material_name (p_horz (g_player_left rally_9))
  = vp_material_name (p_vert (g_player_left rally_9))
  /\ dict_mem MATERIALS (vp_material_name (p_vert (g_player_left rally_9)))
     = true.
Proof.
  destruct (players_stay_in_order rally_9 (g_player_left rally_9) Left
              rally_9_reachable (or_introl (conj eq_refl eq_refl)))
    as (_ & H1 & H2 & _).
  split; assumption.
Defined.

(** X21.  Every round starts clean.  In every reachable state that
    counts down, the countdown is positive and at most 3, the label
    shows the second that is running, the ball rests in the centre of
    the field, and no player is burned out or stunned. *)
Theorem countdown_starts_clean (g : GameView) :
  reachable g ->
  g_state g = countdown ->
  0 < g_countdown g <= 3
  /\ g_countdown_text g
     = (if fgt (g_countdown g) 2 then "3"
        else if fgt (g_countdown g) 1 then "2" else "1")%string
  /\ g_ball g = mkBall FIELD_CENTER_X FIELD_CENTER_Y 0.0 0.0 BALL_RADIUS
  /\ vp_burned_out (p_vert (g_player_left g)) = false
  /\ hp_burned_out (p_horz (g_player_left g)) = false
  /\ vp_burned_out (p_vert (g_player_right g)) = false
  /\ hp_burned_out (p_horz (g_player_right g)) = false
  /\ p_stun_timer (g_player_left g) <= 0
  /\ p_stun_timer (g_player_right g) <= 0.
Proof.
  intros Hg Hst. pose proof (reachable_ok g Hg) as [Gl Gr _ _ _ _ Gs _].
  destruct (Gs Hst) as [R1 R2 R3 R4 R5 R6 R7].
  pose proof (pok_burned _ _ Gl) as Bl. pose proof (pok_burned _ _ Gr) as Br.
  repeat split; try assumption; try apply R1; congruence.
Qed.

Lemma countdown_starts_clean_witness :
  g_ball (GameView.on_show_view rnd0 (GameView.init "cpu"))
  = mkBall FIELD_CENTER_X FIELD_CENTER_Y 0.0 0.0 BALL_RADIUS.
Proof.
  destruct (countdown_starts_clean
              (GameView.on_show_view rnd0 (GameView.init "cpu"))
              (on_show_view_reachable "cpu" rnd0 (or_introl eq_refl)
                 rnd0_valid)
              eq_refl) as (_ & _ & H & _).
  exact H.
Defined.

(** X22.  The timers stay in their ranges.  In every reachable state
    the scheduler still holds its one event, the time to the next event
    is positive and at most [EVENT_INTERVAL], each stun timer is at most
    [FIRE_STUN_DURATION] and above [-1/30], and the timer of the event
    message is at most 2. *)
Theorem timers_stay_in_range (g : GameView) :
  reachable g ->
  em_events (g_event_manager g) = [FireEvent]
  /\ 0 < em_next_event_in (g_event_manager g) <= EVENT_INTERVAL
  /\ 0 <= em_timer (g_event_manager g)
  /\ - (1 / 30) < p_stun_timer (g_player_left g) <= FIRE_STUN_DURATION
  /\ - (1 / 30) < p_stun_timer (g_player_right g) <= FIRE_STUN_DURATION
  /\ g_last_event_timer g <= 2.
Proof.
  intros Hg. pose proof (reachable_ok g Hg) as [Gl Gr _ _ _ Ge _ Gt].
  destruct Ge as [E1 E2 E3].
  pose proof (pok_stun _ _ Gl). pose proof (pok_stun _ _ Gr).
  repeat split; try assumption; lra.
Qed.

Lemma timers_stay_in_range_witness :
  0 < em_next_event_in (g_event_manager rally_9) <= EVENT_INTERVAL.
Proof.
  destruct (timers_stay_in_range rally_9 rally_9_reachable)
    as (_ & H & _).
  exact H.
Defined.

(** ** Scoring *)

Lemma on_update_countdown_score (dt : R) (rnd : Random) (g : GameView) :
  let g' := GameView.on_update_countdown dt rnd g in
  p_score (g_player_left g') = p_score (g_player_left g)
  /\ p_score (g_player_right g') = p_score (g_player_right g).
Proof.
  cbv zeta. unfold GameView.on_update_countdown. cbv zeta.
  cbn [g_player_left g_player_right gv_set_players].
  rewrite !Player_update_score.
  destruct (fgt _ 2); [|destruct (fgt _ 1); [|destruct (fgt _ 0)]];
    split; reflexivity.
Qed.

Lemma on_update_goal_score (rnd : Random) (g : GameView) :
  let g' := GameView.on_update_goal rnd g in
  g' = g
  \/ (g_state g' = countdown
      /\ g_countdown g' = 3
      /\ b_x (g_ball g') = FIELD_CENTER_X
      /\ b_y (g_ball g') = FIELD_CENTER_Y
      /\ b_vx (g_ball g') = 0
      /\ b_vy (g_ball g') = 0
      /\ ((b_x (g_ball g) + b_radius (g_ball g) < FIELD_LEFT
           /\ p_score (g_player_left g') = p_score (g_player_left g)
           /\ p_score (g_player_right g')
              = (p_score (g_player_right g) + 1)%Z)
          \/ (FIELD_RIGHT < b_x (g_ball g) - b_radius (g_ball g)
              /\ p_score (g_player_left g')
                 = (p_score (g_player_left g) + 1)%Z
              /\ p_score (g_player_right g') = p_score (g_player_right g)))).
Proof.
  cbv zeta. unfold GameView.on_update_goal. cbv zeta.
  destruct (Rlt_le_dec (b_x (g_ball g) + b_radius (g_ball g)) FIELD_LEFT)
    as [Hl | Hl].
  - rewrite flt_true by assumption. right.
    unfold GameView._reset_round. cbn.
    repeat split; try lra. left. repeat split. exact Hl.
  - rewrite flt_false by assumption.
    destruct (Rle_lt_dec (b_x (g_ball g) - b_radius (g_ball g)) FIELD_RIGHT)
      as [Hg | Hg].
    + rewrite fgt_false by assumption. left. reflexivity.
    + rewrite fgt_true by lra. right.
      unfold GameView._reset_round. cbn.
      repeat split; try lra. right. repeat split. exact Hg.
Qed.

(** X23.  Points are only made by goals.  A call of the host leaves
    both scores as they are, or it is a frame of a game in play that
    ends with the ball wholly beyond a goal line: then exactly one
    score grows by one, the one of the player opposite to that line,
    and the game counts down from 3 again with the ball at rest in the
    centre of the field. *)
Theorem points_only_by_goals (c : HostCall) (g g' : GameView) :
  Host_call c g = Ok g' ->
  (p_score (g_player_left g') = p_score (g_player_left g)
   /\ p_score (g_player_right g') = p_score (g_player_right g))
  \/ ((exists dt rnd, c = Host_on_update dt rnd)
      /\ g_state g = playing
      /\ g_state g' = countdown
      /\ g_countdown g' = 3
      /\ b_x (g_ball g') = FIELD_CENTER_X
      /\ b_y (g_ball g') = FIELD_CENTER_Y
      /\ b_vx (g_ball g') = 0
      /\ b_vy (g_ball g') = 0
      /\ ((p_score (g_player_left g') = p_score (g_player_left g)
           /\ p_score (g_player_right g')
              = (p_score (g_player_right g) + 1)%Z)
          \/ (p_score (g_player_left g')
              = (p_score (g_player_left g) + 1)%Z
              /\ p_score (g_player_right g') = p_score (g_player_right g)))).
Proof.
  destruct c as [dt rnd | k | k | name |]; cbn [Host_call]; intros H.
  - unfold GameView.on_update, GameView.on_update_step in H. cbv zeta in H.
    set (d := Rmin dt (1 / 30)) in *.
    destruct (on_update_message_keeps d g) as (Ms & _ & Ml & Mr).
    cbv zeta in Ms, Ml, Mr.
    set (g1 := GameView.on_update_message d g) in *.
    destruct (g_state g1) eqn:Est.
    + injection H as <-. left.
      destruct (on_update_countdown_score d rnd g1) as [-> ->].
      rewrite Ml, Mr. split; reflexivity.
    + apply bind_Ok in H. destruct H as (g2 & E2 & H). injection H as <-.
      destruct (on_update_playing_keeps d rnd g1 g2 E2) as (Kl & Kr & _ & _).
      destruct (on_update_goal_score rnd g2)
        as [-> | (Gs & Gc & Gx & Gy & Gvx & Gvy & Gsc)].
      * left. rewrite Kl, Kr, Ml, Mr. split; reflexivity.
      * right. split; [exists dt, rnd; reflexivity|].
        split; [symmetry; exact Ms|].
        repeat (split; [assumption|]).
        rewrite <- Ml, <- Mr, <- Kl, <- Kr.
        destruct Gsc as [(_ & A & B) | (_ & A & B)];
          [left | right]; split; assumption.
    + injection H as <-. left. rewrite Ml, Mr. split; reflexivity.
  - injection H as <-. left.
    unfold GameView.on_key_press, GameView._toggle_pause,
      GameView._toggle_material_target.
    destruct k; cbn; destruct (g_state g); cbn;
      destruct (p_is_cpu (g_player_right g)); split; reflexivity.
  - injection H as <-. left. unfold GameView.on_key_release.
    destruct k; cbn; destruct (p_is_cpu (g_player_right g));
      split; reflexivity.
  - injection H as <-. left. unfold GameView._apply_material.
    destruct (g_selected_player_for_material g); split; reflexivity.
  - injection H as <-. left. unfold GameView._toggle_pause.
    destruct (g_state g); split; reflexivity.
Qed.

Lemma points_only_by_goals_witness :
  exists g',
    Host_call frame rally_9 = Ok g'
    /\ ((p_score (g_player_left g') = p_score (g_player_left rally_9)
         /\ p_score (g_player_right g') = p_score (g_player_right rally_9))
        \/ g_state g' = countdown).
Proof.
  destruct (Host_call_ok frame rally_9 frame_valid
              (reachable_ok rally_9 rally_9_reachable)) as (g' & E & _).
  exists g'. split; [exact E|].
  destruct (points_only_by_goals frame rally_9 g' E)
    as [H | (_ & _ & H & _)]; [left | right]; exact H.
Defined.

(** ** The length of the countdown *)

Lemma on_update_message_countdown (dt : R) (g : GameView) :
  g_countdown (GameView.on_update_message dt g) = g_countdown g.
Proof.
  unfold GameView.on_update_message. destruct (fgt _ _); reflexivity.
Qed.

(** One call on a game that counts down: only a frame takes time off the
    countdown, and never more than 1/30. *)
Lemma Host_call_countdown (c : HostCall) (g : GameView) :
  g_state g = countdown ->
  (if not_a_frame c then 0 else 1 / 30) < g_countdown g ->
  exists g',
    Host_call c g = Ok g'
    /\ g_state g' = countdown
    /\ g_ball g' = g_ball g
    /\ g_countdown g - (if not_a_frame c then 0 else 1 / 30)
       <= g_countdown g'.
Proof.
  intros Hst Hc.
  destruct c as [dt rnd | k | k | name |]; cbn [Host_call not_a_frame] in *.
  - unfold GameView.on_update, GameView.on_update_step. cbv zeta.
    pose proof (Rmin_r dt (1 / 30)) as Hd.
    set (d := Rmin dt (1 / 30)) in *.
    destruct (on_update_message_keeps d g) as (Ms & Mb & _ & _).
    cbv zeta in Ms, Mb.
    pose proof (on_update_message_countdown d g) as Mc.
    set (g1 := GameView.on_update_message d g) in *.
    rewrite Ms, Hst.
    eexists. split; [reflexivity|].
    rewrite on_update_countdown_running by (rewrite Mc; lra).
    cbn [g_state g_ball g_countdown gv_set_players gv_set_countdown].
    rewrite Ms, Mb, Mc. repeat split; [assumption | lra].
  - eexists. split; [reflexivity|].
    unfold GameView.on_key_press, GameView._toggle_pause,
      GameView._toggle_material_target.
    destruct k; cbn; rewrite ?Hst; cbn; repeat split; try assumption; lra.
  - eexists. split; [reflexivity|]. unfold GameView.on_key_release.
    cbn. repeat split; try assumption; lra.
  - eexists. split; [reflexivity|]. unfold GameView._apply_material.
    destruct (g_selected_player_for_material g); cbn;
      repeat split; try assumption; lra.
  - eexists. split; [reflexivity|]. unfold GameView._toggle_pause.
    rewrite Hst. repeat split; try assumption; lra.
Qed.

(** X24.  The countdown is counted in frames.  Every frame takes at most
    1/30 off the countdown, however long it lasted, and no other call
    takes anything: a game that counts down with [c] to go is still
    counting down, with its ball untouched, after any calls of the host
    that hold fewer than [30 * c] frames.  After [_reset_round] the ball
    is launched in the frame number 90 at the earliest.  No call raises
    on the way, whatever its arguments. *)
Theorem countdown_counts_frames (cs : list HostCall) (g : GameView) :
  g_state g = countdown ->
  INR (frames cs) / 30 < g_countdown g ->
  exists g',
    Host_calls cs g = Ok g'
    /\ g_state g' = countdown
    /\ g_ball g' = g_ball g
    /\ g_countdown g - INR (frames cs) / 30 <= g_countdown g'.
Proof.
  revert g. induction cs as [| c cs IH]; intros g Hst Hc.
  - exists g. cbn. repeat split; try assumption. unfold frames. cbn. lra.
  - assert (Hfr : INR (frames (c :: cs))
                  = (if not_a_frame c then 0 else 1) + INR (frames cs)).
    { unfold frames. cbn [filter]. destruct (not_a_frame c); cbn [negb].
      - lra.
      - change (List.length (c :: ?l)) with (S (List.length l)).
        rewrite S_INR. lra. }
    rewrite Hfr in *.
    pose proof (pos_INR (frames cs)) as Hn.
    destruct (Host_call_countdown c g Hst) as (g1 & E1 & S1 & B1 & C1).
    { destruct (not_a_frame c); lra. }
    destruct (IH g1 S1) as (g2 & E2 & S2 & B2 & C2).
    { destruct (not_a_frame c); lra. }
    exists g2. cbn [Host_calls]. rewrite E1. cbn [bind].
    split; [exact E2|]. split; [exact S2|]. split; [congruence|].
    destruct (not_a_frame c); lra.
Qed.

Lemma countdown_counts_frames_witness :
  exists g',
    Host_calls (repeat (Host_on_update 1 rnd0) 2)
      (GameView.on_show_view rnd0 (GameView.init "pvp")) = Ok g'
    /\ g_state g' = countdown.
Proof.
  destruct (countdown_counts_frames (repeat (Host_on_update 1 rnd0) 2)
              (GameView.on_show_view rnd0 (GameView.init "pvp")) eq_refl)
    as (g' & E & S & _).
  - cbn. lra.
  - exists g'. split; assumption.
Defined.

(** ** Pause *)

Lemma paused_frames (dts : list (R * Random)) (g : GameView) :
  g_state g = paused ->
  exists t,
    Host_calls (frames_of dts) g
    = Ok (gv_set_last_event (g_last_event_text g) t g)
    /\ (g_last_event_timer g <= 0 -> t = g_last_event_timer g)
    /\ (Forall (fun d => 0 <= fst d) dts -> t <= g_last_event_timer g).
Proof.
  revert g. induction dts as [| [dt rnd] dts IH]; intros g Hst.
  - exists (g_last_event_timer g). cbn. split; [destruct g; reflexivity|].
    split; [reflexivity | intros _; lra].
  - cbn [frames_of map Host_calls Host_call fst snd].
    unfold GameView.on_update, GameView.on_update_step. cbv zeta.
    pose proof (Rmin_r dt (1 / 30)) as Hd.
    set (d := Rmin dt (1 / 30)) in *.
    destruct (on_update_message_keeps d g) as (Ms & _ & _ & _).
    cbv zeta in Ms. rewrite Ms, Hst. cbn [bind].
    assert (Hm : exists t1,
               GameView.on_update_message d g
               = gv_set_last_event (g_last_event_text g) t1 g
               /\ (g_last_event_timer g <= 0 -> t1 = g_last_event_timer g)
               /\ (0 <= dt -> t1 <= g_last_event_timer g)).
    { unfold GameView.on_update_message.
      destruct (Rlt_le_dec 0 (g_last_event_timer g)) as [Hp | Hp].
      - rewrite fgt_true by lra. eexists. split; [reflexivity|].
        split; [lra|]. intros H0.
        assert (0 <= d) by (unfold d; apply Rmin_glb; lra). lra.
      - rewrite fgt_false by assumption. exists (g_last_event_timer g).
        split; [destruct g; reflexivity|]. split; [reflexivity | lra]. }
    destruct Hm as (t1 & -> & Hz1 & Hle1).
    destruct (IH (gv_set_last_event (g_last_event_text g) t1 g))
      as (t2 & E2 & Hz2 & Hle2); [exact Hst|].
    exists t2. fold (frames_of dts). rewrite E2.
    split; [reflexivity|]. cbn [g_last_event_timer gv_set_last_event] in *.
    split.
    + intros H0. rewrite Hz2; rewrite Hz1; lra.
    + intros Hall. inversion Hall as [| x l Hx Hl]; subst.
      cbn [fst] in Hx. specialize (Hle1 Hx). specialize (Hle2 Hl). lra.
Qed.

(** X25.  A pause freezes the game.  When a game in play is paused, any
    number of frames passes and the game is resumed, it is the game it
    was: the ball, the players, the scheduler, the scores and the
    countdown are exactly as before.  Only the timer of the event
    message has run on, and not even that when no message was showing;
    with steps that are not negative it has not grown. *)
Theorem pause_freezes (dts : list (R * Random)) (g : GameView) :
  g_state g = playing ->
  exists t,
    Host_calls ([Host_toggle_pause] ++ frames_of dts ++ [Host_toggle_pause]) g
    = Ok (gv_set_last_event (g_last_event_text g) t g)
    /\ (g_last_event_timer g <= 0 -> t = g_last_event_timer g)
    /\ (Forall (fun d => 0 <= fst d) dts -> t <= g_last_event_timer g).
Proof.
  intros Hst.
  destruct (paused_frames dts (gv_set_state paused g) eq_refl)
    as (t & E & Hz & Hle).
  exists t. split; [|split; assumption].
  rewrite Host_calls_app. cbn [Host_calls Host_call bind].
  unfold GameView._toggle_pause at 1. rewrite Hst.
  rewrite Host_calls_app, E. cbn [bind Host_calls Host_call].
  unfold GameView._toggle_pause. cbn.
  destruct g. cbn in Hst. subst. reflexivity.
Qed.

Lemma pause_freezes_witness :
  exists t,
    Host_calls ([Host_toggle_pause] ++ frames_of [(1 / 30, rnd0); (1, rnd0)]
                ++ [Host_toggle_pause]) rally_9
    = Ok (gv_set_last_event (g_last_event_text rally_9) t rally_9).
Proof.
  destruct (pause_freezes [(1 / 30, rnd0); (1, rnd0)] rally_9 eq_refl)
    as (t & E & _).
  exists t. exact E.
Defined.

(** ** The time between fires *)

Lemma no_new_burn_refl (g g' : GameView) :
  p_vert (g_player_left g') = p_vert (g_player_left g) ->
  p_horz (g_player_left g') = p_horz (g_player_left g) ->
  p_vert (g_player_right g') = p_vert (g_player_right g) ->
  p_horz (g_player_right g') = p_horz (g_player_right g) ->
  no_new_burn g g'.
Proof. unfold no_new_burn. intros -> -> -> ->. auto. Qed.

Lemma no_new_burn_trans (g1 g2 g3 : GameView) :
  no_new_burn g1 g2 -> no_new_burn g2 g3 -> no_new_burn g1 g3.
Proof.
  unfold no_new_burn. intros (A & B & C & D) (A' & B' & C' & D').
  repeat split; auto.
Qed.

Lemma Player_update_burned (dt : R) (ball : Ball) (p : Player) :
  vp_burned_out (p_vert (Player.update dt ball p)) = vp_burned_out (p_vert p)
  /\ hp_burned_out (p_horz (Player.update dt ball p))
     = hp_burned_out (p_horz p).
Proof.
  unfold Player.update, Player.update_stun, Player.update_paddles,
    Player._cpu_control, Player.set_moves. cbv zeta.
  destruct (fgt (p_stun_timer p) 0); cbn [p_is_cpu]; destruct (p_is_cpu p);
    cbn [p_side p_is_cpu p_vert p_horz p_score p_move_vert p_move_horz
         p_stun_timer];
    match goal with
    | |- context [VerticalPaddle.update dt ?m ?q] =>
        destruct (VerticalPaddle_update_flags dt m q) as (_ & _ & ->)
    end;
    match goal with
    | |- context [HorizontalPaddle.update dt ?m ?q] =>
        destruct (HorizontalPaddle_update_flags dt m q) as (_ & _ & ->)
    end; split; reflexivity.
Qed.

(** A run of the scheduler that leaves time to the next event applies
    no event. *)
Lemma EventManager_update_no_fire
  (dt : R) (rnd : Random) (g g' : GameView) :
  EventManager.update dt rnd g = Ok g' ->
  0 < em_next_event_in (g_event_manager g) - dt ->
  g_player_left g' = g_player_left g
  /\ g_player_right g' = g_player_right g
  /\ g_last_event_text g' = g_last_event_text g
  /\ em_next_event_in (g_event_manager g')
     = em_next_event_in (g_event_manager g) - dt.
Proof.
  unfold EventManager.update. cbv zeta. intros H Hn.
  apply bind_Ok in H. destruct H as (g1 & Hwarn & Hfire).
  assert (H1 : g_player_left g1 = g_player_left g
               /\ g_player_right g1 = g_player_right g
               /\ g_last_event_text g1 = g_last_event_text g
               /\ em_next_event_in (g_event_manager g1)
                  = em_next_event_in (g_event_manager g) - dt).
  { unfold EventManager.update_warn in Hwarn. cbv zeta in Hwarn.
    match type of Hwarn with
    | (if ?c then _ else _) = _ => destruct c
    end.
    - apply bind_Ok in Hwarn. destruct Hwarn as (ev & _ & Hg1).
      injection Hg1 as <-. cbn. repeat split; reflexivity.
    - injection Hwarn as <-. cbn. repeat split; reflexivity. }
  destruct H1 as (Hl & Hr & Ht & Hx).
  unfold EventManager.update_fire in Hfire. cbv zeta in Hfire.
  assert (Hx' : em_next_event_in
                  (g_event_manager
                     (gv_set_event_manager
                        (EventManager.update_warning_timer dt
                           (g_event_manager g1)) g1))
                = em_next_event_in (g_event_manager g) - dt).
  { cbn. unfold EventManager.update_warning_timer.
    destruct (em_warning_active (g_event_manager g1)); cbn; exact Hx. }
  rewrite Hx' in Hfire. rewrite fle_false in Hfire by assumption.
  injection Hfire as <-. cbn.
  repeat split; assumption.
Qed.

Lemma on_update_playing_no_fire
  (dt : R) (rnd : Random) (g g' : GameView) :
  GameView.on_update_playing dt rnd g = Ok g' ->
  0 < em_next_event_in (g_event_manager g) - dt ->
  no_new_burn g g'
  /\ g_last_event_text g' = g_last_event_text g
  /\ em_next_event_in (g_event_manager g')
     = em_next_event_in (g_event_manager g) - dt.
Proof.
  unfold GameView.on_update_playing, GameView.on_update_before_ball.
  cbv zeta. intros H Hn.
  apply bind_Ok in H. destruct H as (g0 & Hpre & H).
  apply bind_Ok in Hpre. destruct Hpre as (g1 & Hev & Hpre).
  injection Hpre as <-.
  apply bind_Ok in H. destruct H as ([h b] & _ & H). injection H as <-.
  destruct (EventManager_update_no_fire dt rnd g g1 Hev Hn)
    as (Hl & Hr & Ht & Hx).
  unfold GameView.on_update_move.
  cbn [g_player_left g_player_right g_last_event_text g_event_manager
       gv_set_ball gv_set_players].
  split; [|split; assumption].
  unfold no_new_burn.
  cbn [g_player_left g_player_right gv_set_ball gv_set_players].
  destruct (Player_update_burned dt (g_ball g1) (g_player_left g1))
    as [-> ->].
  destruct (Player_update_burned dt (g_ball g1) (g_player_right g1))
    as [-> ->].
  rewrite Hl, Hr. auto.
Qed.

Lemma on_update_goal_no_fire (rnd : Random) (g : GameView) :
  no_new_burn g (GameView.on_update_goal rnd g)
  /\ g_last_event_text (GameView.on_update_goal rnd g) = g_last_event_text g
  /\ g_event_manager (GameView.on_update_goal rnd g) = g_event_manager g.
Proof.
  unfold GameView.on_update_goal, GameView._reset_round, no_new_burn.
  cbv zeta.
  destruct (flt _ _); [|destruct (fgt _ _)]; cbn;
    repeat split; auto; discriminate.
Qed.

Lemma on_update_countdown_no_fire (dt : R) (rnd : Random) (g : GameView) :
  no_new_burn g (GameView.on_update_countdown dt rnd g)
  /\ g_last_event_text (GameView.on_update_countdown dt rnd g)
     = g_last_event_text g
  /\ g_event_manager (GameView.on_update_countdown dt rnd g)
     = g_event_manager g.
Proof.
  unfold GameView.on_update_countdown, no_new_burn. cbv zeta.
  cbn [g_player_left g_player_right g_last_event_text g_event_manager
       gv_set_players].
  rewrite !(proj1 (Player_update_burned _ _ _)),
    !(proj2 (Player_update_burned _ _ _)).
  destruct (fgt _ 2); [|destruct (fgt _ 1); [|destruct (fgt _ 0)]]; cbn;
    repeat split; auto.
Qed.

Lemma on_update_message_no_fire (dt : R) (g : GameView) :
  g_last_event_text (GameView.on_update_message dt g) = g_last_event_text g
  /\ g_event_manager (GameView.on_update_message dt g) = g_event_manager g.
Proof.
  unfold GameView.on_update_message. destruct (fgt _ _); split; reflexivity.
Qed.

(** One call of the host with time left to the next event. *)
Lemma Host_call_no_fire (c : HostCall) (g g' : GameView) :
  Host_call c g = Ok g' ->
  (if not_a_frame c then 0 else 1 / 30)
    < em_next_event_in (g_event_manager g) ->
  no_new_burn g g'
  /\ g_last_event_text g' = g_last_event_text g
  /\ em_next_event_in (g_event_manager g)
       - (if not_a_frame c then 0 else 1 / 30)
     <= em_next_event_in (g_event_manager g').
Proof.
  destruct c as [dt rnd | k | k | name |]; cbn [Host_call not_a_frame];
    intros H Hn.
  - unfold GameView.on_update, GameView.on_update_step in H. cbv zeta in H.
    pose proof (Rmin_r dt (1 / 30)) as Hd.
    set (d := Rmin dt (1 / 30)) in *.
    destruct (on_update_message_keeps d g) as (_ & _ & Ml & Mr).
    cbv zeta in Ml, Mr.
    destruct (on_update_message_no_fire d g) as (Mt & Me).
    set (g1 := GameView.on_update_message d g) in *.
    assert (M : no_new_burn g g1)
      by (apply no_new_burn_refl; congruence).
    destruct (g_state g1).
    + injection H as <-.
      destruct (on_update_countdown_no_fire d rnd g1) as (A & B & C).
      split; [exact (no_new_burn_trans _ _ _ M A)|].
      rewrite B, C, Mt, Me. split; [reflexivity | lra].
    + apply bind_Ok in H. destruct H as (g2 & E2 & H). injection H as <-.
      destruct (on_update_playing_no_fire d rnd g1 g2 E2) as (A & B & C);
        [rewrite Me; lra|].
      destruct (on_update_goal_no_fire rnd g2) as (A' & B' & C').
      split; [exact (no_new_burn_trans _ _ _ M
                       (no_new_burn_trans _ _ _ A A'))|].
      rewrite B', C', B, C, Mt, Me. split; [reflexivity | lra].
    + injection H as <-. split; [exact M|].
      rewrite Mt, Me. split; [reflexivity | lra].
  - injection H as <-.
    unfold GameView.on_key_press, GameView._toggle_pause,
      GameView._toggle_material_target, no_new_burn.
    destruct k; cbn; destruct (g_state g); cbn;
      destruct (p_is_cpu (g_player_right g)); cbn;
      repeat split; auto; lra.
  - injection H as <-. unfold GameView.on_key_release, no_new_burn.
    destruct k; cbn; destruct (p_is_cpu (g_player_right g)); cbn;
      repeat split; auto; lra.
  - injection H as <-. unfold GameView._apply_material, no_new_burn.
    destruct (g_selected_player_for_material g); cbn;
      repeat split; auto; try discriminate; lra.
  - injection H as <-. unfold GameView._toggle_pause, no_new_burn.
    destruct (g_state g); cbn; repeat split; auto; lra.
Qed.

(** X26.  A fire needs its frames.  Every frame takes at most 1/30 off
    the time to the next event and no other call takes anything, so as
    long as the calls of the host hold fewer than [30 * next_event_in]
    frames, no event is applied: no paddle is newly burned out, the
    event message is not set, and the time to the next event is still
    positive.  With the [EVENT_INTERVAL] of 10 that the scheduler starts
    from and returns to, fires are at least 300 frames apart. *)
Theorem fire_needs_frames (cs : list HostCall) (g g' : GameView) :
  Host_calls cs g = Ok g' ->
  INR (frames cs) / 30 < em_next_event_in (g_event_manager g) ->
  no_new_burn g g'
  /\ g_last_event_text g' = g_last_event_text g
  /\ 0 < em_next_event_in (g_event_manager g)
         - INR (frames cs) / 30
       <= em_next_event_in (g_event_manager g').
Proof.
  revert g. induction cs as [| c cs IH]; intros g H Hn.
  - cbn in H. injection H as <-.
    split; [apply no_new_burn_refl; reflexivity|].
    split; [reflexivity|]. unfold frames in *. cbn in *. lra.
  - assert (Hfr : INR (frames (c :: cs))
                  = (if not_a_frame c then 0 else 1) + INR (frames cs)).
    { unfold frames. cbn [filter]. destruct (not_a_frame c); cbn [negb].
      - lra.
      - change (List.length (c :: ?l)) with (S (List.length l)).
        rewrite S_INR. lra. }
    rewrite Hfr in *.
    pose proof (pos_INR (frames cs)) as Hpos.
    cbn [Host_calls] in H. apply bind_Ok in H.
    destruct H as (g1 & E1 & H).
    destruct (Host_call_no_fire c g g1 E1) as (A & B & C).
    { destruct (not_a_frame c); lra. }
    destruct (IH g1 H) as (A' & B' & C').
    { destruct (not_a_frame c); lra. }
    split; [exact (no_new_burn_trans _ _ _ A A')|].
    split; [congruence|].
    destruct (not_a_frame c); lra.
Qed.

Lemma fire_needs_frames_witness :
  exists g',
    Host_calls (repeat frame 3) rally_9 = Ok g'
    /\ no_new_burn rally_9 g'.
Proof.
  assert (Hv : Forall Host_valid (repeat frame 3))
    by (apply Forall_repeat; exact frame_valid).
  destruct (Host_calls_ok (repeat frame 3) rally_9 Hv
              (reachable_ok rally_9 rally_9_reachable)) as (g' & E & _).
  exists g'. split; [exact E|].
  destruct (fire_needs_frames (repeat frame 3) rally_9 g' E) as (H & _).
  - cbn. rsolve.
  - exact H.
Defined.

(** ** Buttons *)

Lemma dict_mem_MATERIALS (name : string) :
  dict_mem MATERIALS name = true ->
  name = wood \/ name = steel \/ name = rubber.
Proof.
  unfold dict_mem, MATERIALS. cbn [existsb fst].
  destruct (String.eqb wood name) eqn:E1;
    [apply String.eqb_eq in E1; auto|].
  destruct (String.eqb steel name) eqn:E2;
    [apply String.eqb_eq in E2; auto|].
  destruct (String.eqb rubber name) eqn:E3;
    [apply String.eqb_eq in E3; auto|].
  discriminate.
Qed.

(** The comparisons of [v] with the lower and upper edges [lo] and
    [hi] of a button are settled. *)
Ltac locate v lo hi :=
  destruct (Rle_lt_dec lo v); try (exfalso; lra);
  destruct (Rle_lt_dec v hi); try (exfalso; lra).

Ltac press_cases x y :=
  locate x 25 235; locate x 340 540; locate x 560 760; locate x 780 980;
  locate y 25 95; locate y 75 145; locate y 185 255; locate y 285 355;
  repeat fstep; cbn.

Lemma GameViewUI_press_unfold (x y : R) :
  GameViewUI.on_mouse_press x y MOUSE_BUTTON_LEFT
  = (if fle 25 x && fle x 235 && (fle 75 y && fle y 145)
     then [Act_back_to_menu] else [])
    ++ (if fle 25 x && fle x 235 && (fle 185 y && fle y 255)
        then [Act_toggle_material_target] else [])
    ++ (if fle 25 x && fle x 235 && (fle 285 y && fle y 355)
        then [Act_toggle_pause] else [])
    ++ (if fle 340 x && fle x 540 && (fle 25 y && fle y 95)
        then [Act_apply_material wood] else [])
    ++ (if fle 560 x && fle x 760 && (fle 25 y && fle y 95)
        then [Act_apply_material steel] else [])
    ++ (if fle 780 x && fle x 980 && (fle 25 y && fle y 95)
        then [Act_apply_material rubber] else []).
Proof.
  unfold GameViewUI.on_mouse_press, buttons_on_mouse_press,
    GameViewUI.left_panel_buttons, GameViewUI.material_buttons,
    UIButton.on_mouse_press, UIButton.hit_test, UIButton.init.
  cbn -[fle].
  replace (LEFT_PANEL_WIDTH / 2 - 210 / 2) with 25 by rsolve.
  replace (LEFT_PANEL_WIDTH / 2 + 210 / 2) with 235 by rsolve.
  replace (110 - 70 / 2) with 75 by lra.
  replace (110 + 70 / 2) with 145 by lra.
  replace (220 - 70 / 2) with 185 by lra.
  replace (220 + 70 / 2) with 255 by lra.
  replace (320 - 70 / 2) with 285 by lra.
  replace (320 + 70 / 2) with 355 by lra.
  replace (BOTTOM_PANEL_HEIGHT / 2 - 70 / 2) with 25 by rsolve.
  replace (BOTTOM_PANEL_HEIGHT / 2 + 70 / 2) with 95 by rsolve.
  replace (FIELD_LEFT + 160 + 0 * 220 - 200 / 2) with 340 by rsolve.
  replace (FIELD_LEFT + 160 + 0 * 220 + 200 / 2) with 540 by rsolve.
  replace (FIELD_LEFT + 160 + 1 * 220 - 200 / 2) with 560 by rsolve.
  replace (FIELD_LEFT + 160 + 1 * 220 + 200 / 2) with 760 by rsolve.
  replace (FIELD_LEFT + 160 + (1 + 1) * 220 - 200 / 2) with 780 by rsolve.
  replace (FIELD_LEFT + 160 + (1 + 1) * 220 + 200 / 2) with 980 by rsolve.
  repeat (match goal with
          | |- context [if ?c then Some ?a else None] =>
              destruct c
          end; cbn [app]); reflexivity.
Qed.

(** A press of the left button calls nothing, or it lies in one of the
    panels and calls one method. *)
Lemma GameViewUI_press_cases (x y : R) :
  let calls := GameViewUI.on_mouse_press x y MOUSE_BUTTON_LEFT in
  calls = []
  \/ ((x < FIELD_LEFT \/ y < FIELD_BOTTOM)
      /\ (calls = [Act_back_to_menu]
          \/ calls = [Act_toggle_material_target]
          \/ calls = [Act_toggle_pause]
          \/ calls = [Act_apply_material wood]
          \/ calls = [Act_apply_material steel]
          \/ calls = [Act_apply_material rubber])).
Proof.
  cbv zeta. rewrite GameViewUI_press_unfold.
  unfold FIELD_LEFT, FIELD_BOTTOM, LEFT_PANEL_WIDTH, BOTTOM_PANEL_HEIGHT,
    MARGIN.
  press_cases x y;
    first [ left; reflexivity
          | right; split; [lra | tauto] ].
Qed.

Lemma buttons_press_other (x y : R) (button : MouseButton) (bs : list UIButton) :
  button <> MOUSE_BUTTON_LEFT ->
  buttons_on_mouse_press x y button bs = [].
Proof.
  intros Hb. unfold buttons_on_mouse_press.
  induction bs as [| b bs IH]; [reflexivity|].
  cbn [flat_map]. rewrite IH. unfold UIButton.on_mouse_press.
  destruct (negb (ub_enabled b)); [reflexivity|].
  destruct button; try contradiction; reflexivity.
Qed.

(** X27.  The buttons of the game view.  A press calls at most one
    method, and none unless it is a press of the left button; a press
    inside the field or beyond it, to the right of [FIELD_LEFT] and
    above [FIELD_BOTTOM], calls nothing.  Every material that a button
    applies is a key of [MATERIALS], and for every key there is a place
    to press that applies exactly that material. *)
Theorem game_buttons_are_apart (x y : R) (button : MouseButton) :
  let calls := GameViewUI.on_mouse_press x y button in
  (List.length calls <= 1)%nat
  /\ (button <> MOUSE_BUTTON_LEFT -> calls = [])
  /\ (FIELD_LEFT <= x -> FIELD_BOTTOM <= y -> calls = [])
  /\ (forall name,
        In (Act_apply_material name) calls ->
        dict_mem MATERIALS name = true)
  /\ (forall name,
        dict_mem MATERIALS name = true ->
        exists x0 y0,
          GameViewUI.on_mouse_press x0 y0 MOUSE_BUTTON_LEFT
          = [Act_apply_material name]).
Proof.
  cbv zeta.
  assert (Hother : button <> MOUSE_BUTTON_LEFT ->
                   GameViewUI.on_mouse_press x y button = []).
  { intros Hb. unfold GameViewUI.on_mouse_press.
    rewrite !buttons_press_other by assumption. reflexivity. }
  assert (Hplace : forall name,
             dict_mem MATERIALS name = true ->
             exists x0 y0,
               GameViewUI.on_mouse_press x0 y0 MOUSE_BUTTON_LEFT
               = [Act_apply_material name]).
  { intros name Hn.
    destruct (dict_mem_MATERIALS name Hn) as [-> | [-> | ->]].
    - exists 440, 60. rewrite GameViewUI_press_unfold.
      repeat fstep. reflexivity.
    - exists 660, 60. rewrite GameViewUI_press_unfold.
      repeat fstep. reflexivity.
    - exists 880, 60. rewrite GameViewUI_press_unfold.
      repeat fstep. reflexivity. }
  destruct button;
    try (rewrite Hother by discriminate; cbn;
         repeat split; try reflexivity; try lia; try contradiction;
         exact Hplace).
  destruct (GameViewUI_press_cases x y) as [-> | [Hpos Hc]].
  - cbn. repeat split; try reflexivity; try lia; try contradiction.
    exact Hplace.
  - split; [destruct Hc as [-> | [-> | [-> | [-> | [-> | ->]]]]]; cbn; lia|].
    split; [intros H; contradiction|].
    split; [intros Hx Hy; exfalso; lra|].
    split; [|exact Hplace].
    intros name Hin.
    assert (Hn : name = wood \/ name = steel \/ name = rubber).
    { destruct Hc as [Hc | [Hc | [Hc | [Hc | [Hc | Hc]]]]]; rewrite Hc in Hin;
        destruct Hin as [Hin | []]; try discriminate;
        injection Hin as <-; auto. }
    destruct Hn as [-> | [-> | ->]]; reflexivity.
Qed.

Lemma game_buttons_are_apart_witness :
  GameViewUI.on_mouse_press FIELD_CENTER_X FIELD_CENTER_Y MOUSE_BUTTON_LEFT
  = [].
Proof.
  apply (proj1 (proj2 (proj2 (game_buttons_are_apart FIELD_CENTER_X
                                FIELD_CENTER_Y MOUSE_BUTTON_LEFT))));
    rsolve.
Defined.

(** ** The menu *)

Lemma MainMenuView_press_cases (x y : R) (button : MouseButton) :
  let calls := buttons_on_mouse_press x y button MainMenuView.buttons in
  calls = [] \/ calls = [Act_select_cpu] \/ calls = [Act_select_pvp]
  \/ calls = [Act_start_game] \/ calls = [Act_close].
Proof.
  cbv zeta.
  destruct button;
    try (left; apply buttons_press_other; discriminate).
  unfold buttons_on_mouse_press, MainMenuView.buttons,
    UIButton.on_mouse_press, UIButton.hit_test, UIButton.init.
  cbn -[fle].
  replace (SCREEN_HEIGHT / 2 + 60 - 90 / 2) with 375 by rsolve.
  replace (SCREEN_HEIGHT / 2 + 60 + 90 / 2) with 465 by rsolve.
  replace (SCREEN_HEIGHT / 2 - 60 - 90 / 2) with 255 by rsolve.
  replace (SCREEN_HEIGHT / 2 - 60 + 90 / 2) with 345 by rsolve.
  replace (SCREEN_HEIGHT / 2 - 180 - 80 / 2) with 140 by rsolve.
  replace (SCREEN_HEIGHT / 2 - 180 + 80 / 2) with 220 by rsolve.
  replace (SCREEN_HEIGHT / 2 - 280 - 80 / 2) with 40 by rsolve.
  replace (SCREEN_HEIGHT / 2 - 280 + 80 / 2) with 120 by rsolve.
  locate y 375 465; locate y 255 345; locate y 140 220; locate y 40 120;
    repeat fstep; rewrite ?andb_false_r; cbn [app];
    repeat match goal with
           | |- context [if ?c then Some ?a else None] => destruct c
           end; cbn [app]; tauto.
Qed.

(** The menu in order: the mode is one of the two, and the mode buttons
    show it. *)
Lemma menu_call_ok (a : Action) (m : MainMenuView) :
  (mm_mode m = "cpu"%string \/ mm_mode m = "pvp"%string)
  /\ mm_btn_cpu m = Some (String.eqb (mm_mode m) "cpu")
  /\ mm_btn_pvp m = Some (String.eqb (mm_mode m) "pvp") ->
  let m' := MainMenuView.call a m in
  (mm_mode m' = "cpu"%string \/ mm_mode m' = "pvp"%string)
  /\ mm_btn_cpu m' = Some (String.eqb (mm_mode m') "cpu")
  /\ mm_btn_pvp m' = Some (String.eqb (mm_mode m') "pvp").
Proof.
  intros (Hm & Hc & Hp). cbv zeta.
  destruct a; cbn [MainMenuView.call]; try (repeat split; assumption);
    unfold MainMenuView._select_cpu, MainMenuView._select_pvp,
      MainMenuView._sync_mode_buttons;
    cbn [mm_mode mm_btn_cpu mm_btn_pvp]; rewrite Hc, Hp; cbn;
    repeat split; auto.
Qed.

Lemma menu_presses_ok (ps : list (R * R * MouseButton)) (m : MainMenuView) :
  (mm_mode m = "cpu"%string \/ mm_mode m = "pvp"%string)
  /\ mm_btn_cpu m = Some (String.eqb (mm_mode m) "cpu")
  /\ mm_btn_pvp m = Some (String.eqb (mm_mode m) "pvp") ->
  let m' := menu_presses ps m in
  (mm_mode m' = "cpu"%string \/ mm_mode m' = "pvp"%string)
  /\ mm_btn_cpu m' = Some (String.eqb (mm_mode m') "cpu")
  /\ mm_btn_pvp m' = Some (String.eqb (mm_mode m') "pvp").
Proof.
  revert m. unfold menu_presses.
  induction ps as [| [[x y] b] ps IH]; intros m H; [exact H|].
  cbn [fold_left fst snd]. apply IH.
  unfold MainMenuView.on_mouse_press. cbv zeta. cbn [fst].
  destruct (MainMenuView_press_cases x y b) as [-> | [-> | [-> | [-> | ->]]]];
    cbn [fold_left]; try exact H; apply menu_call_ok; exact H.
Qed.

(** X28.  The menu starts the game in a known mode.  After any presses
    on the shown menu the mode is ["cpu"] or ["pvp"], ["cpu"] when
    nothing was pressed, and the two mode buttons show it: exactly the
    button of the current mode is selected.  A press calls at most one
    method of the menu.  So the game that [_start_game] constructs is in
    one of the two modes, its right player is automatic exactly in the
    mode ["cpu"], and once shown it is a reachable state. *)
Theorem menu_starts_known_mode (ps : list (R * R * MouseButton)) :
  let m := menu_presses ps (MainMenuView.on_show_view MainMenuView.init) in
  (mm_mode m = "cpu"%string \/ mm_mode m = "pvp"%string)
  /\ mm_mode (MainMenuView.on_show_view MainMenuView.init) = "cpu"%string
  /\ mm_btn_cpu m = Some (String.eqb (mm_mode m) "cpu")
  /\ mm_btn_pvp m = Some (String.eqb (mm_mode m) "pvp")
  /\ mm_btn_cpu m <> mm_btn_pvp m
  /\ (forall x y button,
        (List.length (snd (MainMenuView.on_mouse_press x y button m)) <= 1)%nat)
  /\ g_mode (MainMenuView._start_game m) = mm_mode m
  /\ p_is_cpu (g_player_right (MainMenuView._start_game m))
     = String.eqb (mm_mode m) "cpu"
  /\ p_is_cpu (g_player_left (MainMenuView._start_game m)) = false
  /\ (forall rnd,
        Random_valid rnd ->
        reachable (GameView.on_show_view rnd (MainMenuView._start_game m))).
Proof.
  cbv zeta.
  destruct (menu_presses_ok ps (MainMenuView.on_show_view MainMenuView.init))
    as (Hm & Hc & Hp).
  { cbn. repeat split; auto. }
  set (m := menu_presses ps (MainMenuView.on_show_view MainMenuView.init))
    in *.
  split; [exact Hm|]. split; [reflexivity|].
  split; [exact Hc|]. split; [exact Hp|].
  split.
  { rewrite Hc, Hp. destruct Hm as [-> | ->]; cbn; discriminate. }
  split.
  { intros x y b. unfold MainMenuView.on_mouse_press. cbv zeta. cbn [snd].
    destruct (MainMenuView_press_cases x y b)
      as [-> | [-> | [-> | [-> | ->]]]]; cbn; lia. }
  split; [reflexivity|]. split; [reflexivity|]. split; [reflexivity|].
  intros rnd Hr. apply on_show_view_reachable; [|exact Hr].
  unfold MainMenuView._start_game. exact Hm.
Qed.

Lemma menu_starts_known_mode_witness :
  reachable
    (GameView.on_show_view rnd0
       (MainMenuView._start_game
          (menu_presses [(640, 300, MOUSE_BUTTON_LEFT)]
             (MainMenuView.on_show_view MainMenuView.init)))).
Proof.
  apply (menu_starts_known_mode [(640, 300, MOUSE_BUTTON_LEFT)]).
  exact rnd0_valid.
Defined.

(** ** The warning before the fire *)

Lemma Announce_ok_same (g g' : GameView) :
  g_event_manager g' = g_event_manager g ->
  g_pending_event g' = g_pending_event g ->
  Announce_ok g -> Announce_ok g'.
Proof.
  intros He Hp [A1 A2 A3 A4]. constructor; rewrite ?He, ?Hp; assumption.
Qed.

(** One run of the scheduler with a step of at most 1/30. *)
Lemma EventManager_update_announce
  (dt : R) (rnd : Random) (g g' : GameView) :
  0 <= dt <= 1 / 30 ->
  em_events (g_event_manager g) = [FireEvent] ->
  0 < em_next_event_in (g_event_manager g) ->
  Announce_ok g ->
  EventManager.update dt rnd g = Ok g' ->
  Announce_ok g'.
Proof.
  intros Hdt Hev Hnx [A1 A2 A3 A4].
  destruct g as [mode pl pr ball em sel st c txt pe lt ltm].
  destruct em as [tm nx wa wt wtxt evs].
  cbn in Hev, Hnx, A1, A2, A3, A4. subst evs.
  unfold EventManager.update, EventManager.update_warn,
    EventManager.update_warning_timer, EventManager.update_fire,
    EventManager.update_timers.
  cbn -[random_choice]. rewrite !random_choice_single.
  unfold EVENT_WARNING_TIME, EVENT_INTERVAL in *.
  assert (Hpe : pe = Some FireEvent \/ pe = None).
  { destruct pe as [ev |]; [left; rewrite (A3 ev eq_refl) | right];
      reflexivity. }
  destruct wa; cbn.
  - specialize (A2 eq_refl).
    destruct (Rle_lt_dec (wt - dt) 0) as [Hw | Hw];
      [rewrite (fle_true (wt - dt)) by assumption
      | rewrite (fle_false (wt - dt)) by assumption];
      cbn;
      (destruct (Rle_lt_dec (nx - dt) 0) as [Hf | Hf];
       [rewrite (fle_true (nx - dt) 0) by assumption
       | rewrite (fle_false (nx - dt) 0) by assumption]; cbn;
       [destruct Hpe as [-> | ->];
        [|exfalso; destruct (A4 eq_refl) as [B1 B2];
          specialize (B2 eq_refl); lra]|]);
      intros H; injection H as <-; constructor; cbn;
      unfold EVENT_WARNING_TIME, EVENT_INTERVAL;
      try lra; try discriminate; try (intros; lra);
      try (intros ev' Hev'; apply (A3 ev'); exact Hev');
      try (intros Hp; destruct (A4 Hp) as [B1 B2];
           try specialize (B2 eq_refl); split; intros; lra).
  - destruct (Rle_lt_dec (nx - dt) 1.0) as [Hr | Hr];
      [rewrite (fle_true (nx - dt) 1.0) by assumption
      | rewrite (fle_false (nx - dt) 1.0) by assumption]; cbn.
    + rewrite (fle_false (1.0 - dt) 0) by lra. cbn.
      destruct (Rle_lt_dec (nx - dt) 0) as [Hf | Hf];
        [rewrite (fle_true (nx - dt) 0) by assumption
        | rewrite (fle_false (nx - dt) 0) by assumption]; cbn;
        destruct Hpe as [-> | ->]; cbn;
        intros H; injection H as <-; constructor; cbn;
      unfold EVENT_WARNING_TIME, EVENT_INTERVAL;
        try lra; try discriminate; try (intros; lra);
        try (intros ev' Hev'; injection Hev' as <-; reflexivity);
        try (split; intros; lra).
    + rewrite (fle_false (nx - dt) 0) by lra. cbn.
      intros H; injection H as <-; constructor; cbn;
      unfold EVENT_WARNING_TIME, EVENT_INTERVAL;
        try lra; try discriminate; try (intros; lra);
        try (intros ev' Hev'; apply (A3 ev'); exact Hev');
        try (intros Hp; split; [lra | discriminate]).
Qed.

Lemma on_update_playing_scheduler
  (dt : R) (rnd : Random) (g g' : GameView) :
  GameView.on_update_playing dt rnd g = Ok g' ->
  exists g1,
    EventManager.update dt rnd g = Ok g1
    /\ g_event_manager g' = g_event_manager g1
    /\ g_pending_event g' = g_pending_event g1.
Proof.
  unfold GameView.on_update_playing, GameView.on_update_before_ball.
  cbv zeta. intros H.
  apply bind_Ok in H. destruct H as (g0 & Hpre & H).
  apply bind_Ok in Hpre. destruct Hpre as (g1 & Hev & Hpre).
  injection Hpre as <-.
  apply bind_Ok in H. destruct H as ([h b] & _ & H). injection H as <-.
  exists g1. split; [exact Hev|]. split; reflexivity.
Qed.

Lemma Host_call_announce (c : HostCall) (g g' : GameView) :
  Host_valid c ->
  GameView_ok g ->
  Announce_ok g ->
  Host_call c g = Ok g' ->
  Announce_ok g'.
Proof.
  intros Hc Hok Han.
  destruct c as [dt rnd | k | k | name |]; cbn [Host_call]; intros H.
  - destruct Hc as [Hdt _].
    unfold GameView.on_update, GameView.on_update_step in H. cbv zeta in H.
    assert (Hd : 0 <= Rmin dt (1 / 30) <= 1 / 30).
    { split; [apply Rmin_glb; lra | apply Rmin_r]. }
    set (d := Rmin dt (1 / 30)) in *.
    assert (M : Announce_ok (GameView.on_update_message d g)).
    { apply (Announce_ok_same g); [| |exact Han];
        unfold GameView.on_update_message; destruct (fgt _ _); reflexivity. }
    assert (Me : g_event_manager (GameView.on_update_message d g)
                 = g_event_manager g).
    { unfold GameView.on_update_message; destruct (fgt _ _); reflexivity. }
    set (g1 := GameView.on_update_message d g) in *.
    destruct (g_state g1).
    + injection H as <-.
      apply (Announce_ok_same g1); [| |exact M];
        unfold GameView.on_update_countdown; cbv zeta;
        (destruct (fgt _ 2); [|destruct (fgt _ 1); [|destruct (fgt _ 0)]]);
        reflexivity.
    + apply bind_Ok in H. destruct H as (g2 & E2 & H). injection H as <-.
      destruct (on_update_playing_scheduler d rnd g1 g2 E2)
        as (g3 & E3 & He & Hp).
      pose proof (gok_events _ Hok) as [Ev Nx _].
      assert (A3 : Announce_ok g3).
      { apply (EventManager_update_announce d rnd g1 g3 Hd); try assumption;
          rewrite Me; [exact Ev | apply Nx]. }
      apply (Announce_ok_same g3); [| |exact A3].
      * rewrite <- He.
        unfold GameView.on_update_goal, GameView._reset_round. cbv zeta.
        destruct (flt _ _); [|destruct (fgt _ _)]; reflexivity.
      * rewrite <- Hp.
        unfold GameView.on_update_goal, GameView._reset_round. cbv zeta.
        destruct (flt _ _); [|destruct (fgt _ _)]; reflexivity.
    + injection H as <-. exact M.
  - injection H as <-. apply (Announce_ok_same g); [| |exact Han];
      unfold GameView.on_key_press, GameView._toggle_pause,
        GameView._toggle_material_target;
      destruct k; cbn; destruct (g_state g); reflexivity.
  - injection H as <-. apply (Announce_ok_same g); [| |exact Han];
      reflexivity.
  - injection H as <-. apply (Announce_ok_same g); [| |exact Han];
      unfold GameView._apply_material;
      destruct (g_selected_player_for_material g); reflexivity.
  - injection H as <-. apply (Announce_ok_same g); [| |exact Han];
      unfold GameView._toggle_pause; destruct (g_state g); reflexivity.
Qed.

Lemma on_show_view_announce (mode : string) (rnd : Random) :
  Announce_ok (GameView.on_show_view rnd (GameView.init mode)).
Proof.
  constructor; cbn; unfold EVENT_WARNING_TIME, EVENT_INTERVAL;
    first [lra | discriminate].
Qed.

Lemma Host_calls_announce (cs : list HostCall) (g g' : GameView) :
  Forall Host_valid cs ->
  GameView_ok g ->
  Announce_ok g ->
  Host_calls cs g = Ok g' ->
  Announce_ok g'.
Proof.
  intros Hcs. revert g. induction Hcs as [| c cs Hc Hcs IH]; intros g Hok Han H.
  - cbn in H. injection H as <-. exact Han.
  - cbn [Host_calls] in H. apply bind_Ok in H. destruct H as (g1 & E1 & H).
    destruct (Host_call_ok c g Hc Hok) as (g1' & E1' & Hok1).
    rewrite E1 in E1'. injection E1' as <-.
    apply (IH g1 Hok1); [|exact H].
    exact (Host_call_announce c g g1 Hc Hok Han E1).
Qed.

Lemma reachable_announce (g : GameView) : reachable g -> Announce_ok g.
Proof.
  intros (mode & rnd & cs & _ & _ & Hcs & Hrun).
  exact (Host_calls_announce cs _ g Hcs (on_show_view_ok mode rnd)
           (on_show_view_announce mode rnd) Hrun).
Qed.

(** X29.  The fire is announced.  In every reachable state with no more
    than [EVENT_WARNING_TIME] to the next event, the event is pending
    already: the frame that applies an event finds the one that a
    warning chose in an earlier frame, and the second [random.choice] of
    [EventManager.update], for an event that was not announced, is never
    reached.  A warning that is showing has time left, at most
    [EVENT_WARNING_TIME]; it can outlast its event, and while it does
    the next event is at least [EVENT_INTERVAL - EVENT_WARNING_TIME]
    further away than the warning lasts. *)
Theorem fire_is_announced (g : GameView) :
  reachable g ->
  (em_next_event_in (g_event_manager g) <= EVENT_WARNING_TIME ->
   g_pending_event g = Some FireEvent)
  /\ (g_pending_event g = None \/ g_pending_event g = Some FireEvent)
  /\ (em_warning_active (g_event_manager g) = true ->
      0 < em_warning_timer (g_event_manager g) <= EVENT_WARNING_TIME)
  /\ (em_warning_active (g_event_manager g) = true ->
      g_pending_event g = None ->
      EVENT_INTERVAL - EVENT_WARNING_TIME
        + em_warning_timer (g_event_manager g)
      <= em_next_event_in (g_event_manager g)).
Proof.
  intros Hg. destruct (reachable_announce g Hg) as [A1 A2 A3 A4].
  assert (Hpe : g_pending_event g = None \/ g_pending_event g = Some FireEvent).
  { destruct (g_pending_event g) as [ev |]; [right | left; reflexivity].
    rewrite (A3 ev eq_refl). reflexivity. }
  split.
  { intros Hn. destruct Hpe as [Hp | Hp]; [|exact Hp].
    destruct (A4 Hp) as [B _]. lra. }
  split; [exact Hpe|].
  split; [intros Ha; split; [apply A2; exact Ha | exact A1]|].
  intros Ha Hp. destruct (A4 Hp) as [_ B]. apply B. exact Ha.
Qed.

Lemma fire_is_announced_witness :
  g_pending_event rally_9 = None \/ g_pending_event rally_9 = Some FireEvent.
Proof.
  exact (proj1 (proj2 (fire_is_announced rally_9 rally_9_reachable))).
Defined.

(** ** How long a burn lasts *)

Lemma still_burned_refl (p : Player) : burned p -> still_burned p p.
Proof. intros H. split; [exact H | split; reflexivity]. Qed.

Lemma still_burned_trans (p1 p2 p3 : Player) :
  still_burned p1 p2 -> still_burned p2 p3 -> still_burned p1 p3.
Proof.
  intros (_ & A & B) (H & A' & B'). split; [exact H|]. split; congruence.
Qed.

Lemma Player_update_still_burned (dt : R) (ball : Ball) (p : Player) :
  burned p -> still_burned p (Player.update dt ball p).
Proof.
  intros [Hv Hh]. unfold still_burned, burned.
  unfold Player.update, Player.update_stun, Player.update_paddles,
    Player._cpu_control, Player.set_moves, VerticalPaddle.update,
    HorizontalPaddle.update. cbv zeta.
  destruct (fgt (p_stun_timer p) 0); cbn; destruct (p_is_cpu p); cbn;
    rewrite Hv, Hh, ?orb_true_r; cbn; repeat split; assumption.
Qed.

Lemma apply_player_still_burned (p : Player) :
  burned p -> still_burned p (FireEvent.apply_player p).
Proof.
  intros H. unfold FireEvent.apply_player.
  destruct (String.eqb _ _); [|apply still_burned_refl; exact H].
  split; [split; reflexivity | split; reflexivity].
Qed.

(** The scheduler leaves both players alone or applies the fire to
    both. *)
Lemma EventManager_update_players
  (dt : R) (rnd : Random) (g g' : GameView) :
  EventManager.update dt rnd g = Ok g' ->
  (g_player_left g' = g_player_left g
   /\ g_player_right g' = g_player_right g)
  \/ (g_player_left g' = FireEvent.apply_player (g_player_left g)
      /\ g_player_right g' = FireEvent.apply_player (g_player_right g)).
Proof.
  unfold EventManager.update. cbv zeta. intros H.
  apply bind_Ok in H. destruct H as (g1 & Hwarn & Hfire).
  assert (H1 : g_player_left g1 = g_player_left g
               /\ g_player_right g1 = g_player_right g).
  { unfold EventManager.update_warn in Hwarn. cbv zeta in Hwarn.
    match type of Hwarn with
    | (if ?c then _ else _) = _ => destruct c
    end.
    - apply bind_Ok in Hwarn. destruct Hwarn as (ev & _ & Hg1).
      injection Hg1 as <-. split; reflexivity.
    - injection Hwarn as <-. split; reflexivity. }
  destruct H1 as [Hl Hr].
  unfold EventManager.update_fire in Hfire. cbv zeta in Hfire.
  match type of Hfire with
  | (if ?c then _ else _) = _ => destruct c
  end.
  - apply bind_Ok in Hfire. destruct Hfire as (ev & _ & Hg').
    injection Hg' as <-.
    destruct ev; cbn; rewrite Hl, Hr; [left | right]; split; reflexivity.
  - injection Hfire as <-. cbn. left. split; assumption.
Qed.

Lemma on_update_playing_players
  (dt : R) (rnd : Random) (g g' : GameView) :
  GameView.on_update_playing dt rnd g = Ok g' ->
  exists g1,
    EventManager.update dt rnd g = Ok g1
    /\ g_player_left g' = Player.update dt (g_ball g1) (g_player_left g1)
    /\ g_player_right g' = Player.update dt (g_ball g1) (g_player_right g1)
    /\ g_state g' = g_state g.
Proof.
  intros H. pose proof (on_update_playing_keeps dt rnd g g' H)
    as (_ & _ & _ & Hst).
  revert H.
  unfold GameView.on_update_playing, GameView.on_update_before_ball.
  cbv zeta. intros H.
  apply bind_Ok in H. destruct H as (g0 & Hpre & H).
  apply bind_Ok in Hpre. destruct Hpre as (g1 & Hev & Hpre).
  injection Hpre as <-.
  apply bind_Ok in H. destruct H as ([h b] & _ & H). injection H as <-.
  exists g1. split; [exact Hev|]. repeat split; try reflexivity.
  exact Hst.
Qed.

Lemma on_update_playing_still_burned
  (side : Side) (dt : R) (rnd : Random) (g g' : GameView) :
  GameView.on_update_playing dt rnd g = Ok g' ->
  burned (player_of side g) ->
  still_burned (player_of side g) (player_of side g').
Proof.
  intros H Hb.
  destruct (on_update_playing_players dt rnd g g' H)
    as (g1 & Hev & Hl & Hr & _).
  assert (H1 : still_burned (player_of side g) (player_of side g1)).
  { destruct (EventManager_update_players dt rnd g g1 Hev)
      as [[El Er] | [El Er]]; destruct side; cbn [player_of] in *;
      rewrite ?El, ?Er;
      first [ apply still_burned_refl; exact Hb
            | apply apply_player_still_burned; exact Hb ]. }
  apply (still_burned_trans _ _ _ H1).
  destruct side; cbn [player_of] in *; rewrite ?Hl, ?Hr;
    apply Player_update_still_burned; apply H1.
Qed.

(** X30.  A burn lasts until it is repaired.  A player whose paddles
    are burned out keeps them burned out, each where it is, through
    every call of the host that returns, except a click on a material
    button while that player is the target, and a frame that ends a
    rally with a goal.  The stun that the fire sets plays no part in
    this; the burn outlasts it. *)
Theorem burn_lasts (side : Side) (c : HostCall) (g g' : GameView) :
  Host_call c g = Ok g' ->
  burned (player_of side g) ->
  (burned (player_of side g')
   /\ vp_y (p_vert (player_of side g')) = vp_y (p_vert (player_of side g))
   /\ hp_x (p_horz (player_of side g')) = hp_x (p_horz (player_of side g)))
  \/ ((exists name, c = Host_apply_material name)
      /\ g_selected_player_for_material g = side)
  \/ ((exists dt rnd, c = Host_on_update dt rnd)
      /\ g_state g = playing /\ g_state g' = countdown).
Proof.
  intros H Hb.
  change (still_burned (player_of side g) (player_of side g')
          \/ ((exists name, c = Host_apply_material name)
              /\ g_selected_player_for_material g = side)
          \/ ((exists dt rnd, c = Host_on_update dt rnd)
              /\ g_state g = playing /\ g_state g' = countdown)).
  destruct c as [dt rnd | k | k | name |]; cbn [Host_call] in H.
  - unfold GameView.on_update, GameView.on_update_step in H. cbv zeta in H.
    set (d := Rmin dt (1 / 30)) in *.
    destruct (on_update_message_keeps d g) as (Ms & _ & Ml & Mr).
    cbv zeta in Ms, Ml, Mr.
    set (g1 := GameView.on_update_message d g) in *.
    assert (M : player_of side g1 = player_of side g)
      by (destruct side; assumption).
    destruct (g_state g1) eqn:Est.
    + injection H as <-. left. rewrite <- M.
      assert (Hb1 : burned (player_of side g1)) by (rewrite M; exact Hb).
      unfold GameView.on_update_countdown. cbv zeta.
      destruct side; cbn [player_of g_player_left g_player_right
                          gv_set_players] in *;
        (destruct (fgt _ 2); [|destruct (fgt _ 1); [|destruct (fgt _ 0)]]);
        apply Player_update_still_burned; exact Hb1.
    + apply bind_Ok in H. destruct H as (g2 & E2 & H). injection H as <-.
      assert (Hb1 : burned (player_of side g1)) by (rewrite M; exact Hb).
      pose proof (on_update_playing_still_burned side d rnd g1 g2 E2 Hb1)
        as H2.
      destruct (on_update_goal_score rnd g2) as [-> | (Gs & _)].
      * left. rewrite <- M. exact H2.
      * right. right. split; [exists dt, rnd; reflexivity|].
        split; [symmetry; exact Ms | exact Gs].
    + injection H as <-. left. rewrite M. apply still_burned_refl. exact Hb.
  - injection H as <-. left.
    unfold GameView.on_key_press, GameView._toggle_pause,
      GameView._toggle_material_target.
    unfold still_burned, burned in *.
    destruct side, k; cbn in *; destruct (g_state g); cbn;
      destruct (p_is_cpu (g_player_right g)); cbn;
      repeat split; first [reflexivity | apply Hb].
  - injection H as <-. left. unfold GameView.on_key_release.
    unfold still_burned, burned in *.
    destruct side, k; cbn in *; destruct (p_is_cpu (g_player_right g)); cbn;
      repeat split; first [reflexivity | apply Hb].
  - injection H as <-. unfold GameView._apply_material.
    destruct (g_selected_player_for_material g) eqn:Es, side; cbn;
      first [ left; apply still_burned_refl; exact Hb
            | right; left; split; [exists name; reflexivity | reflexivity] ].
  - injection H as <-. left. unfold GameView._toggle_pause.
    destruct side; destruct (g_state g); cbn;
      apply still_burned_refl; exact Hb.
Qed.

Lemma burn_lasts_witness :
  let g := FireEvent.apply (playing_with ball_high) in
  burned (g_player_left (GameView.on_key_press K_W g))
  \/ g_selected_player_for_material g = Left.
Proof.
  cbv zeta.
  destruct (burn_lasts Left (Host_on_key_press K_W)
              (FireEvent.apply (playing_with ball_high)) _ eq_refl)
    as [(H & _) | [(_ & H) | ((dt & rnd & H) & _)]].
  - split; reflexivity.
  - left. exact H.
  - right. exact H.
  - discriminate H.
Defined.
